(** * Crew-connect backend: worker and material workflows

    A shallow embedding of the Express route handlers of the construction
    backend (routes/projects.js, routes/workers.js, routes/materials.js,
    routes/milestones.js) over a model of the single SQLite connection
    they share (db.js), and the properties of the role-scoped workflows:
    worker requests, direct assignment, material orders and the
    project-scoped read guard.

    Conventions of the embedding:
    - a table with an INTEGER PRIMARY KEY is a finite map from the key to
      the row; only the columns the workflows read or write are kept
      (free text such as names and descriptions of projects and materials,
      password hashes, creation timestamps and image blobs are left out);
    - ids, quantities and prices are integers ([Z]); the request body of an
      order is taken to carry a JSON integer as its quantity, except in the
      part on untyped bodies, which follows the order route on any JSON
      scalar;
    - every [await db.get/run(...)] is one atomic operation on the
      connection; a handler is a tree of such operations, so that handlers
      can be run to completion or interleaved at their awaits;
    - a statement may fail (the driver rejects the promise); which ones do
      is decided by an environment [fault], indexed by the number of
      statements the connection has executed so far. *)

From Stdlib Require Import ZArith QArith String Ascii List Lia.
From stdpp Require Import base option gmap strings list fin_maps.

Local Open Scope Z_scope.
Local Open Scope string_scope.

(** ** Data model (db.js) *)

(** users.user_type, CHECK(user_type IN ('admin', 'user', 'worker')). *)
Inductive user_kind := admin | user | worker.

(** worker_requests.status, CHECK(status IN ('pending','accepted','rejected')). *)
Inductive request_status := pending | accepted | rejected.

(** projects.status. *)
Inductive project_status := planning | in_progress | completed | cancelled.

#[global] Instance user_kind_eq_dec : EqDecision user_kind.
Proof. solve_decision. Defined.
#[global] Instance request_status_eq_dec : EqDecision request_status.
Proof. solve_decision. Defined.
#[global] Instance project_status_eq_dec : EqDecision project_status.
Proof. solve_decision. Defined.

(** Row of [users]; sub_user_type is a nullable TEXT column. *)
Record user_row := UserRow {
  username : string;
  email : string;
  u_user_type : user_kind;
  u_sub_user_type : option string;
  is_available : bool
}.

(** Row of [projects]. *)
Record project_row := ProjectRow {
  created_by : Z;
  civil_engineer_id : option Z;
  p_status : project_status
}.

(** Row of [worker_requests]. *)
Record request_row := RequestRow {
  wr_project_id : Z;
  wr_worker_id : Z;
  wr_requested_by : Z;
  wr_status : request_status;
  wr_message : string;
  wr_responded_at : option Z
}.

(** Row of [project_workers]; role is a nullable free TEXT column. *)
Record assignment_row := AssignmentRow {
  pw_project_id : Z;
  pw_worker_id : Z;
  pw_assigned_by : Z;
  pw_role : option string
}.

(** Row of [materials]. *)
Record material_row := MaterialRow {
  price_per_unit : Z;
  stock_quantity : Z
}.

(** Row of [project_materials]. *)
Record order_row := OrderRow {
  pm_project_id : Z;
  pm_material_id : Z;
  pm_quantity : Z;
  pm_total_cost : Z;
  pm_ordered_by : Z
}.

(** Row of [project_milestones]. *)
Record milestone_row := MilestoneRow {
  ms_project_id : Z;
  ms_title : string;
  ms_created_by : Z
}.

(** The database file: one finite map per table, and the sqlite_sequence
    entries of the AUTOINCREMENT tables the workflows insert into. *)
Record db := Db {
  users : gmap Z user_row;
  projects : gmap Z project_row;
  worker_requests : gmap Z request_row;
  project_workers : gmap Z assignment_row;
  materials : gmap Z material_row;
  project_materials : gmap Z order_row;
  project_milestones : gmap Z milestone_row;
  seq_worker_requests : Z;
  seq_project_workers : Z;
  seq_project_materials : Z
}.

(** [req.user], as the authentication middleware hands it to a handler. *)
Record actor := Actor {
  id : Z;
  user_type : user_kind;
  sub_user_type : option string
}.

(** ** HTTP responses *)

Inductive payload :=
| error_body (msg : string)
| message_body (msg : string)
| created_body (msg : string) (lastID : Z)
| ordered_body (msg : string) (total_cost : Z)
| material_rows (rows : list (Z * order_row * Z * string))
| milestone_rows (rows : list (Z * milestone_row * string))
| worker_rows (rows : list (Z * assignment_row * string * string * option string)).

Record response := Json { http_status : Z; body : payload }.

(** ** SQL statements issued by the workflows *)

(** Largest rowid of a table (0 when empty). *)
Definition max_rowid {V} (m : gmap Z V) : Z :=
  map_fold (fun k _ acc => Z.max k acc) 0 m.

(** AUTOINCREMENT: one more than the largest rowid that ever existed. *)
Definition next_rowid {V} (seq : Z) (m : gmap Z V) : Z :=
  Z.max seq (max_rowid m) + 1.

(** [db.get] with a WHERE clause over columns other than the key: some
    matching row, if there is one. *)
Definition select_first {V} (P : V -> bool) (m : gmap Z V) : option V :=
  snd <$> List.find (fun kv => P (snd kv)) (map_to_list m).

Definition request_status_of_string (s : string) : option request_status :=
  if decide (s = "pending") then Some pending
  else if decide (s = "accepted") then Some accepted
  else if decide (s = "rejected") then Some rejected
  else None.

Definition is_project_of_engineer (ce : Z) (p : project_row) : bool :=
  bool_decide (civil_engineer_id p = Some ce).

Definition is_available_engineer (u : user_row) : bool :=
  bool_decide (u_user_type u = worker)
  && bool_decide (u_sub_user_type u = Some "civil_engineer")
  && is_available u.

Definition is_available_worker (u : user_row) : bool :=
  bool_decide (u_user_type u = worker) && is_available u.

Definition is_pending_request (pid wid : Z) (r : request_row) : bool :=
  bool_decide (wr_project_id r = pid) && bool_decide (wr_worker_id r = wid)
  && bool_decide (wr_status r = pending).

Definition is_assignment (pid wid : Z) (a : assignment_row) : bool :=
  bool_decide (pw_project_id a = pid) && bool_decide (pw_worker_id a = wid).

Definition set_request_status (st : request_status) (now : Z) (r : request_row)
  : request_row :=
  RequestRow (wr_project_id r) (wr_worker_id r) (wr_requested_by r) st
             (wr_message r) (Some now).

Definition set_engineer (ce : Z) (p : project_row) : project_row :=
  ProjectRow (created_by p) (Some ce) in_progress.

Definition set_unavailable (u : user_row) : user_row :=
  UserRow (username u) (email u) (u_user_type u) (u_sub_user_type u) false.

Definition take_stock (qty : Z) (m : material_row) : material_row :=
  MaterialRow (price_per_unit m) (stock_quantity m - qty).

Definition with_users (d : db) (x : gmap Z user_row) : db :=
  Db x (projects d) (worker_requests d) (project_workers d) (materials d)
     (project_materials d) (project_milestones d) (seq_worker_requests d)
     (seq_project_workers d) (seq_project_materials d).

Definition with_projects (d : db) (x : gmap Z project_row) : db :=
  Db (users d) x (worker_requests d) (project_workers d) (materials d)
     (project_materials d) (project_milestones d) (seq_worker_requests d)
     (seq_project_workers d) (seq_project_materials d).

Definition with_worker_requests (d : db) (x : gmap Z request_row) (seq : Z) : db :=
  Db (users d) (projects d) x (project_workers d) (materials d)
     (project_materials d) (project_milestones d) seq
     (seq_project_workers d) (seq_project_materials d).

Definition with_project_workers (d : db) (x : gmap Z assignment_row) (seq : Z) : db :=
  Db (users d) (projects d) (worker_requests d) x (materials d)
     (project_materials d) (project_milestones d) (seq_worker_requests d)
     seq (seq_project_materials d).

Definition with_materials (d : db) (x : gmap Z material_row) : db :=
  Db (users d) (projects d) (worker_requests d) (project_workers d) x
     (project_materials d) (project_milestones d) (seq_worker_requests d)
     (seq_project_workers d) (seq_project_materials d).

Definition with_project_materials (d : db) (x : gmap Z order_row) (seq : Z) : db :=
  Db (users d) (projects d) (worker_requests d) (project_workers d) (materials d)
     x (project_milestones d) (seq_worker_requests d)
     (seq_project_workers d) seq.

(** The statements, indexed by what the driver resolves the promise to: a
    row or undefined for [db.get], the rows for [db.all], lastID for an
    INSERT. *)
Inductive sql : Type -> Type :=
(* SELECT * FROM projects WHERE id = ? *)
| select_project (pid : Z) : sql (option project_row)
(* SELECT * FROM projects WHERE id = ? AND civil_engineer_id = ? *)
| select_project_of_engineer (pid ce : Z) : sql (option project_row)
(* SELECT * FROM project_workers WHERE project_id = ? AND worker_id = ? *)
| select_project_worker (pid wid : Z) : sql (option assignment_row)
(* SELECT * FROM users WHERE id = ? AND user_type = 'worker'
   AND sub_user_type = 'civil_engineer' AND is_available = 1 *)
| select_available_engineer (wid : Z) : sql (option user_row)
(* SELECT * FROM users WHERE id = ? AND user_type = 'worker' AND is_available = 1 *)
| select_available_worker (wid : Z) : sql (option user_row)
(* SELECT * FROM worker_requests WHERE project_id = ? AND worker_id = ?
   AND status = 'pending' *)
| select_pending_request (pid wid : Z) : sql (option request_row)
(* SELECT * FROM worker_requests WHERE id = ? AND worker_id = ? *)
| select_request_of_worker (rid wid : Z) : sql (option request_row)
(* SELECT * FROM materials WHERE id = ? *)
| select_material (mid : Z) : sql (option material_row)
(* INSERT INTO worker_requests (project_id, worker_id, requested_by, message) *)
| insert_worker_request (pid wid by_ : Z) (msg : string) : sql Z
(* UPDATE worker_requests SET status = ?, responded_at = CURRENT_TIMESTAMP
   WHERE id = ? *)
| update_request_status (st : string) (rid : Z) : sql unit
(* UPDATE projects SET civil_engineer_id = ?, status = 'in_progress' WHERE id = ? *)
| update_project_engineer (ce pid : Z) : sql unit
(* INSERT INTO project_workers (project_id, worker_id, assigned_by, role) *)
| insert_project_worker (pid wid by_ : Z) (role : option string) : sql Z
(* UPDATE users SET is_available = 0 WHERE id = ? *)
| update_user_unavailable (wid : Z) : sql unit
(* INSERT INTO project_materials
   (project_id, material_id, quantity, total_cost, ordered_by) *)
| insert_project_material (pid mid qty cost by_ : Z) : sql Z
(* UPDATE materials SET stock_quantity = stock_quantity - ? WHERE id = ? *)
| update_material_stock (qty mid : Z) : sql unit
(* SELECT pm.*, m.price_per_unit, u.username FROM project_materials pm
   JOIN materials m ... JOIN users u ... WHERE pm.project_id = ? *)
| select_project_materials (pid : Z) : sql (list (Z * order_row * Z * string))
(* SELECT pm.*, u.username FROM project_milestones pm JOIN users u ...
   WHERE pm.project_id = ? *)
| select_project_milestones (pid : Z) : sql (list (Z * milestone_row * string))
(* SELECT pw.*, u.username, u.email, u.sub_user_type FROM project_workers pw
   JOIN users u ... WHERE pw.project_id = ? *)
| select_project_workers (pid : Z)
  : sql (list (Z * assignment_row * string * string * option string)).

Definition joined_materials (d : db) (pid : Z) : list (Z * order_row * Z * string) :=
  omap (fun kv : Z * order_row =>
          if bool_decide (pm_project_id (snd kv) = pid) then
            match materials d !! pm_material_id (snd kv),
                  users d !! pm_ordered_by (snd kv) with
            | Some m, Some u => Some (fst kv, snd kv, price_per_unit m, username u)
            | _, _ => None
            end
          else None)
       (map_to_list (project_materials d)).

Definition joined_milestones (d : db) (pid : Z) : list (Z * milestone_row * string) :=
  omap (fun kv : Z * milestone_row =>
          if bool_decide (ms_project_id (snd kv) = pid) then
            match users d !! ms_created_by (snd kv) with
            | Some u => Some (fst kv, snd kv, username u)
            | None => None
            end
          else None)
       (map_to_list (project_milestones d)).

Definition joined_workers (d : db) (pid : Z)
  : list (Z * assignment_row * string * string * option string) :=
  omap (fun kv : Z * assignment_row =>
          if bool_decide (pw_project_id (snd kv) = pid) then
            match users d !! pw_worker_id (snd kv) with
            | Some u => Some (fst kv, snd kv, username u, email u, u_sub_user_type u)
            | None => None
            end
          else None)
       (map_to_list (project_workers d)).

(** A row selected by key that must also satisfy the rest of the WHERE
    clause. *)
Definition row_where {V} (P : V -> bool) (o : option V) : option V :=
  match o with
  | Some r => if P r then Some r else None
  | None => None
  end.

(** What a statement does to the database at store time [now]: the value
    the promise resolves to and the new database, or the message of the
    error it is rejected with (a failed statement changes nothing). The
    only constraint a workflow statement can violate is the CHECK on
    worker_requests.status; foreign keys are not enforced by the
    connection db.js opens. The order of the listings (ORDER BY on
    timestamps) is not modelled. *)
Definition exec_sql {X} (s : sql X) (now : Z) (d : db) : string + X * db :=
  match s in sql X return string + X * db with
  | select_project pid => inr (projects d !! pid, d)
  | select_project_of_engineer pid ce =>
      inr (row_where (is_project_of_engineer ce) (projects d !! pid), d)
  | select_project_worker pid wid =>
      inr (select_first (is_assignment pid wid) (project_workers d), d)
  | select_available_engineer wid =>
      inr (row_where is_available_engineer (users d !! wid), d)
  | select_available_worker wid =>
      inr (row_where is_available_worker (users d !! wid), d)
  | select_pending_request pid wid =>
      inr (select_first (is_pending_request pid wid) (worker_requests d), d)
  | select_request_of_worker rid wid =>
      inr (row_where (fun r => bool_decide (wr_worker_id r = wid))
                     (worker_requests d !! rid), d)
  | select_material mid => inr (materials d !! mid, d)
  | insert_worker_request pid wid by_ msg =>
      let i := next_rowid (seq_worker_requests d) (worker_requests d) in
      inr (i, with_worker_requests d
                (<[i := RequestRow pid wid by_ pending msg None]> (worker_requests d)) i)
  | update_request_status st rid =>
      match worker_requests d !! rid with
      | None => inr (tt, d)
      | Some _ =>
          match request_status_of_string st with
          | None => inl "SQLITE_CONSTRAINT: CHECK constraint failed: worker_requests"
          | Some st' =>
              inr (tt, with_worker_requests d
                         (alter (set_request_status st' now) rid (worker_requests d))
                         (seq_worker_requests d))
          end
      end
  | update_project_engineer ce pid =>
      inr (tt, with_projects d (alter (set_engineer ce) pid (projects d)))
  | insert_project_worker pid wid by_ role =>
      let i := next_rowid (seq_project_workers d) (project_workers d) in
      inr (i, with_project_workers d
                (<[i := AssignmentRow pid wid by_ role]> (project_workers d)) i)
  | update_user_unavailable wid =>
      inr (tt, with_users d (alter set_unavailable wid (users d)))
  | insert_project_material pid mid qty cost by_ =>
      let i := next_rowid (seq_project_materials d) (project_materials d) in
      inr (i, with_project_materials d
                (<[i := OrderRow pid mid qty cost by_]> (project_materials d)) i)
  | update_material_stock qty mid =>
      inr (tt, with_materials d (alter (take_stock qty) mid (materials d)))
  | select_project_materials pid => inr (joined_materials d pid, d)
  | select_project_milestones pid => inr (joined_milestones d pid, d)
  | select_project_workers pid => inr (joined_workers d pid, d)
  end.

(** ** The connection *)

(** Operations on the connection: the three transaction-control
    statements and the data statements above. *)
Inductive op : Type -> Type :=
| begin_transaction : op unit
| commit : op unit
| rollback : op unit
| stmt {X} (s : sql X) : op X.

(** State of the one connection all handlers share: the current contents,
    the contents at BEGIN while a transaction is open, and the number of
    statements executed so far. *)
Record conn := Conn {
  data : db;
  saved : option db;
  ticks : nat
}.

Definition idle (d : db) (n : nat) : conn := Conn d None n.

Definition io_error : string := "SQLITE_IOERR: disk I/O error".

Section Connection.
(** The environment: whether the n-th statement of the connection hits a
    fault of the store, and the store's clock at that statement. ROLLBACK
    is taken to fail only when no transaction is open. *)
Variable fault : nat -> bool.
Variable clock : nat -> Z.

Definition exec_op {X} (o : op X) (c : conn) : (string + X) * conn :=
  match o in op X return (string + X) * conn with
  | begin_transaction =>
      if fault (ticks c) then (inl io_error, Conn (data c) (saved c) (S (ticks c)))
      else match saved c with
           | Some _ =>
               (inl "SQLITE_ERROR: cannot start a transaction within a transaction",
                Conn (data c) (saved c) (S (ticks c)))
           | None => (inr tt, Conn (data c) (Some (data c)) (S (ticks c)))
           end
  | commit =>
      if fault (ticks c) then (inl io_error, Conn (data c) (saved c) (S (ticks c)))
      else match saved c with
           | Some _ => (inr tt, Conn (data c) None (S (ticks c)))
           | None =>
               (inl "SQLITE_ERROR: cannot commit - no transaction is active",
                Conn (data c) None (S (ticks c)))
           end
  | rollback =>
      match saved c with
      | Some d0 => (inr tt, Conn d0 None (S (ticks c)))
      | None =>
          (inl "SQLITE_ERROR: cannot rollback - no transaction is active",
           Conn (data c) None (S (ticks c)))
      end
  | stmt s =>
      if fault (ticks c) then (inl io_error, Conn (data c) (saved c) (S (ticks c)))
      else match exec_sql s (clock (ticks c)) (data c) with
           | inl e => (inl e, Conn (data c) (saved c) (S (ticks c)))
           | inr (x, d') => (inr x, Conn d' (saved c) (S (ticks c)))
           end
  end.
End Connection.

(** ** Handlers as trees of awaited operations *)

(** An async handler body: it returns, throws, or awaits an operation and
    continues with what the promise settles to (rejected with a message,
    or resolved with a value). *)
Inductive prog (A : Type) : Type :=
| Ret (a : A)
| Throw (e : string)
| Await {X : Type} (o : op X) (k : string + X -> prog A).
Arguments Ret {A} a.
Arguments Throw {A} e.
Arguments Await {A X} o k.

Fixpoint bind {A B} (p : prog A) (f : A -> prog B) : prog B :=
  match p with
  | Ret a => f a
  | Throw e => Throw e
  | Await o k => Await o (fun r => bind (k r) f)
  end.

(** [try { p } catch (error) { h error }]. *)
Fixpoint try_catch {A} (p : prog A) (h : string -> prog A) : prog A :=
  match p with
  | Ret a => Ret a
  | Throw e => h e
  | Await o k => Await o (fun r => try_catch (k r) h)
  end.

(** [await db.get/run/all(...)]: a rejected promise throws. *)
Definition await {X} (o : op X) : prog X :=
  Await o (fun r => match r with inl e => Throw e | inr x => Ret x end).

Notation "'let*' x ':=' p 'in' q" := (bind p (fun x => q))
  (at level 10, x name, p at level 100, q at level 200).

Section Run.
Variable fault : nat -> bool.
Variable clock : nat -> Z.

(** One scheduling step of a handler: it performs the operation it is
    waiting on; a finished handler stays as it is. *)
Definition step {A} (p : prog A) (c : conn) : prog A * conn :=
  match p with
  | Await o k => let rc := exec_op fault clock o c in (k (fst rc), snd rc)
  | _ => (p, c)
  end.

(** A handler run to completion with no other handler in between. *)
Fixpoint run {A} (p : prog A) (c : conn) : (string + A) * conn :=
  match p with
  | Ret a => (inr a, c)
  | Throw e => (inl e, c)
  | Await o k => let rc := exec_op fault clock o c in run (k (fst rc)) (snd rc)
  end.

(** Two handlers in flight on the connection; the schedule says which
    one the event loop resumes next ([true]: the first). *)
Fixpoint interleave {A} (sched : list bool) (p q : prog A) (c : conn)
  : prog A * prog A * conn :=
  match sched with
  | nil => (p, q, c)
  | true :: sched' => let pc := step p c in interleave sched' (fst pc) q (snd pc)
  | false :: sched' => let qc := step q c in interleave sched' p (fst qc) (snd qc)
  end.
End Run.

(** ** Route handlers *)

Definition db_get {X} (s : sql (option X)) : prog (option X) := await (stmt s).
Definition db_all {X} (s : sql (list X)) : prog (list X) := await (stmt s).
Definition db_run {X} (s : sql X) : prog X := await (stmt s).

Definition send (code : Z) (b : payload) : prog response := Ret (Json code b).

(** The outer [catch (error) { res.status(500).json({ error: error.message }) }]
    every handler ends with. *)
Definition internal_error (e : string) : prog response := send 500 (error_body e).

(** The inner [catch (error) { await db.run("ROLLBACK"); throw error; }]. *)
Definition rollback_and_rethrow {A} (e : string) : prog A :=
  let* _ := await rollback in Throw e.

(** projects.js, POST /:id/request-worker. *)
Definition request_worker (u : actor) (project_id worker_id : Z) (message : string)
  : prog response :=
  try_catch
    (let* project := db_get (select_project project_id) in
     match project with
     | None => send 404 (error_body "Project not found")
     | Some project =>
         if negb (bool_decide (created_by project = id u)) then
           send 403 (error_body "Not authorized")
         else
           let* worker_ := db_get (select_available_engineer worker_id) in
           match worker_ with
           | None => send 400 (error_body "Worker not available")
           | Some _ =>
               let* existingRequest :=
                 db_get (select_pending_request project_id worker_id) in
               match existingRequest with
               | Some _ => send 400 (error_body "Request already sent to this worker")
               | None =>
                   let* lastID :=
                     db_run (insert_worker_request project_id worker_id (id u) message) in
                   send 201 (created_body "Worker request sent successfully" lastID)
               end
           end
     end)
    internal_error.

(** workers.js, PUT /requests/:id/respond; [status] is the body's field. *)
Definition respond (u : actor) (request_id : Z) (status : string) : prog response :=
  if negb (bool_decide (user_type u = worker)) then
    send 403 (error_body "Only workers can respond to requests")
  else
    try_catch
      (let* request := db_get (select_request_of_worker request_id (id u)) in
       match request with
       | None => send 404 (error_body "Request not found")
       | Some request =>
           if negb (bool_decide (wr_status request = pending)) then
             send 400 (error_body "Request already responded to")
           else
             let* _ := await begin_transaction in
             try_catch
               (let* _ := db_run (update_request_status status request_id) in
                let* _ :=
                  if bool_decide (status = "accepted") then
                    let* _ := db_run (update_project_engineer (id u) (wr_project_id request)) in
                    let* _ := db_run (insert_project_worker (wr_project_id request) (id u)
                                        (id u) (Some "civil_engineer")) in
                    db_run (update_user_unavailable (id u))
                  else Ret tt in
                let* _ := await commit in
                send 200 (message_body ("Request " ++ status ++ " successfully")))
               rollback_and_rethrow
       end)
      internal_error.

(** JavaScript's [role || worker.sub_user_type]: the empty string and a
    missing field are falsy. *)
Definition role_or (role sub : option string) : option string :=
  match role with
  | Some r => if bool_decide (r = "") then sub else Some r
  | None => sub
  end.

(** workers.js, POST /assign. *)
Definition assign (u : actor) (project_id worker_id : Z) (role : option string)
  : prog response :=
  if negb (bool_decide (user_type u = worker))
     || negb (bool_decide (sub_user_type u = Some "civil_engineer")) then
    send 403 (error_body "Only civil engineers can assign workers")
  else
    try_catch
      (let* project := db_get (select_project_of_engineer project_id (id u)) in
       match project with
       | None => send 403 (error_body "Not authorized for this project")
       | Some _ =>
           let* worker_ := db_get (select_available_worker worker_id) in
           match worker_ with
           | None => send 400 (error_body "Worker not available")
           | Some worker_ =>
               let* _ := await begin_transaction in
               try_catch
                 (let* _ := db_run (insert_project_worker project_id worker_id (id u)
                                      (role_or role (u_sub_user_type worker_))) in
                  let* _ := db_run (update_user_unavailable worker_id) in
                  let* _ := await commit in
                  send 200 (message_body "Worker assigned successfully"))
                 rollback_and_rethrow
           end
       end)
      internal_error.

(** materials.js, POST /order. *)
Definition order_material (u : actor) (project_id material_id quantity : Z)
  : prog response :=
  try_catch
    (let* project := db_get (select_project_of_engineer project_id (id u)) in
     match project with
     | None => send 403 (error_body "Not authorized for this project")
     | Some _ =>
         let* material := db_get (select_material material_id) in
         match material with
         | None => send 404 (error_body "Material not found")
         | Some material =>
             if (stock_quantity material <? quantity)%Z then
               send 400 (error_body "Insufficient stock")
             else
               let total_cost := price_per_unit material * quantity in
               let* _ := await begin_transaction in
               try_catch
                 (let* _ := db_run (insert_project_material project_id material_id
                                      quantity total_cost (id u)) in
                  let* _ := db_run (update_material_stock quantity material_id) in
                  let* _ := await commit in
                  send 200 (ordered_body "Material ordered successfully" total_cost))
                 rollback_and_rethrow
         end
     end)
    internal_error.

(** The access check and listing shared, statement for statement, by
    GET /project/:projectId of materials.js, milestones.js and workers.js. *)
Definition read_project {X} (listing : Z -> sql (list X)) (wrap : list X -> payload)
    (u : actor) (projectId : Z) : prog response :=
  try_catch
    (let* project := db_get (select_project projectId) in
     match project with
     | None => send 404 (error_body "Project not found")
     | Some project =>
         if bool_decide (user_type u = user)
            && negb (bool_decide (created_by project = id u)) then
           send 403 (error_body "Not authorized")
         else
           let listing_ :=
             let* rows := db_all (listing projectId) in
             send 200 (wrap rows) in
           if bool_decide (user_type u = worker)
              && negb (bool_decide (civil_engineer_id project = Some (id u))) then
             let* workerInProject := db_get (select_project_worker projectId (id u)) in
             match workerInProject with
             | None => send 403 (error_body "Not authorized")
             | Some _ => listing_
             end
           else listing_
     end)
    internal_error.

Definition get_project_materials := read_project select_project_materials material_rows.
Definition get_project_milestones := read_project select_project_milestones milestone_rows.
Definition get_project_workers := read_project select_project_workers worker_rows.

(** ** The router *)

(** The calls of the modelled routes (server.js mounts the routers). *)
Inductive call :=
| RequestWorker (u : actor) (project_id worker_id : Z) (message : string)
| Respond (u : actor) (request_id : Z) (status : string)
| Assign (u : actor) (project_id worker_id : Z) (role : option string)
| OrderMaterial (u : actor) (project_id material_id quantity : Z)
| GetProjectMaterials (u : actor) (projectId : Z)
| GetProjectMilestones (u : actor) (projectId : Z)
| GetProjectWorkers (u : actor) (projectId : Z).

Definition handler (r : call) : prog response :=
  match r with
  | RequestWorker u p w msg => request_worker u p w msg
  | Respond u rid status => respond u rid status
  | Assign u p w role => assign u p w role
  | OrderMaterial u p m q => order_material u p m q
  | GetProjectMaterials u p => get_project_materials u p
  | GetProjectMilestones u p => get_project_milestones u p
  | GetProjectWorkers u p => get_project_workers u p
  end.

Definition is_order (r : call) : bool :=
  match r with OrderMaterial _ _ _ _ => true | _ => false end.

Section Serve.
Variable fault : nat -> bool.
Variable clock : nat -> Z.

(** Calls handled one after the other, each to completion. *)
Fixpoint serve (rs : list call) (c : conn) : conn :=
  match rs with
  | nil => c
  | r :: rs' => serve rs' (snd (run fault clock (handler r) c))
  end.

(** The operations a handler performs on the connection when run to
    completion, in order. *)
Fixpoint oplog {A} (p : prog A) (c : conn) : list (sigT op) :=
  match p with
  | Await o k =>
      let rc := exec_op fault clock o c in
      existT _ o :: oplog (k (fst rc)) (snd rc)
  | _ => nil
  end.
End Serve.

(** ** Outcomes of the workflows

    What each handler can answer from a database [d], and the database it
    leaves, when no statement hits a fault of the store. *)

Definition authorized_engineer (u : actor) (pid : Z) (d : db) : option project_row :=
  row_where (is_project_of_engineer (id u)) (projects d !! pid).

(** Writes of a committed order. *)
Definition order_commit (u : actor) (pid mid q : Z) (m : material_row) (d : db) : db :=
  let i := next_rowid (seq_project_materials d) (project_materials d) in
  with_materials
    (with_project_materials d
       (<[i := OrderRow pid mid q (price_per_unit m * q) (id u)]> (project_materials d)) i)
    (alter (take_stock q) mid (materials d)).

Inductive order_outcome (u : actor) (pid mid q : Z) (d : db) : response -> db -> Prop :=
| order_forbidden :
    authorized_engineer u pid d = None ->
    order_outcome u pid mid q d (Json 403 (error_body "Not authorized for this project")) d
| order_no_material p :
    authorized_engineer u pid d = Some p ->
    materials d !! mid = None ->
    order_outcome u pid mid q d (Json 404 (error_body "Material not found")) d
| order_insufficient p m :
    authorized_engineer u pid d = Some p ->
    materials d !! mid = Some m ->
    (stock_quantity m < q)%Z ->
    order_outcome u pid mid q d (Json 400 (error_body "Insufficient stock")) d
| order_placed p m :
    authorized_engineer u pid d = Some p ->
    materials d !! mid = Some m ->
    (q <= stock_quantity m)%Z ->
    order_outcome u pid mid q d
      (Json 200 (ordered_body "Material ordered successfully" (price_per_unit m * q)))
      (order_commit u pid mid q m d).

Definition own_request (u : actor) (rid : Z) (d : db) : option request_row :=
  row_where (fun r => bool_decide (wr_worker_id r = id u)) (worker_requests d !! rid).

(** Writes of a committed response with decision [st] at store time [now]. *)
Definition mark_responded (rid : Z) (st : request_status) (now : Z) (d : db) : db :=
  with_worker_requests d (alter (set_request_status st now) rid (worker_requests d))
                       (seq_worker_requests d).

Definition install_engineer (u : actor) (pid : Z) (d : db) : db :=
  let d2 := with_projects d (alter (set_engineer (id u)) pid (projects d)) in
  let i := next_rowid (seq_project_workers d2) (project_workers d2) in
  let d3 :=
    with_project_workers d2
      (<[i := AssignmentRow pid (id u) (id u) (Some "civil_engineer")]> (project_workers d2))
      i in
  with_users d3 (alter set_unavailable (id u) (users d3)).

Definition respond_commit (u : actor) (rid : Z) (request : request_row) (status : string)
    (st : request_status) (now : Z) (d : db) : db :=
  if bool_decide (status = "accepted")
  then install_engineer u (wr_project_id request) (mark_responded rid st now d)
  else mark_responded rid st now d.

Inductive respond_outcome (u : actor) (rid : Z) (status : string) (d : db)
  : response -> db -> Prop :=
| respond_not_worker :
    user_type u <> worker ->
    respond_outcome u rid status d
      (Json 403 (error_body "Only workers can respond to requests")) d
| respond_not_found :
    user_type u = worker ->
    own_request u rid d = None ->
    respond_outcome u rid status d (Json 404 (error_body "Request not found")) d
| respond_conflict request :
    user_type u = worker ->
    own_request u rid d = Some request ->
    wr_status request <> pending ->
    respond_outcome u rid status d
      (Json 400 (error_body "Request already responded to")) d
| respond_bad_status request :
    user_type u = worker ->
    own_request u rid d = Some request ->
    wr_status request = pending ->
    request_status_of_string status = None ->
    respond_outcome u rid status d
      (Json 500 (error_body "SQLITE_CONSTRAINT: CHECK constraint failed: worker_requests")) d
| respond_done request st now :
    user_type u = worker ->
    own_request u rid d = Some request ->
    wr_status request = pending ->
    request_status_of_string status = Some st ->
    respond_outcome u rid status d
      (Json 200 (message_body ("Request " ++ status ++ " successfully")))
      (respond_commit u rid request status st now d).

Definition has_pending (pid wid : Z) (d : db) : option request_row :=
  select_first (is_pending_request pid wid) (worker_requests d).

Definition available_engineer (wid : Z) (d : db) : option user_row :=
  row_where is_available_engineer (users d !! wid).

Definition request_commit (u : actor) (pid wid : Z) (msg : string) (d : db) : db :=
  let i := next_rowid (seq_worker_requests d) (worker_requests d) in
  with_worker_requests d
    (<[i := RequestRow pid wid (id u) pending msg None]> (worker_requests d)) i.

Inductive request_outcome (u : actor) (pid wid : Z) (msg : string) (d : db)
  : response -> db -> Prop :=
| request_no_project :
    projects d !! pid = None ->
    request_outcome u pid wid msg d (Json 404 (error_body "Project not found")) d
| request_not_owner p :
    projects d !! pid = Some p ->
    created_by p <> id u ->
    request_outcome u pid wid msg d (Json 403 (error_body "Not authorized")) d
| request_unavailable p :
    projects d !! pid = Some p ->
    created_by p = id u ->
    available_engineer wid d = None ->
    request_outcome u pid wid msg d (Json 400 (error_body "Worker not available")) d
| request_duplicate p w r :
    projects d !! pid = Some p ->
    created_by p = id u ->
    available_engineer wid d = Some w ->
    has_pending pid wid d = Some r ->
    request_outcome u pid wid msg d
      (Json 400 (error_body "Request already sent to this worker")) d
| request_sent p w :
    projects d !! pid = Some p ->
    created_by p = id u ->
    available_engineer wid d = Some w ->
    has_pending pid wid d = None ->
    request_outcome u pid wid msg d
      (Json 201 (created_body "Worker request sent successfully"
                   (next_rowid (seq_worker_requests d) (worker_requests d))))
      (request_commit u pid wid msg d).

Definition available_worker (wid : Z) (d : db) : option user_row :=
  row_where is_available_worker (users d !! wid).

Definition is_civil_engineer (u : actor) : Prop :=
  user_type u = worker /\ sub_user_type u = Some "civil_engineer".

Definition assign_commit (u : actor) (pid wid : Z) (role : option string)
    (w : user_row) (d : db) : db :=
  let i := next_rowid (seq_project_workers d) (project_workers d) in
  let d1 :=
    with_project_workers d
      (<[i := AssignmentRow pid wid (id u) (role_or role (u_sub_user_type w))]>
         (project_workers d)) i in
  with_users d1 (alter set_unavailable wid (users d1)).

Inductive assign_outcome (u : actor) (pid wid : Z) (role : option string) (d : db)
  : response -> db -> Prop :=
| assign_not_engineer :
    ~ is_civil_engineer u ->
    assign_outcome u pid wid role d
      (Json 403 (error_body "Only civil engineers can assign workers")) d
| assign_forbidden :
    is_civil_engineer u ->
    authorized_engineer u pid d = None ->
    assign_outcome u pid wid role d
      (Json 403 (error_body "Not authorized for this project")) d
| assign_unavailable p :
    is_civil_engineer u ->
    authorized_engineer u pid d = Some p ->
    available_worker wid d = None ->
    assign_outcome u pid wid role d (Json 400 (error_body "Worker not available")) d
| assign_done p w :
    is_civil_engineer u ->
    authorized_engineer u pid d = Some p ->
    available_worker wid d = Some w ->
    assign_outcome u pid wid role d
      (Json 200 (message_body "Worker assigned successfully"))
      (assign_commit u pid wid role w d).

Definition assigned_to (u : actor) (pid : Z) (d : db) : option assignment_row :=
  select_first (is_assignment pid (id u)) (project_workers d).

Inductive read_outcome (u : actor) (pid : Z) (rows : payload) (d : db) : response -> Prop :=
| read_no_project :
    projects d !! pid = None ->
    read_outcome u pid rows d (Json 404 (error_body "Project not found"))
| read_not_owner p :
    projects d !! pid = Some p ->
    user_type u = user ->
    created_by p <> id u ->
    read_outcome u pid rows d (Json 403 (error_body "Not authorized"))
| read_not_assigned p :
    projects d !! pid = Some p ->
    user_type u = worker ->
    civil_engineer_id p <> Some (id u) ->
    assigned_to u pid d = None ->
    read_outcome u pid rows d (Json 403 (error_body "Not authorized"))
| read_allowed p :
    projects d !! pid = Some p ->
    (user_type u = user -> created_by p = id u) ->
    (user_type u = worker ->
     civil_engineer_id p = Some (id u) \/ is_Some (assigned_to u pid d)) ->
    read_outcome u pid rows d (Json 200 rows).

(** The status code a completed handler answered with (none if the
    error escaped the handler). *)
Definition status_of (r : string + response) : option Z :=
  match r with
  | inr resp => Some (http_status resp)
  | inl _ => None
  end.

(** No material is overdrawn. *)
Definition stock_nonneg (d : db) : Prop :=
  map_Forall (fun _ m => (0 <= stock_quantity m)%Z) (materials d).

(** No statement of the connection hits a fault. *)
Definition reliable (fault : nat -> bool) : Prop := forall k, fault k = false.

(** Some statement among the [n]-th to the one before the [n']-th did. *)
Definition faulted (fault : nat -> bool) (n n' : nat) : Prop :=
  exists k, (n <= k < n')%nat /\ fault k = true.

(** A call that hit a fault: it answers 500 and leaves the database as it
    was. *)
Definition failed (fault : nat -> bool) (d : db) (n : nat)
    (resp : response) (d' : db) (n' : nat) : Prop :=
  resp = Json 500 (error_body io_error) /\ d' = d /\ faulted fault n n'.

(** ** Sample data *)

Definition no_fault : nat -> bool := fun _ => false.

(** Only the [k]-th statement of the connection fails. *)
Definition fault_at (k : nat) : nat -> bool := Nat.eqb k.
Definition wall_clock : nat -> Z := fun n => 1000 + Z.of_nat n.

Definition root_ : actor := Actor 1 admin None.
Definition alice : actor := Actor 2 user None.
Definition bob : actor := Actor 3 worker (Some "civil_engineer").
Definition carl : actor := Actor 4 worker (Some "civil_engineer").
Definition dan : actor := Actor 5 worker (Some "painter").

Definition sample_users : gmap Z user_row :=
  list_to_map
    [(1, UserRow "super_admin" "admin@gmail.com" admin None true);
     (2, UserRow "alice" "alice@example.com" user None true);
     (3, UserRow "bob" "bob@example.com" worker (Some "civil_engineer") true);
     (4, UserRow "carl" "carl@example.com" worker (Some "civil_engineer") true);
     (5, UserRow "dan" "dan@example.com" worker (Some "painter") true)].

(** A fresh project of alice's, and a material with ten units in stock. *)
Definition site0 : db :=
  Db sample_users
     (list_to_map [(1, ProjectRow 2 None planning)])
     ∅ ∅
     (list_to_map [(1, MaterialRow 450 10)])
     ∅ ∅ 0 0 0.

(** The same project with alice's request to bob pending. *)
Definition site_pending : db :=
  data (serve no_fault wall_clock [RequestWorker alice 1 3 "join us"] (idle site0 0)).

(** The same project once bob has accepted alice's request. *)
Definition site1 : db :=
  data (serve no_fault wall_clock
          [RequestWorker alice 1 3 "join us"; Respond bob 1 "accepted"]
          (idle site0 0)).

(** Two projects of alice's, both with a pending request to bob, who has
    accepted the first and is therefore unavailable. *)
Definition site_busy : db :=
  data (serve no_fault wall_clock
          [RequestWorker alice 1 3 "first site"; RequestWorker alice 2 3 "second site";
           Respond bob 1 "accepted"]
          (idle (with_projects site0
                   (list_to_map [(1, ProjectRow 2 None planning);
                                 (2, ProjectRow 2 None planning)])) 0)).

(** Two orders of 8 units in flight at once: both read the project and
    the material before either opens its transaction. *)
Definition race_schedule : list bool :=
  [true; true; false; false; true; true; true; true; false; false; false; false].

Definition race_result : prog response * prog response * conn :=
  interleave no_fault wall_clock race_schedule
    (order_material bob 1 1 8) (order_material bob 1 1 8) (idle site1 0).

(** The event loop resuming the two handlers in turn. *)
Definition lockstep_schedule : list bool :=
  [true; false; true; false; true; false; true; false; true; false; true; false].

Definition lockstep_result : prog response * prog response * conn :=
  interleave no_fault wall_clock lockstep_schedule
    (order_material bob 1 1 8) (order_material bob 1 1 8) (idle site1 0).

(** ** The other routes

    The routes of the same files that use no transaction: user
    administration (auth.js), the materials and projects tables
    (materials.js, projects.js), the listings of workers.js and the removal
    of a milestone (milestones.js). They run on the same connection. The
    routes that insert into users, projects, materials or project_milestones
    need the sqlite_sequence entries of those tables and are not modelled;
    nor are the milestone updates, whose columns the rows above leave out. *)

(** projects.status, CHECK(status IN ('planning', 'in_progress',
    'completed', 'cancelled')), as it reads a bound string. *)
Definition project_status_of_string (s : string) : option project_status :=
  if decide (s = "planning") then Some planning
  else if decide (s = "in_progress") then Some in_progress
  else if decide (s = "completed") then Some completed
  else if decide (s = "cancelled") then Some cancelled
  else None.

Definition set_project_status (st : project_status) (p : project_row) : project_row :=
  ProjectRow (created_by p) (civil_engineer_id p) st.

Definition with_project_milestones (d : db) (x : gmap Z milestone_row) : db :=
  Db (users d) (projects d) (worker_requests d) (project_workers d) (materials d)
     (project_materials d) x (seq_worker_requests d)
     (seq_project_workers d) (seq_project_materials d).

(** The WHERE clause GET /api/projects appends to its query. *)
Inductive project_filter :=
| every_project
| projects_created_by (uid : Z)
| projects_of_worker (wid : Z).

Definition is_accepted_request (pid wid : Z) (r : request_row) : bool :=
  bool_decide (wr_project_id r = pid) && bool_decide (wr_worker_id r = wid)
  && bool_decide (wr_status r = accepted).

(** p.id IN (SELECT project_id FROM project_workers WHERE worker_id = ?
    UNION SELECT project_id FROM worker_requests WHERE worker_id = ? AND
    status = 'accepted'). *)
Definition works_on (wid : Z) (d : db) (pid : Z) : bool :=
  bool_decide (is_Some (select_first (is_assignment pid wid) (project_workers d)))
  || bool_decide (is_Some (select_first (is_accepted_request pid wid) (worker_requests d))).

Definition passes_filter (f : project_filter) (d : db) (pid : Z) (p : project_row) : bool :=
  match f with
  | every_project => true
  | projects_created_by uid => bool_decide (created_by p = uid)
  | projects_of_worker wid => works_on wid d pid
  end.

Definition name_of (d : db) (uid : Z) : option string :=
  match users d !! uid with
  | Some u => Some (username u)
  | None => None
  end.

(** Rows of the projects listing: the project with the names of its
    creator and of its civil engineer (LEFT JOINs). *)
Definition listed_projects (f : project_filter) (d : db)
  : list (Z * project_row * option string * option string) :=
  omap (fun kv : Z * project_row =>
          if passes_filter f d (fst kv) (snd kv) then
            Some (fst kv, snd kv, name_of d (created_by (snd kv)),
                  match civil_engineer_id (snd kv) with
                  | Some ce => name_of d ce
                  | None => None
                  end)
          else None)
       (map_to_list (projects d)).

Definition listed_users (d : db) : list (Z * user_row) :=
  List.filter (fun kv : Z * user_row => negb (bool_decide (u_user_type (snd kv) = admin)))
              (map_to_list (users d)).

Definition listed_engineers (d : db) : list (Z * string * string) :=
  omap (fun kv : Z * user_row =>
          if is_available_engineer (snd kv)
          then Some (fst kv, username (snd kv), email (snd kv)) else None)
       (map_to_list (users d)).

Definition listed_workers (self : Z) (d : db)
  : list (Z * string * string * option string) :=
  omap (fun kv : Z * user_row =>
          if is_available_worker (snd kv) && negb (bool_decide (fst kv = self))
          then Some (fst kv, username (snd kv), email (snd kv), u_sub_user_type (snd kv))
          else None)
       (map_to_list (users d)).

(** Requests addressed to a worker, with the requester's name; the inner
    JOINs drop the requests whose project or requester is gone. *)
Definition listed_requests (wid : Z) (d : db) : list (Z * request_row * string) :=
  omap (fun kv : Z * request_row =>
          if bool_decide (wr_worker_id (snd kv) = wid) then
            match projects d !! wr_project_id (snd kv),
                  users d !! wr_requested_by (snd kv) with
            | Some _, Some u => Some (fst kv, snd kv, username u)
            | _, _ => None
            end
          else None)
       (map_to_list (worker_requests d)).

Definition sent_requests (uid : Z) (d : db) : list (Z * request_row) :=
  List.filter (fun kv : Z * request_row => bool_decide (wr_requested_by (snd kv) = uid))
              (map_to_list (worker_requests d)).

(** SELECT COUNT( * ) FROM projects WHERE created_by = ?. *)
Definition projects_created (uid : Z) (d : db) : Z :=
  Z.of_nat (length (List.filter
                      (fun kv : Z * project_row => bool_decide (created_by (snd kv) = uid))
                      (map_to_list (projects d)))).

(** SELECT COUNT( * ) FROM worker_requests WHERE worker_id = ? OR requested_by = ?. *)
Definition requests_involving (uid : Z) (d : db) : Z :=
  Z.of_nat (length (List.filter
                      (fun kv : Z * request_row =>
                         bool_decide (wr_worker_id (snd kv) = uid)
                         || bool_decide (wr_requested_by (snd kv) = uid))
                      (map_to_list (worker_requests d)))).

(** The statements of these routes. A text column the rows leave out but
    the table declares NOT NULL is kept as an argument of the UPDATE that
    binds it, absent ([None]) when the body has no such field. *)
Inductive sqlx : Type -> Type :=
(* SELECT * FROM users WHERE id = ? *)
| select_user (uid : Z) : sqlx (option user_row)
(* SELECT * FROM users WHERE user_type != 'admin' *)
| select_users_not_admin : sqlx (list (Z * user_row))
(* SELECT COUNT( * ) as count FROM projects WHERE created_by = ? *)
| count_projects_created_by (uid : Z) : sqlx Z
(* SELECT COUNT( * ) as count FROM worker_requests
   WHERE worker_id = ? OR requested_by = ? *)
| count_requests_involving (uid : Z) : sqlx Z
(* DELETE FROM users WHERE id = ? *)
| delete_user (uid : Z) : sqlx unit
(* SELECT * FROM materials ORDER BY category, name *)
| select_materials : sqlx (list (Z * material_row))
(* UPDATE materials SET name = ?, description = ?, unit = ?, price_per_unit = ?,
   stock_quantity = ?, category = ?, updated_at = CURRENT_TIMESTAMP WHERE id = ? *)
| update_material (name unit_ : option string) (price stock mid : Z) : sqlx unit
(* DELETE FROM materials WHERE id = ? *)
| delete_material (mid : Z) : sqlx unit
(* SELECT p.*, u.username as created_by_name, ce.username as civil_engineer_name
   FROM projects p LEFT JOIN users u ... LEFT JOIN users ce ... [WHERE ...] *)
| select_projects (f : project_filter)
  : sqlx (list (Z * project_row * option string * option string))
(* UPDATE projects SET name = ?, description = ?, budget = ?, start_date = ?,
   end_date = ?, status = ?, updated_at = CURRENT_TIMESTAMP WHERE id = ? *)
| update_project (name : option string) (status : string) (pid : Z) : sqlx unit
(* DELETE FROM projects WHERE id = ? *)
| delete_project (pid : Z) : sqlx unit
(* SELECT id, username, email FROM users WHERE user_type = 'worker'
   AND sub_user_type = 'civil_engineer' and is_available = 1 *)
| select_available_engineers : sqlx (list (Z * string * string))
(* SELECT wr.*, u.username as requested_by_name FROM worker_requests wr
   JOIN projects p ... JOIN users u ... WHERE wr.worker_id = ? *)
| select_requests_of_worker (wid : Z) : sqlx (list (Z * request_row * string))
(* SELECT * FROM worker_requests WHERE requested_by = ? *)
| select_requests_sent_by (uid : Z) : sqlx (list (Z * request_row))
(* SELECT id, username, email, sub_user_type FROM users
   WHERE user_type = 'worker' AND is_available = 1 AND id != ? *)
| select_available_workers (self : Z) : sqlx (list (Z * string * string * option string))
(* SELECT * FROM project_milestones WHERE id = ? *)
| select_milestone (mid : Z) : sqlx (option milestone_row)
(* DELETE FROM project_milestones WHERE id = ? *)
| delete_milestone (mid : Z) : sqlx unit
(* The statements of DELETE /users/:id with req.params.id bound as it
   comes, a text: [key] is the integer the store reads the text as when it
   compares it with an INTEGER column, if it reads it as one. *)
(* SELECT * FROM users WHERE id = ? *)
| select_user_as (key : option Z) : sqlx (option user_row)
(* SELECT COUNT( * ) as count FROM projects WHERE created_by = ? *)
| count_projects_created_as (key : option Z) : sqlx Z
(* SELECT COUNT( * ) as count FROM worker_requests
   WHERE worker_id = ? OR requested_by = ? *)
| count_requests_involving_as (key : option Z) : sqlx Z
(* DELETE FROM users WHERE id = ? *)
| delete_user_as (key : option Z) : sqlx unit.

(** What these statements do; an UPDATE that matches no row checks no
    constraint. NOT NULL is checked before CHECK. A text that the store
    does not read as an integer equals no value of an INTEGER column. *)
Definition exec_sqlx {X} (s : sqlx X) (d : db) : string + X * db :=
  match s in sqlx X return string + X * db with
  | select_user uid => inr (users d !! uid, d)
  | select_users_not_admin => inr (listed_users d, d)
  | count_projects_created_by uid => inr (projects_created uid d, d)
  | count_requests_involving uid => inr (requests_involving uid d, d)
  | delete_user uid => inr (tt, with_users d (delete uid (users d)))
  | select_materials => inr (map_to_list (materials d), d)
  | update_material name unit_ price stock mid =>
      match materials d !! mid with
      | None => inr (tt, d)
      | Some _ =>
          match name, unit_ with
          | None, _ => inl "SQLITE_CONSTRAINT: NOT NULL constraint failed: materials.name"
          | Some _, None =>
              inl "SQLITE_CONSTRAINT: NOT NULL constraint failed: materials.unit"
          | Some _, Some _ =>
              inr (tt, with_materials d (<[mid := MaterialRow price stock]> (materials d)))
          end
      end
  | delete_material mid => inr (tt, with_materials d (delete mid (materials d)))
  | select_projects f => inr (listed_projects f d, d)
  | update_project name status pid =>
      match projects d !! pid with
      | None => inr (tt, d)
      | Some _ =>
          match name with
          | None => inl "SQLITE_CONSTRAINT: NOT NULL constraint failed: projects.name"
          | Some _ =>
              match project_status_of_string status with
              | None => inl "SQLITE_CONSTRAINT: CHECK constraint failed: projects"
              | Some st =>
                  inr (tt, with_projects d (alter (set_project_status st) pid (projects d)))
              end
          end
      end
  | delete_project pid => inr (tt, with_projects d (delete pid (projects d)))
  | select_available_engineers => inr (listed_engineers d, d)
  | select_requests_of_worker wid => inr (listed_requests wid d, d)
  | select_requests_sent_by uid => inr (sent_requests uid d, d)
  | select_available_workers self => inr (listed_workers self d, d)
  | select_milestone mid => inr (project_milestones d !! mid, d)
  | delete_milestone mid =>
      inr (tt, with_project_milestones d (delete mid (project_milestones d)))
  | select_user_as key =>
      inr (match key with Some uid => users d !! uid | None => None end, d)
  | count_projects_created_as key =>
      inr (match key with Some uid => projects_created uid d | None => 0 end, d)
  | count_requests_involving_as key =>
      inr (match key with Some uid => requests_involving uid d | None => 0 end, d)
  | delete_user_as key =>
      inr (tt, match key with
               | Some uid => with_users d (delete uid (users d))
               | None => d
               end)
  end.

(** Operations of these routes: the ones of the workflows, and the
    statements above. *)
Inductive opx : Type -> Type :=
| core_op {X} (o : op X) : opx X
| stmtx {X} (s : sqlx X) : opx X.

Section ConnectionX.
Variable fault : nat -> bool.
Variable clock : nat -> Z.

Definition exec_opx {X} (o : opx X) (c : conn) : (string + X) * conn :=
  match o in opx X return (string + X) * conn with
  | core_op o => exec_op fault clock o c
  | stmtx s =>
      if fault (ticks c) then (inl io_error, Conn (data c) (saved c) (S (ticks c)))
      else match exec_sqlx s (data c) with
           | inl e => (inl e, Conn (data c) (saved c) (S (ticks c)))
           | inr (x, d') => (inr x, Conn d' (saved c) (S (ticks c)))
           end
  end.
End ConnectionX.

(** Handler bodies over these operations. *)
Inductive task (A : Type) : Type :=
| Done (a : A)
| Raise (e : string)
| Wait {X : Type} (o : opx X) (k : string + X -> task A).
Arguments Done {A} a.
Arguments Raise {A} e.
Arguments Wait {A X} o k.

Fixpoint task_bind {A B} (p : task A) (f : A -> task B) : task B :=
  match p with
  | Done a => f a
  | Raise e => Raise e
  | Wait o k => Wait o (fun r => task_bind (k r) f)
  end.

Fixpoint task_catch {A} (p : task A) (h : string -> task A) : task A :=
  match p with
  | Done a => Done a
  | Raise e => h e
  | Wait o k => Wait o (fun r => task_catch (k r) h)
  end.

Definition wait {X} (o : opx X) : task X :=
  Wait o (fun r => match r with inl e => Raise e | inr x => Done x end).

Notation "'let+' x ':=' p 'in' q" := (task_bind p (fun x => q))
  (at level 10, x name, p at level 100, q at level 200).

Section RunX.
Variable fault : nat -> bool.
Variable clock : nat -> Z.

Fixpoint run_task {A} (p : task A) (c : conn) : (string + A) * conn :=
  match p with
  | Done a => (inr a, c)
  | Raise e => (inl e, c)
  | Wait o k => let rc := exec_opx fault clock o c in run_task (k (fst rc)) (snd rc)
  end.
End RunX.

(** Bodies of the answers of these routes. *)
Inductive document :=
| error_doc (msg : string)
| message_doc (msg : string)
| users_doc (rows : list (Z * user_row))
| user_doc (row : user_row)
| materials_doc (rows : list (Z * material_row))
| material_doc (row : option material_row)
| projects_doc (rows : list (Z * project_row * option string * option string))
| project_doc (row : project_row)
| engineers_doc (rows : list (Z * string * string))
| requests_doc (rows : list (Z * request_row * string))
| sent_requests_doc (rows : list (Z * request_row))
| workers_doc (rows : list (Z * string * string * option string)).

Record reply := Reply { reply_status : Z; reply_body : document }.

Definition answer (code : Z) (b : document) : task reply := Done (Reply code b).

Definition server_error (e : string) : task reply := answer 500 (error_doc e).

Definition get_core {X} (s : sql (option X)) : task (option X) := wait (core_op (stmt s)).
Definition get_x {X} (s : sqlx (option X)) : task (option X) := wait (stmtx s).
Definition all_x {X} (s : sqlx (list X)) : task (list X) := wait (stmtx s).
Definition run_x {X} (s : sqlx X) : task X := wait (stmtx s).

(** auth.js, GET /users; the admin test is commented out in the source. *)
Definition get_users (u : actor) : task reply :=
  task_catch
    (let+ users_ := all_x select_users_not_admin in
     answer 200 (users_doc users_))
    server_error.

(** auth.js, GET /users/:id. *)
Definition get_user (u : actor) (uid : Z) : task reply :=
  if negb (bool_decide (user_type u = admin)) then
    answer 403 (error_doc "Access denied")
  else
    task_catch
      (let+ user_ := get_x (select_user uid) in
       match user_ with
       | None => answer 404 (error_doc "User not found")
       | Some user_ => answer 200 (user_doc user_)
       end)
      server_error.

(** auth.js, DELETE /users/:id, for a route parameter written in plain
    decimal digits: [uid] is the integer that parseInt(req.params.id) and
    the comparisons of the statements with the INTEGER columns both read
    from it. [delete_user_text] below follows the route on any text. *)
Definition delete_user_account (u : actor) (uid : Z) : task reply :=
  if negb (bool_decide (user_type u = admin)) then
    answer 403 (error_doc "Access denied")
  else if bool_decide (uid = id u) then
    answer 400 (error_doc "Cannot delete your own account")
  else
    task_catch
      (let+ user_ := get_x (select_user uid) in
       match user_ with
       | None => answer 404 (error_doc "User not found")
       | Some _ =>
           let+ projectsCount := run_x (count_projects_created_by uid) in
           if (0 <? projectsCount)%Z then
             answer 400 (error_doc "Cannot delete user with existing projects")
           else
             let+ workerRequestsCount := run_x (count_requests_involving uid) in
             if (0 <? workerRequestsCount)%Z then
               answer 400 (error_doc "Cannot delete user with worker requests")
             else
               let+ _ := run_x (delete_user uid) in
               answer 200 (message_doc "User deleted successfully")
       end)
      server_error.

(** materials.js, GET /. *)
Definition get_materials (u : actor) : task reply :=
  task_catch
    (let+ materials_ := all_x select_materials in
     answer 200 (materials_doc materials_))
    server_error.

(** materials.js, PUT /:id. *)
Definition put_material (u : actor) (mid : Z) (name unit_ : option string)
    (price_per_unit_ stock_quantity_ : Z) : task reply :=
  if negb (bool_decide (user_type u = admin)) then
    answer 403 (error_doc "Only admins can update materials")
  else
    task_catch
      (let+ _ := run_x (update_material name unit_ price_per_unit_ stock_quantity_ mid) in
       let+ material := get_core (select_material mid) in
       answer 200 (material_doc material))
      server_error.

(** materials.js, DELETE /:id. *)
Definition delete_material_route (u : actor) (mid : Z) : task reply :=
  if negb (bool_decide (user_type u = admin)) then
    answer 403 (error_doc "Only admins can delete materials")
  else
    task_catch
      (let+ _ := run_x (delete_material mid) in
       answer 200 (message_doc "Material deleted successfully"))
      server_error.

Definition filter_of (u : actor) : project_filter :=
  if bool_decide (user_type u = user) then projects_created_by (id u)
  else if bool_decide (user_type u = worker) then projects_of_worker (id u)
  else every_project.

(** projects.js, GET /. *)
Definition get_projects (u : actor) : task reply :=
  task_catch
    (let+ projects_ := all_x (select_projects (filter_of u)) in
     answer 200 (projects_doc projects_))
    server_error.

(** projects.js, PUT /:id, for a body without an image that carries its
    status as a string ([name] may be missing; a missing status would be
    bound as NULL, which [project_row] does not hold: [put_project_body]
    below follows the route on such bodies); reading plan_image of a row
    that is gone throws. *)
Definition put_project (u : actor) (pid : Z) (name : option string) (status : string)
  : task reply :=
  task_catch
    (let+ project := get_core (select_project pid) in
     match project with
     | None => answer 404 (error_doc "Project not found")
     | Some project =>
         if negb (bool_decide (user_type u = admin))
            && negb (bool_decide (created_by project = id u)) then
           answer 403 (error_doc "Not authorized to update this project")
         else
           let+ _ := run_x (update_project name status pid) in
           let+ updatedProject := get_core (select_project pid) in
           match updatedProject with
           | None => Raise "Cannot read properties of undefined (reading 'plan_image')"
           | Some updatedProject => answer 200 (project_doc updatedProject)
           end
     end)
    server_error.

(** projects.js, DELETE /:id. *)
Definition delete_project_route (u : actor) (pid : Z) : task reply :=
  task_catch
    (let+ project := get_core (select_project pid) in
     match project with
     | None => answer 404 (error_doc "Project not found")
     | Some project =>
         if negb (bool_decide (user_type u = admin))
            && negb (bool_decide (created_by project = id u)) then
           answer 403 (error_doc "Not authorized to delete this project")
         else
           let+ _ := run_x (delete_project pid) in
           answer 200 (message_doc "Project deleted successfully")
     end)
    server_error.

(** projects.js, GET /available-engineers. *)
Definition get_available_engineers (u : actor) : task reply :=
  task_catch
    (let+ engineers := all_x select_available_engineers in
     answer 200 (engineers_doc engineers))
    server_error.

(** workers.js, GET /requests. *)
Definition get_requests (u : actor) : task reply :=
  if negb (bool_decide (user_type u = worker)) then
    answer 403 (error_doc "Only workers can view requests")
  else
    task_catch
      (let+ requests := all_x (select_requests_of_worker (id u)) in
       answer 200 (requests_doc requests))
      server_error.

(** workers.js, GET /worker_requests. *)
Definition get_sent_requests (u : actor) : task reply :=
  task_catch
    (let+ requests := all_x (select_requests_sent_by (id u)) in
     answer 200 (sent_requests_doc requests))
    server_error.

(** workers.js, GET /available. *)
Definition get_available_workers (u : actor) : task reply :=
  if negb (bool_decide (user_type u = worker))
     || negb (bool_decide (sub_user_type u = Some "civil_engineer")) then
    answer 403 (error_doc "Only civil engineers can view available workers")
  else
    task_catch
      (let+ workers := all_x (select_available_workers (id u)) in
       answer 200 (workers_doc workers))
      server_error.

(** milestones.js, DELETE /:id. *)
Definition delete_milestone_route (u : actor) (mid : Z) : task reply :=
  if negb (bool_decide (user_type u = worker))
     || negb (bool_decide (sub_user_type u = Some "civil_engineer")) then
    answer 403 (error_doc "Only civil engineers can delete milestones")
  else
    task_catch
      (let+ milestone := get_x (select_milestone mid) in
       match milestone with
       | None => answer 404 (error_doc "Milestone not found")
       | Some milestone =>
           let+ project :=
             get_core (select_project_of_engineer (ms_project_id milestone) (id u)) in
           match project with
           | None => answer 403 (error_doc "Not authorized for this project")
           | Some _ =>
               let+ _ := run_x (delete_milestone mid) in
               answer 200 (message_doc "Milestone deleted successfully")
           end
       end)
      server_error.

(** Every modelled route of the server. *)
Inductive route :=
| Workflow (r : call)
| GetUsers (u : actor)
| GetUser (u : actor) (uid : Z)
| DeleteUser (u : actor) (uid : Z)
| GetMaterials (u : actor)
| PutMaterial (u : actor) (mid : Z) (name unit_ : option string) (price stock : Z)
| DeleteMaterial (u : actor) (mid : Z)
| GetProjects (u : actor)
| PutProject (u : actor) (pid : Z) (name : option string) (status : string)
| DeleteProject (u : actor) (pid : Z)
| GetAvailableEngineers (u : actor)
| GetRequests (u : actor)
| GetSentRequests (u : actor)
| GetAvailableWorkers (u : actor)
| DeleteMilestone (u : actor) (mid : Z).

Definition route_task (r : route) : prog response + task reply :=
  match r with
  | Workflow r => inl (handler r)
  | GetUsers u => inr (get_users u)
  | GetUser u uid => inr (get_user u uid)
  | DeleteUser u uid => inr (delete_user_account u uid)
  | GetMaterials u => inr (get_materials u)
  | PutMaterial u mid name unit_ price stock =>
      inr (put_material u mid name unit_ price stock)
  | DeleteMaterial u mid => inr (delete_material_route u mid)
  | GetProjects u => inr (get_projects u)
  | PutProject u pid name status => inr (put_project u pid name status)
  | DeleteProject u pid => inr (delete_project_route u pid)
  | GetAvailableEngineers u => inr (get_available_engineers u)
  | GetRequests u => inr (get_requests u)
  | GetSentRequests u => inr (get_sent_requests u)
  | GetAvailableWorkers u => inr (get_available_workers u)
  | DeleteMilestone u mid => inr (delete_milestone_route u mid)
  end.

Section ServeX.
Variable fault : nat -> bool.
Variable clock : nat -> Z.

(** The connection after a route has been handled to completion. *)
Definition after (r : route) (c : conn) : conn :=
  match route_task r with
  | inl p => snd (run fault clock p c)
  | inr t => snd (run_task fault clock t c)
  end.

(** Routes handled one after the other. *)
Fixpoint serve_routes (rs : list route) (c : conn) : conn :=
  match rs with
  | nil => c
  | r :: rs' => serve_routes rs' (after r c)
  end.
End ServeX.

(** Who may update or delete a project. *)
Definition may_manage (u : actor) (p : project_row) : Prop :=
  user_type u = admin \/ created_by p = id u.

(** The writes a route can leave behind, with what the route has checked
    before it writes. *)
Inductive effect (d : db) : route -> db -> Prop :=
| eff_none r : effect d r d
| eff_request u pid wid msg p w :
    projects d !! pid = Some p -> created_by p = id u ->
    available_engineer wid d = Some w ->
    has_pending pid wid d = None ->
    effect d (Workflow (RequestWorker u pid wid msg)) (request_commit u pid wid msg d)
| eff_respond u rid request status st now :
    user_type u = worker ->
    own_request u rid d = Some request ->
    wr_status request = pending ->
    request_status_of_string status = Some st ->
    effect d (Workflow (Respond u rid status))
           (respond_commit u rid request status st now d)
| eff_assign u pid wid role p w :
    is_civil_engineer u ->
    authorized_engineer u pid d = Some p ->
    available_worker wid d = Some w ->
    effect d (Workflow (Assign u pid wid role)) (assign_commit u pid wid role w d)
| eff_order u pid mid q p m :
    authorized_engineer u pid d = Some p ->
    materials d !! mid = Some m ->
    (q <= stock_quantity m)%Z ->
    effect d (Workflow (OrderMaterial u pid mid q)) (order_commit u pid mid q m d)
| eff_delete_user u uid :
    user_type u = admin -> uid <> id u ->
    projects_created uid d = 0 ->
    requests_involving uid d = 0 ->
    effect d (DeleteUser u uid) (with_users d (delete uid (users d)))
| eff_update_material u mid name unit_ price stock :
    user_type u = admin ->
    is_Some (materials d !! mid) ->
    effect d (PutMaterial u mid name unit_ price stock)
           (with_materials d (<[mid := MaterialRow price stock]> (materials d)))
| eff_delete_material u mid :
    user_type u = admin ->
    effect d (DeleteMaterial u mid) (with_materials d (delete mid (materials d)))
| eff_update_project u pid name status p st :
    projects d !! pid = Some p -> may_manage u p ->
    project_status_of_string status = Some st ->
    effect d (PutProject u pid name status)
           (with_projects d (alter (set_project_status st) pid (projects d)))
| eff_delete_project u pid p :
    projects d !! pid = Some p -> may_manage u p ->
    effect d (DeleteProject u pid) (with_projects d (delete pid (projects d)))
| eff_delete_milestone u mid ms p :
    is_civil_engineer u ->
    project_milestones d !! mid = Some ms ->
    authorized_engineer u (ms_project_id ms) d = Some p ->
    effect d (DeleteMilestone u mid)
           (with_project_milestones d (delete mid (project_milestones d))).

(** The workflows that open a transaction. *)
Definition uses_transaction (r : call) : bool :=
  match r with
  | Respond _ _ _ | Assign _ _ _ _ | OrderMaterial _ _ _ _ => true
  | _ => false
  end.

(** A material update that stores a negative stock. *)
Definition stores_negative_stock (r : route) : bool :=
  match r with
  | PutMaterial _ _ _ _ _ stock => (stock <? 0)%Z
  | _ => false
  end.

(** At most one pending request for a (project, worker) pair. *)
Definition one_pending_per_pair (d : db) : Prop :=
  forall i j ri rj,
    worker_requests d !! i = Some ri -> worker_requests d !! j = Some rj ->
    wr_status ri = pending -> wr_status rj = pending ->
    wr_project_id ri = wr_project_id rj -> wr_worker_id ri = wr_worker_id rj ->
    i = j.

(** The civil engineer of every project has an assignment row for it. *)
Definition engineers_assigned (d : db) : Prop :=
  forall pid p w,
    projects d !! pid = Some p -> civil_engineer_id p = Some w ->
    exists i a,
      project_workers d !! i = Some a /\ pw_project_id a = pid /\ pw_worker_id a = w.

(** Every worker marked unavailable has an assignment row. *)
Definition unavailable_assigned (d : db) : Prop :=
  forall w row,
    users d !! w = Some row -> is_available row = false ->
    exists i a, project_workers d !! i = Some a /\ pw_worker_id a = w.

(** ** More sample data *)

(** The project with bob as civil engineer and dan assigned by him. *)
Definition site_crew : db :=
  data (serve no_fault wall_clock [Assign bob 1 5 None] (idle site1 0)).

(** The same with one order of three units placed by bob. *)
Definition site_ordered : db :=
  data (serve no_fault wall_clock [OrderMaterial bob 1 1 3] (idle site_crew 0)).

(** The project with one milestone created by bob. *)
Definition site_milestone : db :=
  with_project_milestones site1 (list_to_map [(1, MilestoneRow 1 "Foundation" 3)]).

(** ** The order route on untyped bodies

    [order_material] above takes the quantity of the body as an integer.
    express.json() hands the handler whatever JSON value the body
    carries, and nothing in materials.js looks at its type: the quantity
    goes through JavaScript's [<] and [*] and is bound as a parameter of
    two statements. This part follows the same handler with the quantity
    as JavaScript holds it, over the materials and project_materials
    tables as SQLite stores them (a value of any storage class in a
    column, whatever its declared type).

    Numbers are exact: a finite number is a rational, and the rounding
    and the overflow of IEEE 754 doubles and of 64-bit integers are not
    modelled. Strings are ASCII. JSON arrays and objects are left out,
    and project_id and material_id are taken to be JSON integers as
    before. *)

(** A JavaScript number; also a numeric value of SQLite, which has no
    NaN. *)
Inductive number :=
| nan
| infinity (negative : bool)
| finite (q : Q).

(** A field of the parsed body, or of a row the driver returns. *)
Inductive jsval :=
| undefined
| null
| boolean (b : bool)
| num (x : number)
| str (s : string).

(** A value in a column: NULL, a number (INTEGER when integral, REAL
    otherwise) or TEXT. *)
Inductive cell :=
| c_null
| c_num (x : number)
| c_text (s : string).

Definition Qlt_bool (p q : Q) : bool := negb (Qle_bool q p).

(** *** Numeric literals in strings *)

Definition is_space (c : ascii) : bool :=
  let n := nat_of_ascii c in
  ((9 <=? n)%nat && (n <=? 13)%nat) || (n =? 32)%nat.

(** Value of a digit in a base up to sixteen, if it is one. *)
Definition digit_in (base : Z) (c : ascii) : option Z :=
  let n := Z.of_nat (nat_of_ascii c) in
  let v := if ((48 <=? n) && (n <=? 57))%Z then n - 48
           else if ((97 <=? n) && (n <=? 102))%Z then n - 87
           else if ((65 <=? n) && (n <=? 70))%Z then n - 55
           else 16 in
  if (v <? base)%Z then Some v else None.

Fixpoint skip_spaces (s : string) : string :=
  match s with
  | String c s' => if is_space c then skip_spaces s' else s
  | EmptyString => s
  end.

Definition blank (s : string) : bool :=
  match skip_spaces s with EmptyString => true | _ => false end.

(** The digits at the head of [s] in [base], read after [acc]: the value,
    how many there were, and the rest. *)
Fixpoint digits (base : Z) (s : string) (acc : Z) (count : nat) : Z * nat * string :=
  match s with
  | String c s' =>
      match digit_in base c with
      | Some v => digits base s' (base * acc + v) (S count)
      | None => (acc, count, s)
      end
  | EmptyString => (acc, count, s)
  end.

(** An optional sign at the head of [s]: whether it is a minus, and the
    rest. *)
Definition sign (s : string) : bool * string :=
  match s with
  | String "-" s' => (true, s')
  | String "+" s' => (false, s')
  | _ => (false, s)
  end.

(** m x 10^k. *)
Definition scaled (m k : Z) : Q :=
  if (0 <=? k)%Z then inject_Z (m * 10 ^ k) else Qred (Qmake m (Z.to_pos (10 ^ (- k)))).

(** The longest unsigned decimal literal at the head of [s], with its
    value and the rest: digits with an optional fraction, or a fraction
    alone, then an exponent when it has a digit. *)
Definition scan_decimal (s : string) : option (Q * string) :=
  let '(m1, n1, r1) := digits 10 s 0 0 in
  let '(m, n2, r2) :=
    match r1 with
    | String "." r =>
        let '(m2, n2, r') := digits 10 r m1 0 in
        if (n1 + n2 =? 0)%nat then (m1, 0%nat, r1) else (m2, n2, r')
    | _ => (m1, 0%nat, r1)
    end in
  if (n1 + n2 =? 0)%nat then None
  else
    let plain := Some (scaled m (- Z.of_nat n2), r2) in
    match r2 with
    | String c r =>
        if (c =? "e")%char || (c =? "E")%char then
          let '(neg, r3) := sign r in
          let '(e, ne, r4) := digits 10 r3 0 0 in
          if (ne =? 0)%nat then plain
          else Some (scaled m ((if neg then - e else e) - Z.of_nat n2), r4)
        else plain
    | EmptyString => plain
    end.

Definition signed (neg : bool) (q : Q) : Q := if neg then Qred (- q) else q.

(** SQLite reading a whole TEXT as a number (column affinity,
    comparisons): spaces, a sign, a decimal literal, spaces. *)
Definition numeric_literal (s : string) : option Q :=
  let '(neg, r) := sign (skip_spaces s) in
  match scan_decimal r with
  | Some (q, rest) => if blank rest then Some (signed neg q) else None
  | None => None
  end.

(** SQLite reading a TEXT operand of an arithmetic operator: the number
    at its head, 0 when there is none. *)
Definition numeric_prefix (s : string) : Q :=
  let '(neg, r) := sign (skip_spaces s) in
  match scan_decimal r with
  | Some (q, _) => signed neg q
  | None => 0%Q
  end.

(** A literal 0x.., 0o.. or 0b.. that fills [s] up to trailing spaces. *)
Definition non_decimal_literal (s : string) : option Q :=
  match s with
  | String "0" (String c r) =>
      let base := if (c =? "x")%char || (c =? "X")%char then 16
                  else if (c =? "o")%char || (c =? "O")%char then 8
                  else if (c =? "b")%char || (c =? "B")%char then 2
                  else 0 in
      let '(v, n, rest) := digits base r 0 0 in
      if (0 <? base)%Z && negb (n =? 0)%nat && blank rest then Some (inject_Z v) else None
  | _ => None
  end.

(** JavaScript's StringToNumber. *)
Definition string_to_number (s : string) : number :=
  let t := skip_spaces s in
  if blank t then finite 0
  else
    match non_decimal_literal t with
    | Some q => finite q
    | None =>
        let '(neg, r) := sign t in
        if String.prefix "Infinity" r
           && blank (String.substring 8 (String.length r - 8) r)
        then infinity neg
        else match scan_decimal r with
             | Some (q, rest) => if blank rest then finite (signed neg q) else nan
             | None => nan
             end
    end.

(** *** JavaScript's operators *)

Definition to_number (v : jsval) : number :=
  match v with
  | undefined => nan
  | null => finite 0
  | boolean b => finite (if b then 1 else 0)
  | num x => x
  | str s => string_to_number s
  end.

Definition number_lt (x y : number) : bool :=
  match x, y with
  | nan, _ | _, nan => false
  | infinity nx, infinity ny => nx && negb ny
  | infinity nx, finite _ => nx
  | finite _, infinity ny => negb ny
  | finite p, finite q => Qlt_bool p q
  end.

(** [a < b] as a condition: two strings are compared as strings, anything
    else as numbers, and a comparison with NaN is not true. *)
Definition less_than (a b : jsval) : bool :=
  match a, b with
  | str s, str t => String.ltb s t
  | _, _ => number_lt (to_number a) (to_number b)
  end.

Definition is_zero (q : Q) : bool := Qeq_bool q 0.

(** [a * b]. *)
Definition times (a b : jsval) : number :=
  match to_number a, to_number b with
  | nan, _ | _, nan => nan
  | infinity nx, infinity ny => infinity (xorb nx ny)
  | infinity nx, finite q | finite q, infinity nx =>
      if is_zero q then nan else infinity (xorb nx (Qlt_bool q 0))
  | finite p, finite q => finite (Qred (p * q))
  end.

(** *** The driver *)

(** A parameter as the driver binds it: undefined is left unbound, which
    the store reads as NULL, and a NaN is stored as NULL. *)
Definition bind_param (v : jsval) : cell :=
  match v with
  | undefined | null => c_null
  | boolean b => c_num (finite (if b then 1 else 0))
  | num nan => c_null
  | num x => c_num x
  | str s => c_text s
  end.

(** A column of a row as the driver returns it. *)
Definition read_cell (c : cell) : jsval :=
  match c with
  | c_null => null
  | c_num x => num x
  | c_text s => str s
  end.

(** *** The store *)

(** A value stored into a column of INTEGER or NUMERIC affinity
    (quantity INTEGER, stock_quantity INTEGER, total_cost DECIMAL): a
    TEXT that reads as a number becomes that number, any other value is
    kept as it is. *)
Definition stored (c : cell) : cell :=
  match c with
  | c_text s =>
      match numeric_literal s with
      | Some q => c_num (finite q)
      | None => c_text s
      end
  | _ => c
  end.

(** An operand of an arithmetic operator; [None] is NULL. *)
Definition operand (c : cell) : option number :=
  match c with
  | c_null => None
  | c_num x => Some x
  | c_text s => Some (finite (numeric_prefix s))
  end.

(** [a - b] in SQL. *)
Definition sql_minus (a b : cell) : cell :=
  match operand a, operand b with
  | Some (finite p), Some (finite q) => c_num (finite (Qred (p - q)))
  | Some (infinity na), Some (finite _) => c_num (infinity na)
  | Some (finite _), Some (infinity nb) => c_num (infinity (negb nb))
  | Some (infinity na), Some (infinity nb) =>
      if Bool.eqb na nb then c_null else c_num (infinity na)
  | _, _ => c_null
  end.

(** Row of [materials] and of [project_materials], with the columns a
    body can reach untyped. *)
Record stock_row := StockRow {
  raw_price : cell;
  raw_stock : cell
}.

Record raw_order := RawOrder {
  ro_project_id : Z;
  ro_material_id : Z;
  ro_quantity : cell;
  ro_total_cost : cell;
  ro_ordered_by : Z
}.

(** The tables the order route touches. *)
Record store := Store {
  st_projects : gmap Z project_row;
  st_materials : gmap Z stock_row;
  st_orders : gmap Z raw_order;
  st_seq_orders : Z
}.

Definition take_raw_stock (qty : cell) (m : stock_row) : stock_row :=
  StockRow (raw_price m) (stored (sql_minus (raw_stock m) qty)).

(** The connection over these tables, as [conn] above. *)
Record link := Link {
  held : store;
  kept : option store;
  turns : nat
}.

(** The statements of the route, and the three of the transaction. *)
Inductive command : Type -> Type :=
| r_begin : command unit
| r_commit : command unit
| r_rollback : command unit
(* SELECT * FROM projects WHERE id = ? AND civil_engineer_id = ? *)
| r_select_project_of_engineer (pid ce : Z) : command (option project_row)
(* SELECT * FROM materials WHERE id = ? *)
| r_select_material (mid : Z) : command (option stock_row)
(* INSERT INTO project_materials
   (project_id, material_id, quantity, total_cost, ordered_by) *)
| r_insert_project_material (pid mid : Z) (qty cost : cell) (by_ : Z) : command Z
(* UPDATE materials SET stock_quantity = stock_quantity - ? WHERE id = ? *)
| r_update_material_stock (qty : cell) (mid : Z) : command unit.

(** A handler body in direct style: from the connection (of type [C]) to
    what it returns or throws, and the connection it leaves. *)
Definition action (C A : Type) : Type := C -> (string + A) * C.

Definition pure {C A} (a : A) : action C A := fun c => (inr a, c).

Definition throw {C A} (e : string) : action C A := fun c => (inl e, c).

Definition and_then {C A B} (p : action C A) (f : A -> action C B) : action C B :=
  fun c => match p c with
           | (inr a, c') => f a c'
           | (inl e, c') => (inl e, c')
           end.

(** [try { p } catch (error) { h error }]. *)
Definition attempt {C A} (p : action C A) (h : string -> action C A) : action C A :=
  fun c => match p c with
           | (inr a, c') => (inr a, c')
           | (inl e, c') => h e c'
           end.

Notation "'let!' x ':=' p 'in' q" := (and_then p (fun x => q))
  (at level 10, x name, p at level 100, q at level 200).

Section Untyped.
Variable fault : nat -> bool.

Definition ticked (c : link) (s : store) (k : option store) : link :=
  Link s k (S (turns c)).

(** [await db.get/run(...)] on this connection. *)
Definition perform {X} (r : command X) : action link X :=
  fun c =>
    match r in command X return (string + X) * link with
    | r_begin =>
        if fault (turns c) then (inl io_error, ticked c (held c) (kept c))
        else match kept c with
             | Some _ =>
                 (inl "SQLITE_ERROR: cannot start a transaction within a transaction",
                  ticked c (held c) (kept c))
             | None => (inr tt, ticked c (held c) (Some (held c)))
             end
    | r_commit =>
        if fault (turns c) then (inl io_error, ticked c (held c) (kept c))
        else match kept c with
             | Some _ => (inr tt, ticked c (held c) None)
             | None =>
                 (inl "SQLITE_ERROR: cannot commit - no transaction is active",
                  ticked c (held c) None)
             end
    | r_rollback =>
        match kept c with
        | Some s0 => (inr tt, ticked c s0 None)
        | None =>
            (inl "SQLITE_ERROR: cannot rollback - no transaction is active",
             ticked c (held c) None)
        end
    | r_select_project_of_engineer pid ce =>
        if fault (turns c) then (inl io_error, ticked c (held c) (kept c))
        else (inr (row_where (is_project_of_engineer ce) (st_projects (held c) !! pid)),
              ticked c (held c) (kept c))
    | r_select_material mid =>
        if fault (turns c) then (inl io_error, ticked c (held c) (kept c))
        else (inr (st_materials (held c) !! mid), ticked c (held c) (kept c))
    | r_insert_project_material pid mid qty cost by_ =>
        if fault (turns c) then (inl io_error, ticked c (held c) (kept c))
        else
          let s := held c in
          let i := next_rowid (st_seq_orders s) (st_orders s) in
          (inr i,
           ticked c
             (Store (st_projects s) (st_materials s)
                    (<[i := RawOrder pid mid (stored qty) (stored cost) by_]> (st_orders s)) i)
             (kept c))
    | r_update_material_stock qty mid =>
        if fault (turns c) then (inl io_error, ticked c (held c) (kept c))
        else
          let s := held c in
          (inr tt,
           ticked c
             (Store (st_projects s) (alter (take_raw_stock qty) mid (st_materials s))
                    (st_orders s) (st_seq_orders s))
             (kept c))
    end.

(** What the route answers: the status and the object given to
    res.json (a NaN or an infinity in it is written as null). *)
Inductive answer_body :=
| answer_error (msg : string)
| answer_ordered (msg : string) (total_cost : number).

Definition respond_with (code : Z) (b : answer_body) : action link (Z * answer_body) :=
  pure (code, b).

(** materials.js, POST /order, with the quantity of the body as
    JavaScript holds it. *)
Definition post_order (u : actor) (project_id material_id : Z) (quantity : jsval)
  : action link (Z * answer_body) :=
  attempt
    (let! project := perform (r_select_project_of_engineer project_id (id u)) in
     match project with
     | None => respond_with 403 (answer_error "Not authorized for this project")
     | Some _ =>
         let! material := perform (r_select_material material_id) in
         match material with
         | None => respond_with 404 (answer_error "Material not found")
         | Some material =>
             if less_than (read_cell (raw_stock material)) quantity then
               respond_with 400 (answer_error "Insufficient stock")
             else
               let total_cost := times (read_cell (raw_price material)) quantity in
               let! _ := perform r_begin in
               attempt
                 (let! _ := perform (r_insert_project_material project_id material_id
                                       (bind_param quantity) (bind_param (num total_cost))
                                       (id u)) in
                  let! _ := perform (r_update_material_stock (bind_param quantity)
                                       material_id) in
                  let! _ := perform r_commit in
                  respond_with 200
                    (answer_ordered "Material ordered successfully" total_cost))
                 (fun error => let! _ := perform r_rollback in throw error)
         end
     end)
    (fun error => respond_with 500 (answer_error error)).
End Untyped.

(** The typed tables as the store holds them. *)
Definition integer (z : Z) : cell := c_num (finite (inject_Z z)).

Definition raw_material (m : material_row) : stock_row :=
  StockRow (integer (price_per_unit m)) (integer (stock_quantity m)).

Definition raw_order_of (o : order_row) : raw_order :=
  RawOrder (pm_project_id o) (pm_material_id o) (integer (pm_quantity o))
           (integer (pm_total_cost o)) (pm_ordered_by o).

Definition raw (d : db) : store :=
  Store (projects d) (raw_material <$> materials d) (raw_order_of <$> project_materials d)
        (seq_project_materials d).

Definition raw_conn (c : conn) : link :=
  Link (raw (data c)) (raw <$> saved c) (ticks c).

(** The answer of [order_material] as the untyped route gives it. *)
Definition answer_of (r : response) : Z * answer_body :=
  (http_status r,
   match body r with
   | ordered_body msg total_cost => answer_ordered msg (finite (inject_Z total_cost))
   | error_body msg | message_body msg | created_body msg _ => answer_error msg
   | _ => answer_error ""
   end).

(** *** Route parameters as text

    req.params.id is the text of the path segment. DELETE /users/:id reads
    it twice: with parseInt for the test on the caller's own account, and
    as the parameter bound to its four statements, where the store
    compares the text with INTEGER columns as the number it reads. *)

(** JavaScript's parseInt(s) with no radix: leading spaces, a sign, 0x
    for base sixteen, then the digits up to the first character that is
    not one; [None] is NaN. *)
Definition parse_int (s : string) : option Z :=
  let '(neg, r) := sign (skip_spaces s) in
  let '(base, r') :=
    match r with
    | String "0" (String c t) =>
        if (c =? "x")%char || (c =? "X")%char then (16, t) else (10, r)
    | _ => (10, r)
    end in
  let '(v, n, _) := digits base r' 0 0 in
  if (n =? 0)%nat then None else Some (if neg then - v else v).

(** The integer a text equals when it is compared with an INTEGER column:
    the number the whole text reads as, when it is integral (read
    exactly, as above). *)
Definition integer_of_text (s : string) : option Z :=
  match numeric_literal s with
  | Some q => if (Qden q =? 1)%positive then Some (Qnum q) else None
  | None => None
  end.

(** A text made of decimal digits only. *)
Fixpoint decimal (s : string) : bool :=
  match s with
  | String c s' =>
      (48 <=? nat_of_ascii c)%nat && (nat_of_ascii c <=? 57)%nat
      && match s' with EmptyString => true | _ => decimal s' end
  | EmptyString => false
  end.

(** auth.js, DELETE /users/:id, on the route parameter as it comes. *)
Definition delete_user_text (u : actor) (id_ : string) : task reply :=
  if negb (bool_decide (user_type u = admin)) then
    answer 403 (error_doc "Access denied")
  else if bool_decide (parse_int id_ = Some (id u)) then
    answer 400 (error_doc "Cannot delete your own account")
  else
    task_catch
      (let+ user_ := get_x (select_user_as (integer_of_text id_)) in
       match user_ with
       | None => answer 404 (error_doc "User not found")
       | Some _ =>
           let+ projectsCount :=
             run_x (count_projects_created_as (integer_of_text id_)) in
           if (0 <? projectsCount)%Z then
             answer 400 (error_doc "Cannot delete user with existing projects")
           else
             let+ workerRequestsCount :=
               run_x (count_requests_involving_as (integer_of_text id_)) in
             if (0 <? workerRequestsCount)%Z then
               answer 400 (error_doc "Cannot delete user with worker requests")
             else
               let+ _ := run_x (delete_user_as (integer_of_text id_)) in
               answer 200 (message_doc "User deleted successfully")
       end)
      server_error.

(** ** Status columns as the store holds them

    [respond] and [put_project] take the status of the body as a string.
    express.json() hands the handlers whatever JSON value the body
    carries, or none, and the status columns of worker_requests and
    projects are nullable: CHECK(status IN (...)) refuses a value that
    is not in the list, and lets NULL through. This part follows the two
    handlers with the fields of the body as JavaScript holds them, over
    rows whose status may be NULL. JSON arrays and objects are left out,
    and so is the image of a project. The route parameter is the integer
    the store reads it as. *)

Record project_cell := ProjectCell {
  pc_created_by : Z;
  pc_civil_engineer_id : option Z;
  pc_status : option project_status
}.

Record request_cell := RequestCell {
  rc_project_id : Z;
  rc_worker_id : Z;
  rc_requested_by : Z;
  rc_status : option request_status;
  rc_message : string;
  rc_responded_at : option Z
}.

(** The tables the two routes touch. *)
Record ledger := Ledger {
  lg_users : gmap Z user_row;
  lg_projects : gmap Z project_cell;
  lg_requests : gmap Z request_cell;
  lg_workers : gmap Z assignment_row;
  lg_seq_workers : Z
}.

(** The connection over these tables, as [conn] above. *)
Record session := Session {
  present : ledger;
  backup : option ledger;
  served : nat
}.

(** What CHECK(status IN (...)) makes of a bound value, [parse] reading
    the listed words: [None] when the constraint fails, otherwise what
    the column holds. NULL IN (...) is NULL, and a CHECK fails only on
    false; a number, stored as its text in a TEXT column, is none of the
    words. *)
Definition passes_check {A} (parse : string -> option A) (c : cell) : option (option A) :=
  match c with
  | c_null => Some None
  | c_text s => match parse s with Some a => Some (Some a) | None => None end
  | c_num _ => None
  end.

Definition responded (st : option request_status) (now : Z) (r : request_cell)
  : request_cell :=
  RequestCell (rc_project_id r) (rc_worker_id r) (rc_requested_by r) st
              (rc_message r) (Some now).

Definition engaged (ce : Z) (p : project_cell) : project_cell :=
  ProjectCell (pc_created_by p) (Some ce) (Some in_progress).

Definition restated (st : option project_status) (p : project_cell) : project_cell :=
  ProjectCell (pc_created_by p) (pc_civil_engineer_id p) st.

(** The constraints these statements can violate. *)
Inductive refusal :=
| project_name_null
| project_status_unlisted
| request_status_unlisted.

(** The data statements of the two routes. *)
Inductive dml : Type -> Type :=
(* SELECT * FROM projects WHERE id = ? *)
| n_select_project (pid : Z) : dml (option project_cell)
(* UPDATE projects SET name = ?, description = ?, budget = ?, start_date = ?,
   end_date = ?, status = ?, updated_at = CURRENT_TIMESTAMP WHERE id = ? *)
| n_update_project (name status : cell) (pid : Z) : dml unit
(* SELECT * FROM worker_requests WHERE id = ? AND worker_id = ? *)
| n_select_request_of_worker (rid wid : Z) : dml (option request_cell)
(* UPDATE worker_requests SET status = ?, responded_at = CURRENT_TIMESTAMP
   WHERE id = ? *)
| n_update_request_status (status : cell) (rid : Z) : dml unit
(* UPDATE projects SET civil_engineer_id = ?, status = 'in_progress' WHERE id = ? *)
| n_update_project_engineer (ce pid : Z) : dml unit
(* INSERT INTO project_workers (project_id, worker_id, assigned_by, role) *)
| n_insert_project_worker (pid wid by_ : Z) (role : option string) : dml Z
(* UPDATE users SET is_available = 0 WHERE id = ? *)
| n_update_user_unavailable (wid : Z) : dml unit.

Inductive turn : Type -> Type :=
| t_begin : turn unit
| t_commit : turn unit
| t_rollback : turn unit
| t_stmt {X} (s : dml X) : turn X.

(** What the route answers: the status and the object given to
    res.json. [note_responded status] is the message
    `Request ${status} successfully`. *)
Inductive note :=
| note_error (msg : string)
| note_project (row : project_cell)
| note_responded (status : jsval).

(** [status === 'accepted']. *)
Definition is_accepted (v : jsval) : bool :=
  match v with
  | str s => bool_decide (s = "accepted")
  | _ => false
  end.

Section Nullable.
Variable fault : nat -> bool.
Variable clock : nat -> Z.
(** The message of the store's error for a violated constraint; its
    wording depends on the version of the store. *)
Variable wording : refusal -> string.

(** What a statement does at store time [now]; an UPDATE that matches no
    row checks no constraint, and NOT NULL is checked before CHECK. *)
Definition exec_dml {X} (s : dml X) (now : Z) (l : ledger) : string + X * ledger :=
  match s in dml X return string + X * ledger with
  | n_select_project pid => inr (lg_projects l !! pid, l)
  | n_update_project name status pid =>
      match lg_projects l !! pid with
      | None => inr (tt, l)
      | Some _ =>
          match name with
          | c_null => inl (wording project_name_null)
          | _ =>
              match passes_check project_status_of_string status with
              | None => inl (wording project_status_unlisted)
              | Some st =>
                  inr (tt, Ledger (lg_users l) (alter (restated st) pid (lg_projects l))
                                  (lg_requests l) (lg_workers l) (lg_seq_workers l))
              end
          end
      end
  | n_select_request_of_worker rid wid =>
      inr (row_where (fun r => bool_decide (rc_worker_id r = wid)) (lg_requests l !! rid), l)
  | n_update_request_status status rid =>
      match lg_requests l !! rid with
      | None => inr (tt, l)
      | Some _ =>
          match passes_check request_status_of_string status with
          | None => inl (wording request_status_unlisted)
          | Some st =>
              inr (tt, Ledger (lg_users l) (lg_projects l)
                              (alter (responded st now) rid (lg_requests l))
                              (lg_workers l) (lg_seq_workers l))
          end
      end
  | n_update_project_engineer ce pid =>
      inr (tt, Ledger (lg_users l) (alter (engaged ce) pid (lg_projects l))
                      (lg_requests l) (lg_workers l) (lg_seq_workers l))
  | n_insert_project_worker pid wid by_ role =>
      let i := next_rowid (lg_seq_workers l) (lg_workers l) in
      inr (i, Ledger (lg_users l) (lg_projects l) (lg_requests l)
                     (<[i := AssignmentRow pid wid by_ role]> (lg_workers l)) i)
  | n_update_user_unavailable wid =>
      inr (tt, Ledger (alter set_unavailable wid (lg_users l)) (lg_projects l)
                      (lg_requests l) (lg_workers l) (lg_seq_workers l))
  end.

(** [await db.get/run(...)] on this connection, as [exec_op]. *)
Definition ask {X} (t : turn X) : action session X :=
  fun c =>
    match t in turn X return (string + X) * session with
    | t_begin =>
        if fault (served c) then (inl io_error, Session (present c) (backup c) (S (served c)))
        else match backup c with
             | Some _ =>
                 (inl "SQLITE_ERROR: cannot start a transaction within a transaction",
                  Session (present c) (backup c) (S (served c)))
             | None => (inr tt, Session (present c) (Some (present c)) (S (served c)))
             end
    | t_commit =>
        if fault (served c) then (inl io_error, Session (present c) (backup c) (S (served c)))
        else match backup c with
             | Some _ => (inr tt, Session (present c) None (S (served c)))
             | None =>
                 (inl "SQLITE_ERROR: cannot commit - no transaction is active",
                  Session (present c) None (S (served c)))
             end
    | t_rollback =>
        match backup c with
        | Some l0 => (inr tt, Session l0 None (S (served c)))
        | None =>
            (inl "SQLITE_ERROR: cannot rollback - no transaction is active",
             Session (present c) None (S (served c)))
        end
    | t_stmt s =>
        if fault (served c) then (inl io_error, Session (present c) (backup c) (S (served c)))
        else match exec_dml s (clock (served c)) (present c) with
             | inl e => (inl e, Session (present c) (backup c) (S (served c)))
             | inr (x, l') => (inr x, Session l' (backup c) (S (served c)))
             end
    end.

Definition reply_with (code : Z) (b : note) : action session (Z * note) := pure (code, b).

(** projects.js, PUT /:id, with name and status as the body holds them. *)
Definition put_project_body (u : actor) (pid : Z) (name status : jsval)
  : action session (Z * note) :=
  attempt
    (let! project := ask (t_stmt (n_select_project pid)) in
     match project with
     | None => reply_with 404 (note_error "Project not found")
     | Some project =>
         if negb (bool_decide (user_type u = admin))
            && negb (bool_decide (pc_created_by project = id u)) then
           reply_with 403 (note_error "Not authorized to update this project")
         else
           let! _ := ask (t_stmt (n_update_project (bind_param name) (bind_param status)
                                    pid)) in
           let! updatedProject := ask (t_stmt (n_select_project pid)) in
           match updatedProject with
           | None => throw "Cannot read properties of undefined (reading 'plan_image')"
           | Some updatedProject => reply_with 200 (note_project updatedProject)
           end
     end)
    (fun error => reply_with 500 (note_error error)).

(** workers.js, PUT /requests/:id/respond, with the status as the body
    holds it. *)
Definition respond_body (u : actor) (request_id : Z) (status : jsval)
  : action session (Z * note) :=
  if negb (bool_decide (user_type u = worker)) then
    reply_with 403 (note_error "Only workers can respond to requests")
  else
    attempt
      (let! request := ask (t_stmt (n_select_request_of_worker request_id (id u))) in
       match request with
       | None => reply_with 404 (note_error "Request not found")
       | Some request =>
           if negb (bool_decide (rc_status request = Some pending)) then
             reply_with 400 (note_error "Request already responded to")
           else
             let! _ := ask t_begin in
             attempt
               (let! _ := ask (t_stmt (n_update_request_status (bind_param status)
                                         request_id)) in
                let! _ :=
                  if is_accepted status then
                    let! _ := ask (t_stmt (n_update_project_engineer (id u)
                                             (rc_project_id request))) in
                    let! _ := ask (t_stmt (n_insert_project_worker (rc_project_id request)
                                             (id u) (id u) (Some "civil_engineer"))) in
                    ask (t_stmt (n_update_user_unavailable (id u)))
                  else pure tt in
                let! _ := ask t_commit in
                reply_with 200 (note_responded status))
               (fun error => let! _ := ask t_rollback in throw error)
       end)
      (fun error => reply_with 500 (note_error error)).
End Nullable.

(** The typed tables as these rows hold them. *)
Definition project_cell_of (p : project_row) : project_cell :=
  ProjectCell (created_by p) (civil_engineer_id p) (Some (p_status p)).

Definition request_cell_of (r : request_row) : request_cell :=
  RequestCell (wr_project_id r) (wr_worker_id r) (wr_requested_by r) (Some (wr_status r))
              (wr_message r) (wr_responded_at r).

Definition ledger_of (d : db) : ledger :=
  Ledger (users d) (project_cell_of <$> projects d) (request_cell_of <$> worker_requests d)
         (project_workers d) (seq_project_workers d).

Definition session_of (c : conn) : session :=
  Session (ledger_of (data c)) (ledger_of <$> saved c) (ticks c).

(** The wording of the refusals in [exec_sql] and [exec_sqlx]. *)
Definition wording_above (r : refusal) : string :=
  match r with
  | project_name_null => "SQLITE_CONSTRAINT: NOT NULL constraint failed: projects.name"
  | project_status_unlisted => "SQLITE_CONSTRAINT: CHECK constraint failed: projects"
  | request_status_unlisted => "SQLITE_CONSTRAINT: CHECK constraint failed: worker_requests"
  end.

(** The answers of [respond] and of [put_project] as these routes give
    them. *)
Definition note_of_response (status : string) (r : response) : Z * note :=
  (http_status r,
   match body r with
   | message_body _ => note_responded (str status)
   | error_body msg => note_error msg
   | _ => note_error ""
   end).

Definition note_of_reply (r : reply) : Z * note :=
  (reply_status r,
   match reply_body r with
   | project_doc row => note_project (project_cell_of row)
   | error_doc msg => note_error msg
   | _ => note_error ""
   end).

(** ** Running handlers *)

Lemma max_rowid_ge {V} (m : gmap Z V) k v : m !! k = Some v -> (k <= max_rowid m)%Z.
Proof.
  unfold max_rowid. revert k v.
  apply (map_fold_weak_ind
           (fun (b : Z) (m : gmap Z V) => forall k v, m !! k = Some v -> (k <= b)%Z)).
  - intros k v H. by rewrite lookup_empty in H.
  - intros i x m' r _ IH k v H.
    destruct (decide (i = k)) as [->|Hne]; [lia|].
    rewrite lookup_insert_ne in H by done. specialize (IH _ _ H). lia.
Qed.

(** An AUTOINCREMENT rowid is not in use. *)
Lemma next_rowid_fresh {V} (seq : Z) (m : gmap Z V) : m !! next_rowid seq m = None.
Proof.
  destruct (m !! next_rowid seq m) eqn:E; [|done].
  apply max_rowid_ge in E. unfold next_rowid in E. lia.
Qed.

Lemma select_first_None {V} (P : V -> bool) (m : gmap Z V) :
  select_first P m = None <-> forall k v, m !! k = Some v -> P v = false.
Proof.
  unfold select_first. split.
  - intros H k v Hk. destruct (List.find _ _) eqn:E; [done|].
    apply (find_none _ _ E (k, v)). apply list_elem_of_In. by apply elem_of_map_to_list.
  - intros H. destruct (List.find _ _) as [[k v]|] eqn:E; [|done].
    apply find_some in E as [Hin HP]. apply list_elem_of_In, elem_of_map_to_list in Hin.
    simpl in HP. rewrite (H _ _ Hin) in HP. done.
Qed.

Lemma select_first_Some {V} (P : V -> bool) (m : gmap Z V) v :
  select_first P m = Some v -> P v = true /\ exists k, m !! k = Some v.
Proof.
  unfold select_first. destruct (List.find _ _) as [[k v']|] eqn:E; [|done].
  intros [= <-]. apply find_some in E as [Hin HP].
  apply list_elem_of_In, elem_of_map_to_list in Hin. split; [done|by exists k].
Qed.

Lemma row_where_Some {V} (P : V -> bool) (o : option V) v :
  row_where P o = Some v <-> o = Some v /\ P v = true.
Proof.
  unfold row_where. destruct o as [r|].
  - destruct (P r) eqn:E; split.
    + intros [= <-]. done.
    + intros [[= <-] _]. done.
    + done.
    + intros [[= <-] HP]. congruence.
  - split; [done|]. intros [? _]. done.
Qed.

Section Workflows.
Variable fault : nat -> bool.
Variable clock : nat -> Z.

Lemma faulted_at n k n' : (n <= k < n')%nat -> fault k = true -> faulted fault n n'.
Proof. intros; exists k; auto. Qed.

Lemma reliable_not_faulted n n' : reliable fault -> ~ faulted fault n n'.
Proof. intros H (k & _ & Hk). rewrite H in Hk. done. Qed.

Ltac exec1 :=
  cbn [run try_catch bind db_get db_run db_all await exec_op exec_sql fst snd
       data saved ticks send internal_error rollback_and_rethrow idle negb].

Ltac on_fault :=
  match goal with
  | |- context [fault ?n] => let F := fresh "F" in destruct (fault n) eqn:F
  end.

Ltac answered := exec1; do 3 eexists; split; [reflexivity|]; split; [lia|].

Ltac fault_here :=
  answered; left; repeat split; eapply faulted_at; [|eassumption]; lia.

Ltac next_stmt := exec1; on_fault; [fault_here|]; exec1.

(** One more entry of the operation log, on a reliable connection. *)
Ltac log_step :=
  cbn [oplog try_catch bind db_get db_run db_all await exec_op exec_sql fst snd
       data saved ticks idle rollback_and_rethrow send];
  match goal with
  | H : reliable fault |- _ => rewrite ?H
  end;
  cbn [oplog try_catch bind db_get db_run db_all await exec_op exec_sql fst snd
       data saved ticks idle rollback_and_rethrow send].

(** Every order either hits a fault and changes nothing, or ends in one
    of the outcomes of the workflow; the connection is left idle. *)
Lemma order_material_run u pid mid q d n :
  exists resp d' n',
    run fault clock (order_material u pid mid q) (idle d n) = (inr resp, idle d' n')
    /\ (n <= n')%nat
    /\ (failed fault d n resp d' n' \/ order_outcome u pid mid q d resp d').
Proof.
  unfold order_material. next_stmt.
  destruct (row_where _ _) as [p|] eqn:Hp.
  2:{ answered. right. by constructor. }
  next_stmt. destruct (materials d !! mid) as [m|] eqn:Hm.
  2:{ answered. right. by econstructor. }
  destruct (Z.ltb_spec (stock_quantity m) q).
  { answered. right. by econstructor. }
  do 4 next_stmt. answered. right. by eapply order_placed.
Qed.

Lemma request_worker_run u pid wid msg d n :
  exists resp d' n',
    run fault clock (request_worker u pid wid msg) (idle d n) = (inr resp, idle d' n')
    /\ (n <= n')%nat
    /\ (failed fault d n resp d' n' \/ request_outcome u pid wid msg d resp d').
Proof.
  unfold request_worker. next_stmt.
  destruct (projects d !! pid) as [p|] eqn:Hp.
  2:{ answered. right. by constructor. }
  destruct (decide (created_by p = id u)) as [Ho|Ho].
  2:{ rewrite bool_decide_eq_false_2 by done. answered. right. by econstructor. }
  rewrite bool_decide_eq_true_2 by done. next_stmt.
  destruct (row_where is_available_engineer _) as [w|] eqn:Hw.
  2:{ answered. right. by econstructor. }
  next_stmt. destruct (select_first _ _) as [r|] eqn:Hr.
  { answered. right. by econstructor. }
  next_stmt. answered. right. by eapply request_sent.
Qed.

Lemma respond_run u rid status d n :
  exists resp d' n',
    run fault clock (respond u rid status) (idle d n) = (inr resp, idle d' n')
    /\ (n <= n')%nat
    /\ (failed fault d n resp d' n' \/ respond_outcome u rid status d resp d').
Proof.
  unfold respond.
  destruct (decide (user_type u = worker)) as [Hu|Hu].
  2:{ rewrite bool_decide_eq_false_2 by done. answered. right. by constructor. }
  rewrite bool_decide_eq_true_2 by done. next_stmt.
  destruct (row_where _ _) as [request|] eqn:Hreq.
  2:{ answered. right. by constructor. }
  destruct (decide (wr_status request = pending)) as [Hs|Hs].
  2:{ rewrite bool_decide_eq_false_2 by done. answered. right. by econstructor. }
  rewrite bool_decide_eq_true_2 by done. do 2 next_stmt.
  assert (Hrow : is_Some (worker_requests d !! rid)).
  { apply row_where_Some in Hreq as [-> _]. eauto. }
  destruct Hrow as [r0 Hrow]. rewrite Hrow.
  destruct (request_status_of_string status) as [st|] eqn:Hst.
  2:{ exec1. destruct (bool_decide (status = "accepted")); answered; right;
      by econstructor. }
  exec1. destruct (bool_decide (status = "accepted")) eqn:Hacc.
  - do 4 next_stmt. answered. right.
    pose proof (respond_done u rid status d request st (clock (S (S n))) Hu Hreq Hs Hst)
      as Hdone.
    unfold respond_commit in Hdone. rewrite Hacc in Hdone. exact Hdone.
  - next_stmt. answered. right.
    pose proof (respond_done u rid status d request st (clock (S (S n))) Hu Hreq Hs Hst)
      as Hdone.
    unfold respond_commit in Hdone. rewrite Hacc in Hdone. exact Hdone.
Qed.

Lemma assign_run u pid wid role d n :
  exists resp d' n',
    run fault clock (assign u pid wid role) (idle d n) = (inr resp, idle d' n')
    /\ (n <= n')%nat
    /\ (failed fault d n resp d' n' \/ assign_outcome u pid wid role d resp d').
Proof.
  unfold assign.
  destruct (decide (user_type u = worker)) as [Hu|Hu].
  2:{ rewrite (bool_decide_eq_false_2 _ Hu). answered. right. constructor.
      by intros [? _]. }
  rewrite (bool_decide_eq_true_2 _ Hu).
  destruct (decide (sub_user_type u = Some "civil_engineer")) as [Hsub|Hsub].
  2:{ rewrite (bool_decide_eq_false_2 _ Hsub). answered. right. constructor.
      by intros [_ ?]. }
  rewrite (bool_decide_eq_true_2 _ Hsub).
  assert (Hce : is_civil_engineer u) by done.
  cbn [negb orb]. next_stmt.
  destruct (row_where _ _) as [p|] eqn:Hp.
  2:{ answered. right. by constructor. }
  next_stmt. destruct (row_where is_available_worker _) as [w|] eqn:Hw.
  2:{ answered. right. by econstructor. }
  do 4 next_stmt. answered. right. by eapply assign_done.
Qed.

Lemma read_project_run {X} (listing : Z -> sql (list X)) wrap (rows : db -> list X)
    u pid d n :
  (forall now, exec_sql (listing pid) now d = inr (rows d, d)) ->
  exists resp n',
    run fault clock (read_project listing wrap u pid) (idle d n) = (inr resp, idle d n')
    /\ (n <= n')%nat
    /\ (failed fault d n resp d n' \/ read_outcome u pid (wrap (rows d)) d resp).
Proof.
  intros Hrows. unfold read_project.
  assert (Hlist : forall k,
    exists resp n',
      run fault clock
        (try_catch (let* rows := db_all (listing pid) in send 200 (wrap rows))
                   internal_error)
        (Conn d None k) = (inr resp, idle d n')
      /\ (k <= n')%nat
      /\ (resp = Json 500 (error_body io_error) /\ faulted fault k n'
          \/ resp = Json 200 (wrap (rows d)))).
  { intros k. exec1. destruct (fault k) eqn:F.
    - exec1. do 2 eexists. split; [reflexivity|]. split; [lia|]. left.
      split; [done|]. eapply faulted_at; [|exact F]. lia.
    - rewrite Hrows. exec1. do 2 eexists. split; [reflexivity|]. split; [lia|].
      by right. }
  exec1. destruct (fault n) eqn:F0.
  { exec1. do 2 eexists. split; [reflexivity|]. split; [lia|]. left.
    repeat split. eapply faulted_at; [|exact F0]. lia. }
  exec1. destruct (projects d !! pid) as [p|] eqn:Hp.
  2:{ exec1. do 2 eexists. split; [reflexivity|]. split; [lia|]. right.
      by constructor. }
  destruct (decide (user_type u = user)) as [Hu|Hu].
  - rewrite (bool_decide_eq_true_2 _ Hu).
    destruct (decide (created_by p = id u)) as [Ho|Ho].
    + rewrite (bool_decide_eq_true_2 _ Ho). cbn [negb andb].
      rewrite bool_decide_eq_false_2 by (rewrite Hu; done). cbn [andb].
      destruct (Hlist (S n)) as (resp & n' & Hrun & Hle & Hres).
      exists resp, n'. split; [exact Hrun|]. split; [lia|].
      destruct Hres as [[-> (k & Hk & Fk)]| ->].
      * left. repeat split. exists k. split; [lia|done].
      * right. eapply read_allowed; [done|done|]. rewrite Hu. done.
    + rewrite (bool_decide_eq_false_2 _ Ho). cbn [negb andb]. exec1.
      do 2 eexists. split; [reflexivity|]. split; [lia|]. right.
      by eapply read_not_owner.
  - rewrite (bool_decide_eq_false_2 _ Hu). cbn [andb].
    destruct (decide (user_type u = worker)) as [Hw|Hw].
    + rewrite (bool_decide_eq_true_2 _ Hw).
      destruct (decide (civil_engineer_id p = Some (id u))) as [Hce|Hce].
      * rewrite (bool_decide_eq_true_2 _ Hce). cbn [negb andb].
        destruct (Hlist (S n)) as (resp & n' & Hrun & Hle & Hres).
        exists resp, n'. split; [exact Hrun|]. split; [lia|].
        destruct Hres as [[-> (k & Hk & Fk)]| ->].
        -- left. repeat split. exists k. split; [lia|done].
        -- right. eapply read_allowed; [done|done|]. by left.
      * rewrite (bool_decide_eq_false_2 _ Hce). cbn [negb andb]. exec1.
        destruct (fault (S n)) eqn:F1.
        { exec1. do 2 eexists. split; [reflexivity|]. split; [lia|]. left.
          repeat split. eapply faulted_at; [|exact F1]. lia. }
        exec1. destruct (select_first _ _) as [a|] eqn:Ha.
        -- destruct (Hlist (S (S n))) as (resp & n' & Hrun & Hle & Hres).
           exists resp, n'. split; [exact Hrun|]. split; [lia|].
           destruct Hres as [[-> (k & Hk & Fk)]| ->].
           ++ left. repeat split. exists k. split; [lia|done].
           ++ right. eapply read_allowed; [done|done|]. intros _. right.
              unfold assigned_to. rewrite Ha. eauto.
        -- exec1. do 2 eexists. split; [reflexivity|]. split; [lia|]. right.
           by eapply read_not_assigned.
    + rewrite (bool_decide_eq_false_2 _ Hw). cbn [andb].
      destruct (Hlist (S n)) as (resp & n' & Hrun & Hle & Hres).
      exists resp, n'. split; [exact Hrun|]. split; [lia|].
      destruct Hres as [[-> (k & Hk & Fk)]| ->].
      * left. repeat split. exists k. split; [lia|done].
      * right. eapply read_allowed; [done|done|done].
Qed.

(** *** Material orders *)

Lemma order_commit_stock u pid mid q m d :
  materials d !! mid = Some m ->
  (q <= stock_quantity m)%Z ->
  stock_nonneg d ->
  stock_nonneg (order_commit u pid mid q m d).
Proof.
  intros Hm Hq Hd k m' Hk. cbn in Hk.
  destruct (decide (mid = k)) as [<-|Hne].
  - rewrite lookup_alter_eq, Hm in Hk. injection Hk as <-. cbn. lia.
  - rewrite lookup_alter_ne in Hk by done. exact (Hd _ _ Hk).
Qed.

Lemma serve_orders_stock rs :
  forall d n,
    forallb is_order rs = true ->
    stock_nonneg d ->
    exists d' n', serve fault clock rs (idle d n) = idle d' n' /\ stock_nonneg d'.
Proof.
  induction rs as [|r rs IH]; intros d n Hrs Hd.
  - exists d, n. done.
  - cbn [forallb] in Hrs. apply andb_prop in Hrs as [Hr Hrs].
    destruct r; try discriminate Hr. cbn [serve handler].
    destruct (order_material_run u project_id material_id quantity d n)
      as (resp & d' & n' & Hrun & _ & Hres).
    rewrite Hrun. cbn [snd]. apply IH; [done|].
    destruct Hres as [(_ & -> & _)|Hout]; [done|].
    destruct Hout; try done. by apply order_commit_stock.
Qed.

(** X24. For orders whose quantity is an integer: starting from stocks
    that are not negative, after any sequence of material orders handled
    one after the other (whoever the callers, whatever the quantities,
    whichever statements fail) no stock is negative; an order answers
    success only when the quantity does not exceed the stock read, and
    then the stock of that material has gone down by exactly the
    quantity, the other materials keeping theirs. *)
Theorem order_stock_never_negative rs d n :
  forallb is_order rs = true ->
  stock_nonneg d ->
  stock_nonneg (data (serve fault clock rs (idle d n)))
  /\ forall u pid mid q d0 n0 resp c',
       run fault clock (order_material u pid mid q) (idle d0 n0) = (inr resp, c') ->
       http_status resp = 200 ->
       exists m,
         materials d0 !! mid = Some m
         /\ (q <= stock_quantity m)%Z
         /\ materials (data c') !! mid
            = Some (MaterialRow (price_per_unit m) (stock_quantity m - q))
         /\ forall mid', mid' <> mid ->
              materials (data c') !! mid' = materials d0 !! mid'.
Proof.
  intros Hrs Hd. split.
  - destruct (serve_orders_stock rs d n Hrs Hd) as (d' & n' & -> & H). exact H.
  - intros u pid mid q d0 n0 resp c' Hrun Hok.
    destruct (order_material_run u pid mid q d0 n0)
      as (resp' & d' & n' & Hrun' & _ & Hres).
    rewrite Hrun in Hrun'. injection Hrun' as -> ->.
    destruct Hres as [(-> & _)|Hout]; [discriminate Hok|].
    destruct Hout as [| | |p m Hp Hm Hq]; try discriminate Hok.
    exists m. split; [done|]. split; [done|]. cbn. split.
    + by rewrite lookup_alter_eq, Hm.
    + intros mid' Hne. by rewrite lookup_alter_ne.
Qed.

(** C9, as the code has it, for an order whose quantity is an integer.
    The order operation does not look at the sign of the quantity: it
    rejects a quantity only when it exceeds the stock. A row it creates
    records the requested quantity, which is at most the stock read,
    under a fresh id; and every authorised order of an existing material
    for a quantity up to the stock, zero and negative ones included, is
    accepted when no statement fails. *)
Theorem order_row_quantity u pid mid q d n :
  exists resp d' n',
    run fault clock (order_material u pid mid q) (idle d n) = (inr resp, idle d' n')
    /\ (project_materials d' = project_materials d
        \/ exists m i,
             materials d !! mid = Some m
             /\ (q <= stock_quantity m)%Z
             /\ project_materials d !! i = None
             /\ project_materials d'
                = <[i := OrderRow pid mid q (price_per_unit m * q) (id u)]>
                    (project_materials d))
    /\ (reliable fault ->
        forall p m,
          authorized_engineer u pid d = Some p ->
          materials d !! mid = Some m ->
          (q <= stock_quantity m)%Z ->
          http_status resp = 200
          /\ exists i, project_materials d' !! i
                       = Some (OrderRow pid mid q (price_per_unit m * q) (id u))).
Proof.
  destruct (order_material_run u pid mid q d n) as (resp & d' & n' & Hrun & _ & Hres).
  exists resp, d', n'. split; [exact Hrun|]. split.
  - destruct Hres as [(_ & -> & _)|Hout]; [by left|].
    destruct Hout as [| | |p m Hp Hm Hq]; try by left.
    right. exists m, (next_rowid (seq_project_materials d) (project_materials d)).
    split; [done|]. split; [done|]. split; [apply next_rowid_fresh|done].
  - intros Hrel p m Hp Hm Hq.
    destruct Hres as [(_ & _ & Hf)|Hout]; [by apply reliable_not_faulted in Hf|].
    destruct Hout as [Hp'| p' Hp' Hm' | p' m' Hp' Hm' Hlt | p' m' Hp' Hm' Hq'].
    + congruence.
    + congruence.
    + assert (m' = m) as -> by congruence. lia.
    + assert (m' = m) as -> by congruence. split; [done|].
      exists (next_rowid (seq_project_materials d) (project_materials d)).
      cbn. by rewrite lookup_insert_eq.
Qed.

(** C1, as the code has it. The stock is read and compared with the
    quantity before BEGIN TRANSACTION; the transaction holds the insert
    of the order row and the decrement only. For two orders of 8 against
    a stock of 10 that are handled one after the other, the first
    succeeds, the second fails with "Insufficient stock" and the final
    stock is 2. *)
Theorem order_check_precedes_transaction u u' pid pid' mid p p' m d n :
  reliable fault ->
  authorized_engineer u pid d = Some p ->
  authorized_engineer u' pid' d = Some p' ->
  materials d !! mid = Some m ->
  stock_quantity m = 10 ->
  let first := run fault clock (order_material u pid mid 8) (idle d n) in
  let second := run fault clock (order_material u' pid' mid 8) (snd first) in
  oplog fault clock (order_material u pid mid 8) (idle d n)
  = [ existT _ (stmt (select_project_of_engineer pid (id u)));
      existT _ (stmt (select_material mid));
      existT _ begin_transaction;
      existT _ (stmt (insert_project_material pid mid 8 (price_per_unit m * 8) (id u)));
      existT _ (stmt (update_material_stock 8 mid));
      existT _ commit ]
  /\ fst first
     = inr (Json 200 (ordered_body "Material ordered successfully" (price_per_unit m * 8)))
  /\ fst second = inr (Json 400 (error_body "Insufficient stock"))
  /\ stock_quantity <$> materials (data (snd second)) !! mid = Some 2.
Proof.
  intros Hrel Hp Hp' Hm Hstock first second. split.
  { unfold order_material, authorized_engineer in *.
    log_step. rewrite Hp. log_step. rewrite Hm.
    replace (stock_quantity m <? 8)%Z with false by (symmetry; apply Z.ltb_ge; lia).
    do 4 log_step. reflexivity. }
  subst first second.
  destruct (order_material_run u pid mid 8 d n) as (r1 & d1 & n1 & Hrun1 & _ & Hres1).
  rewrite Hrun1. cbn [fst snd].
  destruct Hres1 as [(_ & _ & Hf)|Hout1]; [by apply reliable_not_faulted in Hf|].
  destruct Hout1 as [? | ? ? Hm1 | ? m1 ? Hm1 Hlt | ? m1 ? Hm1 Hq1]; try congruence.
  { assert (m1 = m) as -> by congruence. lia. }
  assert (m1 = m) as -> by congruence.
  split; [done|].
  destruct (order_material_run u' pid' mid 8 (order_commit u pid mid 8 m d) n1)
    as (r2 & d2 & n2 & Hrun2 & _ & Hres2).
  rewrite Hrun2. cbn [fst snd data idle].
  destruct Hres2 as [(_ & _ & Hf)|Hout2]; [by apply reliable_not_faulted in Hf|].
  assert (Hm2 : materials (order_commit u pid mid 8 m d) !! mid
                = Some (MaterialRow (price_per_unit m) 2)).
  { cbn. rewrite lookup_alter_eq, Hm. cbn. unfold take_stock. by rewrite Hstock. }
  destruct Hout2 as [Hno | ? Hp2 Hm2' | ? m2 Hp2 Hm2' Hlt | ? m2 Hp2 Hm2' Hq2].
  - unfold authorized_engineer in *. cbn in Hno. congruence.
  - congruence.
  - split; [done|]. by rewrite Hm2.
  - rewrite Hm2 in Hm2'. injection Hm2' as <-. cbn in Hq2. lia.
Qed.

(** *** Responding to a worker request *)

Lemma own_request_lookup u rid d request :
  own_request u rid d = Some request ->
  worker_requests d !! rid = Some request /\ wr_worker_id request = id u.
Proof.
  unfold own_request. intros [H1 H2]%row_where_Some.
  split; [done|]. by apply bool_decide_eq_true in H2.
Qed.

Lemma respond_commit_requests u rid request status st now d :
  worker_requests (respond_commit u rid request status st now d)
  = alter (set_request_status st now) rid (worker_requests d).
Proof. unfold respond_commit. by destruct (bool_decide _). Qed.

Lemma respond_commit_own u rid request status st now d :
  own_request u rid d = Some request ->
  own_request u rid (respond_commit u rid request status st now d)
  = Some (set_request_status st now request).
Proof.
  intros [Hrow Hw]%own_request_lookup. unfold own_request.
  rewrite respond_commit_requests, lookup_alter_eq, Hrow. cbn.
  by rewrite bool_decide_eq_true_2.
Qed.

Lemma respond_commit_accepted u rid request st now d :
  respond_commit u rid request "accepted" st now d
  = install_engineer u (wr_project_id request) (mark_responded rid st now d).
Proof. reflexivity. Qed.

Lemma decision_not_pending status st :
  status = "accepted" \/ status = "rejected" ->
  request_status_of_string status = Some st ->
  st <> pending.
Proof. intros [-> | ->]; cbn; intros [= <-]; done. Qed.

(** A request that is no longer pending is not touched by any response,
    whoever sends it and whatever statement fails. *)
Lemma respond_resolved_run v rid status d n r0 :
  worker_requests d !! rid = Some r0 ->
  wr_status r0 <> pending ->
  exists resp n',
    run fault clock (respond v rid status) (idle d n) = (inr resp, idle d n')
    /\ http_status resp <> 200
    /\ (reliable fault -> user_type v = worker -> wr_worker_id r0 = id v ->
        resp = Json 400 (error_body "Request already responded to")).
Proof.
  intros Hrow Hst.
  destruct (respond_run v rid status d n) as (resp & d' & n' & Hrun & _ & Hres).
  assert (Hown : forall request, own_request v rid d = Some request -> request = r0).
  { intros request [H _]%own_request_lookup. congruence. }
  destruct Hres as [(-> & -> & Hf)|Hout].
  - exists (Json 500 (error_body io_error)), n'. split; [done|]. split; [done|].
    intros Hrel. by apply reliable_not_faulted in Hf.
  - destruct Hout as [Hu | Hu Hno | request Hu Hreq Hs | request Hu Hreq Hs Hbad
                      | request st now Hu Hreq Hs Hparse].
    + eexists _, n'. split; [exact Hrun|]. split; [done|]. intros _ Hw. done.
    + eexists _, n'. split; [exact Hrun|]. split; [done|]. intros _ _ Hw.
      unfold own_request in Hno. rewrite Hrow in Hno. cbn in Hno.
      by rewrite bool_decide_eq_true_2 in Hno.
    + eexists _, n'. split; [exact Hrun|]. split; [done|]. done.
    + apply Hown in Hreq as ->. done.
    + apply Hown in Hreq as ->. done.
Qed.

(** C2. When the target worker answers a pending request, the call is
    one transaction. With decision accepted it either commits, and then
    the request is recorded as accepted with its response time, the
    project has the worker as civil engineer and status in_progress, a
    project_workers row with role civil_engineer has been inserted under
    a fresh id, the worker is unavailable and no other row of any table
    has changed, or it answers 500 and the database, request status
    included, is as before the call; it commits when no statement fails.
    With decision rejected a committed call changes the status and
    response time of that request and nothing else. *)
Theorem respond_atomic u rid request d n :
  user_type u = worker ->
  own_request u rid d = Some request ->
  wr_status request = pending ->
  (exists resp d' n',
      run fault clock (respond u rid "accepted") (idle d n) = (inr resp, idle d' n')
      /\ (reliable fault -> http_status resp = 200)
      /\ (http_status resp = 200
          /\ (exists now,
                 worker_requests d' !! rid
                 = Some (RequestRow (wr_project_id request) (wr_worker_id request)
                           (wr_requested_by request) accepted (wr_message request)
                           (Some now)))
          /\ (forall k, k <> rid -> worker_requests d' !! k = worker_requests d !! k)
          /\ projects d' !! wr_project_id request
             = (fun p => ProjectRow (created_by p) (Some (id u)) in_progress)
                 <$> projects d !! wr_project_id request
          /\ (forall k, k <> wr_project_id request -> projects d' !! k = projects d !! k)
          /\ project_workers d !! next_rowid (seq_project_workers d) (project_workers d)
             = None
          /\ project_workers d'
             = <[next_rowid (seq_project_workers d) (project_workers d)
                 := AssignmentRow (wr_project_id request) (id u) (id u)
                      (Some "civil_engineer")]> (project_workers d)
          /\ users d' !! id u
             = (fun w => UserRow (username w) (email w) (u_user_type w) (u_sub_user_type w)
                           false)
                 <$> users d !! id u
          /\ (forall k, k <> id u -> users d' !! k = users d !! k)
          /\ materials d' = materials d
          /\ project_materials d' = project_materials d
          /\ project_milestones d' = project_milestones d
          \/ http_status resp = 500 /\ d' = d))
  /\ (exists resp d' n',
         run fault clock (respond u rid "rejected") (idle d n) = (inr resp, idle d' n')
         /\ (reliable fault -> http_status resp = 200)
         /\ (http_status resp = 200
             /\ (exists now,
                    worker_requests d' !! rid
                    = Some (RequestRow (wr_project_id request) (wr_worker_id request)
                              (wr_requested_by request) rejected (wr_message request)
                              (Some now)))
             /\ (forall k, k <> rid -> worker_requests d' !! k = worker_requests d !! k)
             /\ projects d' = projects d
             /\ project_workers d' = project_workers d
             /\ users d' = users d
             /\ materials d' = materials d
             /\ project_materials d' = project_materials d
             /\ project_milestones d' = project_milestones d
             \/ http_status resp = 500 /\ d' = d)).
Proof.
  intros Hu Hreq Hs.
  pose proof Hreq as [Hrow _]%own_request_lookup. split.
  - destruct (respond_run u rid "accepted" d n) as (resp & d' & n' & Hrun & _ & Hres).
    exists resp, d', n'. split; [exact Hrun|].
    destruct Hres as [(-> & -> & Hf)|Hout].
    { split; [|by right]. intros Hrel. by apply reliable_not_faulted in Hf. }
    destruct Hout as [Hu' | _ Hno | request' _ Hreq' Hs' | request' _ Hreq' _ Hbad
                      | request' st now _ Hreq' _ Hparse]; try congruence.
    { discriminate Hbad. }
    assert (request' = request) as -> by congruence.
    injection Hparse as <-.
    split; [done|]. left. split; [done|].
    rewrite respond_commit_accepted.
    cbn [install_engineer mark_responded worker_requests projects project_workers users
         materials project_materials project_milestones seq_project_workers
         with_users with_projects with_worker_requests with_project_workers].
    split; [exists now; by rewrite lookup_alter_eq, Hrow|].
    split; [intros k Hk; by rewrite lookup_alter_ne|].
    split; [by rewrite lookup_alter_eq|].
    split; [intros k Hk; by rewrite lookup_alter_ne|].
    split; [apply next_rowid_fresh|].
    split; [done|].
    split; [by rewrite lookup_alter_eq|].
    split; [intros k Hk; by rewrite lookup_alter_ne|]. done.
  - destruct (respond_run u rid "rejected" d n) as (resp & d' & n' & Hrun & _ & Hres).
    exists resp, d', n'. split; [exact Hrun|].
    destruct Hres as [(-> & -> & Hf)|Hout].
    { split; [|by right]. intros Hrel. by apply reliable_not_faulted in Hf. }
    destruct Hout as [Hu' | _ Hno | request' _ Hreq' Hs' | request' _ Hreq' _ Hbad
                      | request' st now _ Hreq' _ Hparse]; try congruence.
    { discriminate Hbad. }
    assert (request' = request) as -> by congruence.
    injection Hparse as <-.
    split; [done|]. left. split; [done|].
    change (respond_commit u rid request "rejected" rejected now d)
      with (mark_responded rid rejected now d).
    cbn. split; [exists now; by rewrite lookup_alter_eq, Hrow|].
    split; [intros k Hk; by rewrite lookup_alter_ne|]. done.
Qed.

(** C4. After a response with decision accepted or rejected has
    succeeded, a second response to the same request by the same worker
    never succeeds and changes nothing, so that no effect of the first
    is repeated: it answers 400 "Request already responded to" (500 if
    the lookup itself fails). The request keeps the status the first
    call gave it, and more generally no response by any actor changes a
    database in which the request is accepted or rejected. *)
Theorem respond_resolves_once u rid s1 s2 d n resp1 c1 :
  s1 = "accepted" \/ s1 = "rejected" ->
  run fault clock (respond u rid s1) (idle d n) = (inr resp1, c1) ->
  http_status resp1 = 200 ->
  (exists resp2 n2 r st,
      run fault clock (respond u rid s2) c1 = (inr resp2, idle (data c1) n2)
      /\ (resp2 = Json 400 (error_body "Request already responded to")
          \/ resp2 = Json 500 (error_body io_error))
      /\ (reliable fault -> resp2 = Json 400 (error_body "Request already responded to"))
      /\ request_status_of_string s1 = Some st
      /\ st <> pending
      /\ worker_requests (data c1) !! rid = Some r
      /\ wr_status r = st)
  /\ (forall v s d0 n0 r0,
         worker_requests d0 !! rid = Some r0 ->
         wr_status r0 <> pending ->
         exists resp n',
           run fault clock (respond v rid s) (idle d0 n0) = (inr resp, idle d0 n')
           /\ http_status resp <> 200).
Proof.
  intros Hs1 Hrun1 Hok. split.
  - destruct (respond_run u rid s1 d n) as (resp & d1 & n1 & Hrun & _ & Hres).
    rewrite Hrun1 in Hrun. injection Hrun as -> ->.
    destruct Hres as [(-> & _)|Hout]; [discriminate Hok|].
    destruct Hout as [ | | | | request st now Hu Hreq Hs Hparse]; try discriminate Hok.
    pose proof (decision_not_pending _ _ Hs1 Hparse) as Hst.
    pose proof (respond_commit_own u rid request s1 st now d Hreq) as Hown.
    apply own_request_lookup in Hown as [Hrow Hw].
    destruct (respond_run u rid s2 (respond_commit u rid request s1 st now d) n1)
      as (resp2 & d2 & n2 & Hrun2 & _ & Hres2).
    assert (Hown' : forall request',
               own_request u rid (respond_commit u rid request s1 st now d)
               = Some request' -> wr_status request' = st).
    { intros request' [H _]%own_request_lookup. rewrite Hrow in H.
      by injection H as <-. }
    destruct Hres2 as [(-> & -> & Hf)|Hout2].
    + exists (Json 500 (error_body io_error)), n2, (set_request_status st now request), st.
      split; [exact Hrun2|]. split; [by right|].
      split; [intros Hrel; by apply reliable_not_faulted in Hf|]. done.
    + destruct Hout2 as [Hu' | _ Hno | request' _ Hreq' Hs' | request' _ Hreq' Hs' Hbad
                         | request' st' now' _ Hreq' Hs' Hparse'].
      * done.
      * unfold own_request in Hno. rewrite Hrow in Hno. cbn in Hno.
        rewrite bool_decide_eq_true_2 in Hno; [done|]. exact Hw.
      * eexists _, n2, (set_request_status st now request), st.
        split; [exact Hrun2|]. split; [by left|]. done.
      * apply Hown' in Hreq'. congruence.
      * apply Hown' in Hreq'. congruence.
  - intros v s d0 n0 r0 Hrow Hst.
    destruct (respond_resolved_run v rid s d0 n0 r0 Hrow Hst) as (resp & n' & H1 & H2 & _).
    by exists resp, n'.
Qed.

(** C10. Accepting a pending request succeeds although the worker is
    already marked unavailable, and makes the worker civil engineer of
    the request's project: the accept path reads the request and nothing
    else (no statement of the call reads the users table). *)
Theorem accept_ignores_availability u rid request p w d n :
  reliable fault ->
  user_type u = worker ->
  own_request u rid d = Some request ->
  wr_status request = pending ->
  projects d !! wr_project_id request = Some p ->
  users d !! id u = Some w ->
  is_available w = false ->
  exists d' n',
    run fault clock (respond u rid "accepted") (idle d n)
    = (inr (Json 200 (message_body "Request accepted successfully")), idle d' n')
    /\ projects d' !! wr_project_id request
       = Some (ProjectRow (created_by p) (Some (id u)) in_progress)
    /\ oplog fault clock (respond u rid "accepted") (idle d n)
       = [ existT _ (stmt (select_request_of_worker rid (id u)));
           existT _ begin_transaction;
           existT _ (stmt (update_request_status "accepted" rid));
           existT _ (stmt (update_project_engineer (id u) (wr_project_id request)));
           existT _ (stmt (insert_project_worker (wr_project_id request) (id u) (id u)
                             (Some "civil_engineer")));
           existT _ (stmt (update_user_unavailable (id u)));
           existT _ commit ].
Proof.
  intros Hrel Hu Hreq Hs Hp Hw Hav.
  destruct (respond_run u rid "accepted" d n) as (resp & d' & n' & Hrun & _ & Hres).
  destruct Hres as [(_ & _ & Hf)|Hout]; [by apply reliable_not_faulted in Hf|].
  destruct Hout as [Hu' | _ Hno | request' _ Hreq' Hs' | request' _ Hreq' _ Hbad
                    | request' st now _ Hreq' _ Hparse]; try congruence.
  { discriminate Hbad. }
  assert (request' = request) as -> by congruence.
  rewrite respond_commit_accepted in Hrun.
  eexists _, n'. split; [exact Hrun|]. split.
  { cbn. by rewrite lookup_alter_eq, Hp. }
  pose proof Hreq as [Hrow _]%own_request_lookup.
  clear Hrun. unfold respond, own_request in *.
  rewrite (bool_decide_eq_true_2 _ Hu). cbn [negb].
  log_step. rewrite Hreq. rewrite (bool_decide_eq_true_2 _ Hs). cbn [negb].
  do 2 log_step. rewrite Hrow.
  change (request_status_of_string "accepted") with (Some accepted). log_step.
  rewrite bool_decide_eq_true_2 by done.
  do 4 log_step. reflexivity.
Qed.

(** *** The project's civil engineer *)

(** C8, as the code has it. Among the calls of the workflows, only a
    committed acceptance writes a project's civil engineer: creating a
    request, rejecting, assigning, ordering and reading leave the
    projects table as it is. An acceptance does not look at the engineer
    the project has: it sets the accepting worker, also on a project that
    had another engineer. *)
Theorem engineer_set_by_each_acceptance r d n :
  exists resp d' n',
    run fault clock (handler r) (idle d n) = (inr resp, idle d' n')
    /\ (projects d' = projects d
        \/ exists u rid request,
             r = Respond u rid "accepted"
             /\ http_status resp = 200
             /\ own_request u rid d = Some request
             /\ wr_status request = pending
             /\ projects d'
                = alter (set_engineer (id u)) (wr_project_id request) (projects d))
    /\ (reliable fault ->
        forall u rid request p,
          r = Respond u rid "accepted" ->
          user_type u = worker ->
          own_request u rid d = Some request ->
          wr_status request = pending ->
          projects d !! wr_project_id request = Some p ->
          projects d' !! wr_project_id request
          = Some (ProjectRow (created_by p) (Some (id u)) in_progress)).
Proof.
  destruct r as [u pid wid msg | u rid status | u pid wid role | u pid mid q
                 | u pid | u pid | u pid]; cbn [handler].
  - destruct (request_worker_run u pid wid msg d n) as (resp & d' & n' & Hrun & _ & Hres).
    exists resp, d', n'. split; [exact Hrun|]. split; [|by intros].
    left. destruct Hres as [(_ & -> & _)|Hout]; [done|]. by destruct Hout.
  - destruct (respond_run u rid status d n) as (resp & d' & n' & Hrun & _ & Hres).
    exists resp, d', n'. split; [exact Hrun|].
    destruct Hres as [(_ & -> & Hf)|Hout].
    { split; [by left|]. intros Hrel. by apply reliable_not_faulted in Hf. }
    destruct Hout as [Hu' | Hu Hno | request' Hu Hreq' Hs' | request' Hu Hreq' Hs' Hbad
                      | request' st now Hu Hreq' Hs' Hparse].
    1-4: split; [by left|]; intros _ u0 rid0 request p [= -> -> ->] ? ? ? ?;
         try congruence.
    { discriminate Hbad. }
    unfold respond_commit. destruct (decide (status = "accepted")) as [->|Hne].
    + rewrite bool_decide_eq_true_2 by done. split.
      * right. exists u, rid, request'. done.
      * intros _ u0 rid0 request p [= -> ->] _ Hreq Hs Hp.
        assert (request' = request) as -> by congruence.
        cbn. by rewrite lookup_alter_eq, Hp.
    + rewrite bool_decide_eq_false_2 by done. split; [by left|].
      intros _ u0 rid0 request p [= -> -> ->]. done.
  - destruct (assign_run u pid wid role d n) as (resp & d' & n' & Hrun & _ & Hres).
    exists resp, d', n'. split; [exact Hrun|]. split; [|by intros].
    left. destruct Hres as [(_ & -> & _)|Hout]; [done|]. by destruct Hout.
  - destruct (order_material_run u pid mid q d n) as (resp & d' & n' & Hrun & _ & Hres).
    exists resp, d', n'. split; [exact Hrun|]. split; [|by intros].
    left. destruct Hres as [(_ & -> & _)|Hout]; [done|]. by destruct Hout.
  - destruct (read_project_run select_project_materials material_rows
                (fun d => joined_materials d pid) u pid d n)
      as (resp & n' & Hrun & _); [done|].
    exists resp, d, n'. split; [exact Hrun|]. split; [by left|by intros].
  - destruct (read_project_run select_project_milestones milestone_rows
                (fun d => joined_milestones d pid) u pid d n)
      as (resp & n' & Hrun & _); [done|].
    exists resp, d, n'. split; [exact Hrun|]. split; [by left|by intros].
  - destruct (read_project_run select_project_workers worker_rows
                (fun d => joined_workers d pid) u pid d n)
      as (resp & n' & Hrun & _); [done|].
    exists resp, d, n'. split; [exact Hrun|]. split; [by left|by intros].
Qed.

(** *** Creating a worker request *)

(** Rejecting the only pending request of a pair leaves the pair without
    a pending request. *)
Lemma reject_clears_pending pid wid rid now d :
  (forall k r, worker_requests d !! k = Some r ->
               is_pending_request pid wid r = true -> k = rid) ->
  has_pending pid wid (mark_responded rid rejected now d) = None.
Proof.
  intros Honly. unfold has_pending. apply select_first_None. intros k r Hk.
  cbn in Hk. destruct (decide (rid = k)) as [<-|Hne].
  - rewrite lookup_alter_eq in Hk. destruct (worker_requests d !! rid); [|done].
    injection Hk as <-. unfold is_pending_request. cbn.
    by rewrite andb_false_r.
  - rewrite lookup_alter_ne in Hk by done.
    destruct (is_pending_request pid wid r) eqn:E; [|done].
    by specialize (Honly _ _ Hk E).
Qed.

(** C5. With no statement failing: a request for a (project, worker)
    pair that has a pending request is refused with 400 "Request already
    sent to this worker" and changes nothing; a request is accepted, and
    recorded with status pending under a fresh id, exactly when the
    caller owns the project, the worker is an available civil engineer
    and the pair has no pending request; and once the worker has
    rejected the only pending request of the pair, a new request for the
    pair is accepted. *)
Theorem request_worker_pending_guard u pid wid msg d n :
  reliable fault ->
  (forall p w r,
      projects d !! pid = Some p -> created_by p = id u ->
      available_engineer wid d = Some w ->
      has_pending pid wid d = Some r ->
      exists n',
        run fault clock (request_worker u pid wid msg) (idle d n)
        = (inr (Json 400 (error_body "Request already sent to this worker")), idle d n'))
  /\ (forall p w,
         projects d !! pid = Some p -> created_by p = id u ->
         available_engineer wid d = Some w ->
         has_pending pid wid d = None ->
         exists i d' n',
           run fault clock (request_worker u pid wid msg) (idle d n)
           = (inr (Json 201 (created_body "Worker request sent successfully" i)),
              idle d' n')
           /\ worker_requests d !! i = None
           /\ worker_requests d'
              = <[i := RequestRow pid wid (id u) pending msg None]> (worker_requests d))
  /\ (forall resp c',
         run fault clock (request_worker u pid wid msg) (idle d n) = (inr resp, c') ->
         http_status resp = 201 ->
         exists p w,
           projects d !! pid = Some p /\ created_by p = id u
           /\ available_engineer wid d = Some w
           /\ has_pending pid wid d = None)
  /\ (forall p w wk rid rq,
         projects d !! pid = Some p -> created_by p = id u ->
         available_engineer wid d = Some w ->
         user_type wk = worker -> id wk = wid ->
         own_request wk rid d = Some rq ->
         wr_status rq = pending ->
         (forall k r, worker_requests d !! k = Some r ->
                      is_pending_request pid wid r = true -> k = rid) ->
         let rejected_ := run fault clock (respond wk rid "rejected") (idle d n) in
         status_of (fst rejected_) = Some 200
         /\ status_of
              (fst (run fault clock (request_worker u pid wid msg) (snd rejected_)))
            = Some 201).
Proof.
  intros Hrel.
  assert (Hrun_at : forall d0 n0, exists resp d' n',
             run fault clock (request_worker u pid wid msg) (idle d0 n0)
             = (inr resp, idle d' n')
             /\ request_outcome u pid wid msg d0 resp d').
  { intros d0 n0.
    destruct (request_worker_run u pid wid msg d0 n0) as (resp & d' & n' & Hrun & _ & Hres).
    exists resp, d', n'. split; [exact Hrun|].
    destruct Hres as [(_ & _ & Hf)|Hout]; [by apply reliable_not_faulted in Hf|done]. }
  destruct (Hrun_at d n) as (resp & d' & n' & Hrun & Hout).
  split; [|split; [|split]].
  - intros p w r Hp Ho Hw Hr. exists n'. rewrite Hrun.
    destruct Hout; try congruence.
  - intros p w Hp Ho Hw Hr.
    exists (next_rowid (seq_worker_requests d) (worker_requests d)).
    destruct Hout; try congruence.
    eexists _, n'. split; [exact Hrun|]. split; [apply next_rowid_fresh|done].
  - intros resp0 c' Hrun0 Hok. rewrite Hrun in Hrun0. injection Hrun0 as <- <-.
    destruct Hout as [ | | | | p0 w0 Hp0 Ho0 Hw0 Hr0]; try discriminate Hok.
    by exists p0, w0.
  - intros p w wk rid rq Hp Ho Hw Hwk Hid Hreq Hs Honly rejected_. subst rejected_.
    destruct (respond_run wk rid "rejected" d n) as (r1 & d1 & n1 & Hrun1 & _ & Hres1).
    rewrite Hrun1. cbn [fst snd].
    destruct Hres1 as [(_ & _ & Hf)|Hout1]; [by apply reliable_not_faulted in Hf|].
    destruct Hout1 as [ | | | ? _ _ _ Hbad | rq' st now _ Hreq' _ Hparse];
      try congruence.
    { discriminate Hbad. }
    injection Hparse as <-. split; [done|].
    change (respond_commit wk rid rq' "rejected" rejected now d)
      with (mark_responded rid rejected now d).
    destruct (Hrun_at (mark_responded rid rejected now d) n1)
      as (r2 & d2 & n2 & Hrun2 & Hout2).
    rewrite Hrun2. cbn [fst].
    pose proof (reject_clears_pending pid wid rid now d Honly) as Hnone.
    destruct Hout2 as [Hp2 | p2 Hp2 Ho2 | p2 Hp2 Ho2 Hw2 | p2 w2 r2 Hp2 Ho2 Hw2 Hr2 | ];
      cbn in *; try congruence.
    unfold available_engineer in *. cbn in Hw2. congruence.
Qed.

(** *** Reading a project's sub-resources *)

(** C6, as the code has it. With no statement failing, reading the
    materials, the milestones or the workers of an existing project
    answers 403 to every actor other than an admin who is not its owner,
    not its civil engineer and not in its assignment list; an admin is
    let through to the listing of every project. *)
Theorem read_guard u pid p d n :
  reliable fault ->
  projects d !! pid = Some p ->
  let answers :=
    ( fst (run fault clock (get_project_materials u pid) (idle d n)),
      fst (run fault clock (get_project_milestones u pid) (idle d n)),
      fst (run fault clock (get_project_workers u pid) (idle d n)) ) in
  (user_type u <> admin ->
   created_by p <> id u ->
   civil_engineer_id p <> Some (id u) ->
   assigned_to u pid d = None ->
   answers = ( inr (Json 403 (error_body "Not authorized")),
               inr (Json 403 (error_body "Not authorized")),
               inr (Json 403 (error_body "Not authorized")) ))
  /\ (user_type u = admin ->
      answers = ( inr (Json 200 (material_rows (joined_materials d pid))),
                  inr (Json 200 (milestone_rows (joined_milestones d pid))),
                  inr (Json 200 (worker_rows (joined_workers d pid))) )).
Proof.
  intros Hrel Hp answers. subst answers.
  assert (Hread : forall X (listing : Z -> sql (list X)) wrap rows,
             (forall now, exec_sql (listing pid) now d = inr (rows d, d)) ->
             exists resp,
               fst (run fault clock (read_project listing wrap u pid) (idle d n))
               = inr resp
               /\ read_outcome u pid (wrap (rows d)) d resp).
  { intros X listing wrap rows Hrows.
    destruct (read_project_run listing wrap rows u pid d n Hrows)
      as (resp & n' & Hrun & _ & Hres).
    exists resp. rewrite Hrun. split; [done|].
    destruct Hres as [(_ & _ & Hf)|Hout]; [by apply reliable_not_faulted in Hf|done]. }
  destruct (Hread _ select_project_materials material_rows
              (fun d => joined_materials d pid)) as (r1 & E1 & O1); [done|].
  destruct (Hread _ select_project_milestones milestone_rows
              (fun d => joined_milestones d pid)) as (r2 & E2 & O2); [done|].
  destruct (Hread _ select_project_workers worker_rows
              (fun d => joined_workers d pid)) as (r3 & E3 & O3); [done|].
  unfold get_project_materials, get_project_milestones, get_project_workers.
  rewrite E1, E2, E3. clear E1 E2 E3 Hread.
  assert (Hdeny : forall rows resp,
             read_outcome u pid rows d resp ->
             user_type u <> admin -> created_by p <> id u ->
             civil_engineer_id p <> Some (id u) -> assigned_to u pid d = None ->
             resp = Json 403 (error_body "Not authorized")).
  { intros rows resp Hout Hna Hno Hnce Hnas.
    destruct Hout as [ | | | p' Hp' Huser Hworker]; try done; try congruence.
    assert (p' = p) as -> by congruence.
    destruct (user_type u) eqn:Hu; [done| |].
    - by specialize (Huser eq_refl).
    - destruct (Hworker eq_refl) as [?|[a Ha]]; [done|congruence]. }
  assert (Hadmin : forall rows resp,
             read_outcome u pid rows d resp -> user_type u = admin ->
             resp = Json 200 rows).
  { intros rows resp Hout Hu. destruct Hout; congruence. }
  split.
  - intros Hna Hno Hnce Hnas.
    by rewrite (Hdeny _ _ O1), (Hdeny _ _ O2), (Hdeny _ _ O3).
  - intros Hu. by rewrite (Hadmin _ _ O1), (Hadmin _ _ O2), (Hadmin _ _ O3).
Qed.

(** *** Direct assignment *)

End Workflows.

(** ** The workflows on the sample data *)

Lemma no_fault_reliable : reliable no_fault.
Proof. intros k. reflexivity. Qed.

(** C1 fails on the code: with the stock at 10, two orders of 8 whose
    reads both come before either transaction both succeed, and the stock
    ends at -6. *)
Lemma order_race_overdraws_stock :
  stock_quantity <$> materials site1 !! 1 = Some 10
  /\ fst race_result
     = ( Ret (Json 200 (ordered_body "Material ordered successfully" 3600)),
         Ret (Json 200 (ordered_body "Material ordered successfully" 3600)) )
  /\ stock_quantity <$> materials (data (snd race_result)) !! 1 = Some (-6).
Proof. repeat split; vm_compute; reflexivity. Qed.

(** When the event loop resumes the two handlers in turn, the second BEGIN
    lands inside the first transaction: the second order fails, not with
    "Insufficient stock" but with the error of the store. *)
Lemma order_lockstep_nested_begin :
  fst lockstep_result
  = ( Ret (Json 200 (ordered_body "Material ordered successfully" 3600)),
      Ret (Json 500 (error_body
             "SQLITE_ERROR: cannot start a transaction within a transaction")) )
  /\ stock_quantity <$> materials (data (snd lockstep_result)) !! 1 = Some 2.
Proof. repeat split; vm_compute; reflexivity. Qed.

Lemma order_check_precedes_transaction_witness :
  fst (run no_fault wall_clock (order_material bob 1 1 8)
         (snd (run no_fault wall_clock (order_material bob 1 1 8) (idle site1 0))))
  = inr (Json 400 (error_body "Insufficient stock")).
Proof.
  apply (order_check_precedes_transaction no_fault wall_clock bob bob 1 1 1
           (ProjectRow 2 (Some 3) in_progress) (ProjectRow 2 (Some 3) in_progress)
           (MaterialRow 450 10) site1 0).
  - intros k. reflexivity.
  - vm_compute. reflexivity.
  - vm_compute. reflexivity.
  - vm_compute. reflexivity.
  - reflexivity.
Defined.

Lemma respond_atomic_witness :
  exists resp d' n' now,
    run no_fault wall_clock (respond bob 1 "accepted") (idle site_pending 0)
    = (inr resp, idle d' n')
    /\ http_status resp = 200
    /\ worker_requests d' !! 1 = Some (RequestRow 1 3 2 accepted "join us" (Some now))
    /\ projects d' !! 1 = Some (ProjectRow 2 (Some 3) in_progress)
    /\ project_workers d' !! 1 = Some (AssignmentRow 1 3 3 (Some "civil_engineer"))
    /\ users d' !! 3
       = Some (UserRow "bob" "bob@example.com" worker (Some "civil_engineer") false).
Proof.
  destruct (respond_atomic no_fault wall_clock bob 1
              (RequestRow 1 3 2 pending "join us" None) site_pending 0)
    as [(resp & d' & n' & Hrun & Hok & Hres) _].
  - reflexivity.
  - vm_compute. reflexivity.
  - reflexivity.
  - specialize (Hok no_fault_reliable).
    destruct Hres as [(_ & (now & Hreq) & _ & Hproj & _ & _ & Hpw & Husr & _)|[H500 _]].
    + cbn [wr_project_id wr_worker_id wr_requested_by wr_message] in Hreq, Hproj, Hpw.
      exists resp, d', n', now. split; [exact Hrun|]. split; [exact Hok|].
      split; [exact Hreq|]. split; [rewrite Hproj; vm_compute; reflexivity|].
      split; [rewrite Hpw; vm_compute; reflexivity|].
      change (id bob) with 3 in Husr. rewrite Husr. vm_compute. reflexivity.
    + rewrite Hok in H500. discriminate H500.
Defined.

(** A statement failing inside the transaction of an acceptance (here the
    insert into project_workers, after the request and the project have
    been updated) is answered 500 and every write is undone. *)
Lemma respond_fault_rolls_back :
  run (fault_at 4) wall_clock (respond bob 1 "accepted") (idle site_pending 0)
  = (inr (Json 500 (error_body io_error)), idle site_pending 6).
Proof. vm_compute. reflexivity. Qed.

(** The same for an order whose stock update fails after the insert. *)
Lemma order_fault_rolls_back :
  run (fault_at 4) wall_clock (order_material bob 1 1 8) (idle site1 0)
  = (inr (Json 500 (error_body io_error)), idle site1 6).
Proof. vm_compute. reflexivity. Qed.

Lemma order_stock_never_negative_witness :
  stock_nonneg
    (data (serve no_fault wall_clock
             [OrderMaterial bob 1 1 8; OrderMaterial bob 1 1 8; OrderMaterial bob 1 1 (-3)]
             (idle site1 0))).
Proof.
  apply (order_stock_never_negative no_fault wall_clock
           [OrderMaterial bob 1 1 8; OrderMaterial bob 1 1 8; OrderMaterial bob 1 1 (-3)]
           site1 0).
  - reflexivity.
  - apply (bool_decide_unpack _). vm_compute. exact I.
Defined.

Lemma respond_resolves_once_witness :
  exists n2,
    run no_fault wall_clock (respond bob 1 "rejected")
      (snd (run no_fault wall_clock (respond bob 1 "accepted") (idle site_pending 0)))
    = (inr (Json 400 (error_body "Request already responded to")),
       idle (data (snd (run no_fault wall_clock (respond bob 1 "accepted")
                          (idle site_pending 0)))) n2).
Proof.
  destruct (respond_resolves_once no_fault wall_clock bob 1 "accepted" "rejected"
              site_pending 0
              (Json 200 (message_body "Request accepted successfully"))
              (snd (run no_fault wall_clock (respond bob 1 "accepted")
                      (idle site_pending 0))))
    as [(resp2 & n2 & r & st & Hrun & _ & Hconflict & _) _].
  - left. reflexivity.
  - vm_compute. reflexivity.
  - reflexivity.
  - exists n2. rewrite Hrun. rewrite Hconflict; [reflexivity|]. intros k. reflexivity.
Defined.

Lemma request_worker_pending_guard_witness :
  exists i d' n',
    run no_fault wall_clock (request_worker alice 1 3 "join us") (idle site0 0)
    = (inr (Json 201 (created_body "Worker request sent successfully" i)), idle d' n')
    /\ worker_requests d' !! i = Some (RequestRow 1 3 2 pending "join us" None).
Proof.
  destruct (request_worker_pending_guard no_fault wall_clock alice 1 3 "join us" site0 0)
    as (_ & Hsent & _).
  - intros k. reflexivity.
  - destruct (Hsent (ProjectRow 2 None planning)
                (UserRow "bob" "bob@example.com" worker (Some "civil_engineer") true))
      as (i & d' & n' & Hrun & _ & Hrows).
    + reflexivity.
    + reflexivity.
    + vm_compute. reflexivity.
    + vm_compute. reflexivity.
    + exists i, d', n'. split; [exact Hrun|]. rewrite Hrows. apply lookup_insert_eq.
Defined.

(** C6 fails on the code: an admin who neither owns the project, nor is
    its civil engineer, nor is assigned to it, is answered with the rows. *)
Lemma admin_reads_unrelated_project :
  projects site1 !! 1 = Some (ProjectRow 2 (Some 3) in_progress)
  /\ id root_ <> 2
  /\ Some 3 <> Some (id root_)
  /\ assigned_to root_ 1 site1 = None
  /\ fst (run no_fault wall_clock (get_project_materials root_ 1) (idle site1 0))
     = inr (Json 200 (material_rows []))
  /\ fst (run no_fault wall_clock (get_project_workers root_ 1) (idle site1 0))
     = inr (Json 200 (worker_rows
              [(1, AssignmentRow 1 3 3 (Some "civil_engineer"), "bob",
                "bob@example.com", Some "civil_engineer")])).
Proof. repeat split; try discriminate; vm_compute; reflexivity. Qed.

Lemma read_guard_witness :
  fst (run no_fault wall_clock (get_project_milestones dan 1) (idle site1 0))
  = inr (Json 403 (error_body "Not authorized")).
Proof.
  destruct (read_guard no_fault wall_clock dan 1 (ProjectRow 2 (Some 3) in_progress)
              site1 0) as [Hdeny _].
  - intros k. reflexivity.
  - vm_compute. reflexivity.
  - specialize (Hdeny ltac:(discriminate) ltac:(discriminate) ltac:(discriminate)
                        ltac:(vm_compute; reflexivity)).
    exact (f_equal (fun t => snd (fst t)) Hdeny).
Defined.



(** C8 fails on the code: with requests to bob and to carl pending for the
    same project, bob's acceptance makes him its civil engineer and carl's
    acceptance then replaces him. *)
Lemma second_acceptance_replaces_engineer :
  civil_engineer_id
    <$> projects (data (serve no_fault wall_clock
                          [RequestWorker alice 1 3 "join us";
                           RequestWorker alice 1 4 "join us";
                           Respond bob 1 "accepted"]
                          (idle site0 0))) !! 1
  = Some (Some 3)
  /\ civil_engineer_id
       <$> projects (data (serve no_fault wall_clock
                             [RequestWorker alice 1 3 "join us";
                              RequestWorker alice 1 4 "join us";
                              Respond bob 1 "accepted";
                              Respond carl 2 "accepted"]
                             (idle site0 0))) !! 1
     = Some (Some 4).
Proof. split; vm_compute; reflexivity. Qed.

Lemma engineer_set_by_each_acceptance_witness :
  exists resp d' n',
    run no_fault wall_clock (handler (Respond bob 2 "accepted")) (idle site_busy 0)
    = (inr resp, idle d' n')
    /\ projects d' !! 2 = Some (ProjectRow 2 (Some 3) in_progress).
Proof.
  destruct (engineer_set_by_each_acceptance no_fault wall_clock
              (Respond bob 2 "accepted") site_busy 0)
    as (resp & d' & n' & Hrun & _ & Hset).
  exists resp, d', n'. split; [exact Hrun|].
  apply (Hset no_fault_reliable bob 2 (RequestRow 2 3 2 pending "second site" None)
              (ProjectRow 2 None planning)).
  - reflexivity.
  - reflexivity.
  - vm_compute. reflexivity.
  - reflexivity.
  - vm_compute. reflexivity.
Defined.

(** C9 fails on the code: an order of -5 units is accepted, the row is
    created with that quantity and a negative cost, and the stock grows. *)
Lemma order_of_negative_quantity_accepted :
  fst (run no_fault wall_clock (order_material bob 1 1 (-5)) (idle site1 0))
  = inr (Json 200 (ordered_body "Material ordered successfully" (-2250)))
  /\ project_materials
       (data (snd (run no_fault wall_clock (order_material bob 1 1 (-5)) (idle site1 0))))
     !! 1
     = Some (OrderRow 1 1 (-5) (-2250) 3)
  /\ stock_quantity
       <$> materials
             (data (snd (run no_fault wall_clock (order_material bob 1 1 (-5))
                           (idle site1 0)))) !! 1
     = Some 15.
Proof. repeat split; vm_compute; reflexivity. Qed.

Lemma order_row_quantity_witness :
  exists resp d' n',
    run no_fault wall_clock (order_material bob 1 1 0) (idle site1 0)
    = (inr resp, idle d' n')
    /\ http_status resp = 200.
Proof.
  destruct (order_row_quantity no_fault wall_clock bob 1 1 0 site1 0)
    as (resp & d' & n' & Hrun & _ & Hok).
  exists resp, d', n'. split; [exact Hrun|].
  apply (Hok no_fault_reliable (ProjectRow 2 (Some 3) in_progress) (MaterialRow 450 10)).
  - vm_compute. reflexivity.
  - vm_compute. reflexivity.
  - vm_compute. discriminate.
Defined.

Lemma accept_ignores_availability_witness :
  is_available <$> users site_busy !! 3 = Some false
  /\ exists d' n',
       run no_fault wall_clock (respond bob 2 "accepted") (idle site_busy 0)
       = (inr (Json 200 (message_body "Request accepted successfully")), idle d' n')
       /\ projects d' !! 2 = Some (ProjectRow 2 (Some 3) in_progress).
Proof.
  split; [vm_compute; reflexivity|].
  destruct (accept_ignores_availability no_fault wall_clock bob 2
              (RequestRow 2 3 2 pending "second site" None)
              (ProjectRow 2 None planning)
              (UserRow "bob" "bob@example.com" worker (Some "civil_engineer") false)
              site_busy 0)
    as (d' & n' & Hrun & Hproj & _).
  - intros k. reflexivity.
  - reflexivity.
  - vm_compute. reflexivity.
  - reflexivity.
  - vm_compute. reflexivity.
  - vm_compute. reflexivity.
  - reflexivity.
  - exists d', n'. split; [exact Hrun|exact Hproj].
Defined.

(** ** The other routes: running them *)

Lemma filter_length_zero {A} (f : A -> bool) (l : list A) :
  Z.of_nat (length (List.filter f l)) = 0 <-> forall x, In x l -> f x = false.
Proof.
  split.
  - intros H x Hin. destruct (f x) eqn:E; [|done].
    assert (Hx : In x (List.filter f l)) by (apply filter_In; done).
    destruct (List.filter f l); [done|]. cbn in H. lia.
  - intros H. destruct (List.filter f l) as [|x l'] eqn:E; [done|].
    assert (Hx : In x (List.filter f l)) by (rewrite E; by left).
    apply filter_In in Hx as [Hin Hf]. rewrite (H _ Hin) in Hf. done.
Qed.

Lemma projects_created_zero uid d :
  projects_created uid d = 0
  <-> forall pid p, projects d !! pid = Some p -> created_by p <> uid.
Proof.
  unfold projects_created. rewrite filter_length_zero. split.
  - intros H pid p Hp Hc. specialize (H (pid, p)). cbn in H.
    rewrite bool_decide_eq_true_2 in H by done.
    assert (true = false); [|done]. apply H.
    apply list_elem_of_In. by apply elem_of_map_to_list.
  - intros H [pid p] Hin. apply list_elem_of_In, elem_of_map_to_list in Hin.
    cbn. apply bool_decide_eq_false_2. by apply (H pid).
Qed.

Lemma requests_involving_zero uid d :
  requests_involving uid d = 0
  <-> forall rid r, worker_requests d !! rid = Some r ->
                    wr_worker_id r <> uid /\ wr_requested_by r <> uid.
Proof.
  unfold requests_involving. rewrite filter_length_zero. split.
  - intros H rid r Hr. specialize (H (rid, r)). cbn in H.
    assert (Hin : In (rid, r) (map_to_list (worker_requests d))).
    { apply list_elem_of_In. by apply elem_of_map_to_list. }
    apply H in Hin. apply orb_false_elim in Hin as [H1 H2].
    split; [by apply bool_decide_eq_false in H1|by apply bool_decide_eq_false in H2].
  - intros H [rid r] Hin. apply list_elem_of_In, elem_of_map_to_list in Hin.
    destruct (H _ _ Hin) as [H1 H2]. cbn.
    by rewrite !bool_decide_eq_false_2.
Qed.

Lemma listed_users_spec d k row :
  In (k, row) (listed_users d) <-> users d !! k = Some row /\ u_user_type row <> admin.
Proof.
  unfold listed_users. rewrite filter_In, <- list_elem_of_In, elem_of_map_to_list. cbn.
  rewrite negb_true_iff, bool_decide_eq_false. done.
Qed.

Lemma listed_projects_spec f d pid p cn en :
  (pid, p, cn, en) ∈ listed_projects f d
  <-> projects d !! pid = Some p /\ passes_filter f d pid p = true
      /\ cn = name_of d (created_by p)
      /\ en = match civil_engineer_id p with Some ce => name_of d ce | None => None end.
Proof.
  unfold listed_projects. rewrite list_elem_of_omap. split.
  - intros ([k q] & Hin & Hrow). apply elem_of_map_to_list in Hin. cbn in Hrow.
    destruct (passes_filter f d k q) eqn:E; [|done].
    injection Hrow as <- <- <- <-. done.
  - intros (Hp & Hf & -> & ->). exists (pid, p). split.
    + by apply elem_of_map_to_list.
    + cbn. by rewrite Hf.
Qed.

Lemma listed_engineers_spec d k nm em :
  (k, nm, em) ∈ listed_engineers d
  <-> exists row, users d !! k = Some row /\ is_available_engineer row = true
                  /\ nm = username row /\ em = email row.
Proof.
  unfold listed_engineers. rewrite list_elem_of_omap. split.
  - intros ([k' row] & Hin & Hrow). apply elem_of_map_to_list in Hin. cbn in Hrow.
    destruct (is_available_engineer row) eqn:E; [|done].
    injection Hrow as <- <- <-. by exists row.
  - intros (row & Hrow & Hav & -> & ->). exists (k, row). split.
    + by apply elem_of_map_to_list.
    + cbn. by rewrite Hav.
Qed.


Lemma listed_requests_spec wid d k r nm :
  (k, r, nm) ∈ listed_requests wid d
  <-> worker_requests d !! k = Some r /\ wr_worker_id r = wid
      /\ is_Some (projects d !! wr_project_id r)
      /\ exists row, users d !! wr_requested_by r = Some row /\ nm = username row.
Proof.
  unfold listed_requests. rewrite list_elem_of_omap. split.
  - intros ([k' r'] & Hin & Hrow). apply elem_of_map_to_list in Hin. cbn in Hrow.
    destruct (decide (wr_worker_id r' = wid)) as [Hw|Hw].
    + rewrite bool_decide_eq_true_2 in Hrow by done.
      destruct (projects d !! wr_project_id r') eqn:Hp; [|done].
      destruct (users d !! wr_requested_by r') as [row|] eqn:Hu; [|done].
      injection Hrow as <- <- <-. rewrite Hp. eauto 10.
    + by rewrite bool_decide_eq_false_2 in Hrow.
  - intros (Hr & Hw & [p Hp] & row & Hu & ->). exists (k, r). split.
    + by apply elem_of_map_to_list.
    + cbn. rewrite bool_decide_eq_true_2 by done. by rewrite Hp, Hu.
Qed.

Lemma sent_requests_spec uid d k r :
  In (k, r) (sent_requests uid d)
  <-> worker_requests d !! k = Some r /\ wr_requested_by r = uid.
Proof.
  unfold sent_requests. rewrite filter_In, <- list_elem_of_In, elem_of_map_to_list. cbn.
  by rewrite bool_decide_eq_true.
Qed.

Lemma joined_workers_spec d pid k a nm em sub :
  (k, a, nm, em, sub) ∈ joined_workers d pid
  <-> project_workers d !! k = Some a /\ pw_project_id a = pid
      /\ exists row, users d !! pw_worker_id a = Some row /\ nm = username row
                     /\ em = email row /\ sub = u_sub_user_type row.
Proof.
  unfold joined_workers. rewrite list_elem_of_omap. split.
  - intros ([k' a'] & Hin & Hrow). apply elem_of_map_to_list in Hin. cbn in Hrow.
    destruct (decide (pw_project_id a' = pid)) as [Hp|Hp].
    + rewrite bool_decide_eq_true_2 in Hrow by done.
      destruct (users d !! pw_worker_id a') as [row|] eqn:Hu; [|done].
      injection Hrow as <- <- <- <- <-. eauto 10.
    + by rewrite bool_decide_eq_false_2 in Hrow.
  - intros (Ha & Hp & row & Hu & -> & -> & ->). exists (k, a). split.
    + by apply elem_of_map_to_list.
    + cbn. rewrite bool_decide_eq_true_2 by done. by rewrite Hu.
Qed.

Lemma joined_materials_spec d pid k o price nm :
  (k, o, price, nm) ∈ joined_materials d pid
  <-> project_materials d !! k = Some o /\ pm_project_id o = pid
      /\ (exists m, materials d !! pm_material_id o = Some m /\ price = price_per_unit m)
      /\ exists row, users d !! pm_ordered_by o = Some row /\ nm = username row.
Proof.
  unfold joined_materials. rewrite list_elem_of_omap. split.
  - intros ([k' o'] & Hin & Hrow). apply elem_of_map_to_list in Hin. cbn in Hrow.
    destruct (decide (pm_project_id o' = pid)) as [Hp|Hp].
    + rewrite bool_decide_eq_true_2 in Hrow by done.
      destruct (materials d !! pm_material_id o') as [m|] eqn:Hm; [|done].
      destruct (users d !! pm_ordered_by o') as [row|] eqn:Hu; [|done].
      injection Hrow as <- <- <- <-. eauto 10.
    + by rewrite bool_decide_eq_false_2 in Hrow.
  - intros (Ho & Hp & (m & Hm & ->) & row & Hu & ->). exists (k, o). split.
    + by apply elem_of_map_to_list.
    + cbn. rewrite bool_decide_eq_true_2 by done. by rewrite Hm, Hu.
Qed.

Lemma joined_milestones_spec d pid k ms nm :
  (k, ms, nm) ∈ joined_milestones d pid
  <-> project_milestones d !! k = Some ms /\ ms_project_id ms = pid
      /\ exists row, users d !! ms_created_by ms = Some row /\ nm = username row.
Proof.
  unfold joined_milestones. rewrite list_elem_of_omap. split.
  - intros ([k' ms'] & Hin & Hrow). apply elem_of_map_to_list in Hin. cbn in Hrow.
    destruct (decide (ms_project_id ms' = pid)) as [Hp|Hp].
    + rewrite bool_decide_eq_true_2 in Hrow by done.
      destruct (users d !! ms_created_by ms') as [row|] eqn:Hu; [|done].
      injection Hrow as <- <- <-. eauto 10.
    + by rewrite bool_decide_eq_false_2 in Hrow.
  - intros (Hms & Hp & row & Hu & ->). exists (k, ms). split.
    + by apply elem_of_map_to_list.
    + cbn. rewrite bool_decide_eq_true_2 by done. by rewrite Hu.
Qed.

(** *** Route parameters as text *)

(** A decimal digit is no space and no sign, and reads as itself. *)
Lemma decimal_digit c :
  ((48 <=? nat_of_ascii c)%nat && (nat_of_ascii c <=? 57)%nat) = true ->
  is_space c = false
  /\ (forall s, sign (String c s) = (false, String c s))
  /\ ((c =? "x")%char || (c =? "X")%char) = false
  /\ exists v, digit_in 10 c = Some v.
Proof.
  destruct c as [[] [] [] [] [] [] [] []]; vm_compute; intros H; try discriminate H;
    (split; [reflexivity|]; split; [reflexivity|]; split; [reflexivity|]; eexists;
     reflexivity).
Qed.

Lemma digits_decimal s :
  decimal s = true ->
  forall acc count, exists v, digits 10 s acc count = (v, (count + String.length s)%nat, "").
Proof.
  induction s as [|c s IH]; [discriminate|]. cbn [decimal].
  intros [Hc Hs]%andb_prop acc count.
  destruct (decimal_digit c Hc) as (_ & _ & _ & v & Hv).
  cbn [digits String.length]. rewrite Hv. destruct s as [|c' s'].
  - cbn. exists (10 * acc + v). f_equal. f_equal. lia.
  - destruct (IH Hs (10 * acc + v) (S count)) as (w & ->). exists w.
    f_equal. f_equal. cbn [String.length]. lia.
Qed.

(** A text in plain decimal digits reads as the same integer to parseInt
    and to the store. *)
Lemma decimal_readings s :
  decimal s = true ->
  exists uid, parse_int s = Some uid /\ integer_of_text s = Some uid.
Proof.
  intros Hs. destruct (digits_decimal s Hs 0 0%nat) as (v & Hv).
  destruct s as [|c s']; [discriminate|].
  pose proof Hs as [Hc Hs']%andb_prop.
  destruct (decimal_digit c Hc) as (Hsp & Hsign & _ & _).
  exists v. split.
  - unfold parse_int. cbn [skip_spaces]. rewrite Hsp, Hsign.
    assert (Hbase : match String c s' with
                    | String "0" (String c0 t) =>
                        if (c0 =? "x")%char || (c0 =? "X")%char
                        then (16, t) else (10, String c s')
                    | _ => (10, String c s')
                    end = (10, String c s')).
    { destruct s' as [|c0 t]; [by destruct c as [[] [] [] [] [] [] [] []]|].
      cbn [decimal] in Hs'. apply andb_prop in Hs' as [Hc0 _].
      destruct (decimal_digit c0 Hc0) as (_ & _ & -> & _).
      by destruct c as [[] [] [] [] [] [] [] []]. }
    rewrite Hbase, Hv. cbn [String.length]. done.
  - unfold integer_of_text, numeric_literal, scan_decimal.
    cbn [skip_spaces]. rewrite Hsp, Hsign, Hv. change (- Z.of_nat 0) with 0. unfold scaled. cbn. by rewrite Z.mul_1_r.
Qed.

Section Routes.
Variable fault : nat -> bool.
Variable clock : nat -> Z.

Ltac tx1 :=
  cbn [run_task task_catch task_bind get_core get_x all_x run_x wait exec_opx exec_op
       exec_sql exec_sqlx fst snd data saved ticks answer server_error idle negb andb orb].

Ltac tx_fault :=
  match goal with
  | |- context [fault ?n] => let F := fresh "F" in destruct (fault n) eqn:F
  end.

Ltac unreliable :=
  match goal with
  | F : fault _ = true |- _ =>
      let H := fresh in intros H; rewrite H in F; discriminate F
  end.

(** A route made of one listing statement. *)
Lemma listing_run {X} (s : sqlx (list X)) (wrap : list X -> document) rows d n :
  exec_sqlx s d = inr (rows, d) ->
  run_task fault clock
    (task_catch (let+ xs := all_x s in answer 200 (wrap xs)) server_error) (idle d n)
  = (inr (if fault n then Reply 500 (error_doc io_error) else Reply 200 (wrap rows)),
     idle d (S n)).
Proof. intros Hs. tx1. destruct (fault n); [done|]. rewrite Hs. done. Qed.

Lemma get_users_run u d n :
  run_task fault clock (get_users u) (idle d n)
  = (inr (if fault n then Reply 500 (error_doc io_error)
          else Reply 200 (users_doc (listed_users d))), idle d (S n)).
Proof. by apply listing_run. Qed.

Lemma get_materials_run u d n :
  run_task fault clock (get_materials u) (idle d n)
  = (inr (if fault n then Reply 500 (error_doc io_error)
          else Reply 200 (materials_doc (map_to_list (materials d)))), idle d (S n)).
Proof. by apply listing_run. Qed.

Lemma get_projects_run u d n :
  run_task fault clock (get_projects u) (idle d n)
  = (inr (if fault n then Reply 500 (error_doc io_error)
          else Reply 200 (projects_doc (listed_projects (filter_of u) d))), idle d (S n)).
Proof. by apply listing_run. Qed.

Lemma get_available_engineers_run u d n :
  run_task fault clock (get_available_engineers u) (idle d n)
  = (inr (if fault n then Reply 500 (error_doc io_error)
          else Reply 200 (engineers_doc (listed_engineers d))), idle d (S n)).
Proof. by apply listing_run. Qed.

Lemma get_sent_requests_run u d n :
  run_task fault clock (get_sent_requests u) (idle d n)
  = (inr (if fault n then Reply 500 (error_doc io_error)
          else Reply 200 (sent_requests_doc (sent_requests (id u) d))), idle d (S n)).
Proof. by apply listing_run. Qed.

Lemma get_requests_run u d n :
  run_task fault clock (get_requests u) (idle d n)
  = if bool_decide (user_type u = worker) then
      (inr (if fault n then Reply 500 (error_doc io_error)
            else Reply 200 (requests_doc (listed_requests (id u) d))), idle d (S n))
    else (inr (Reply 403 (error_doc "Only workers can view requests")), idle d n).
Proof.
  unfold get_requests. destruct (bool_decide (user_type u = worker)); [|done].
  by apply listing_run.
Qed.

Lemma get_available_workers_run u d n :
  run_task fault clock (get_available_workers u) (idle d n)
  = if bool_decide (user_type u = worker)
       && bool_decide (sub_user_type u = Some "civil_engineer") then
      (inr (if fault n then Reply 500 (error_doc io_error)
            else Reply 200 (workers_doc (listed_workers (id u) d))), idle d (S n))
    else (inr (Reply 403 (error_doc "Only civil engineers can view available workers")),
          idle d n).
Proof.
  unfold get_available_workers. destruct (bool_decide (user_type u = worker)); [|done].
  destruct (bool_decide (sub_user_type u = Some "civil_engineer")); [|done].
  by apply listing_run.
Qed.

Lemma get_user_run u uid d n :
  run_task fault clock (get_user u uid) (idle d n)
  = if bool_decide (user_type u = admin) then
      (inr (if fault n then Reply 500 (error_doc io_error)
            else match users d !! uid with
                 | Some row => Reply 200 (user_doc row)
                 | None => Reply 404 (error_doc "User not found")
                 end), idle d (S n))
    else (inr (Reply 403 (error_doc "Access denied")), idle d n).
Proof.
  unfold get_user. destruct (bool_decide (user_type u = admin)); [|done].
  tx1. destruct (fault n); [done|]. tx1. by destruct (users d !! uid).
Qed.

(** The outcomes of DELETE /users/:id. *)
Lemma delete_user_run u uid d n :
  exists resp d' n',
    run_task fault clock (delete_user_account u uid) (idle d n) = (inr resp, idle d' n')
    /\ (reply_status resp <> 200 /\ d' = d
        /\ (reliable fault -> user_type u = admin -> uid <> id u ->
            is_Some (users d !! uid) -> projects_created uid d = 0 ->
            requests_involving uid d = 0 -> False)
        \/ resp = Reply 200 (message_doc "User deleted successfully")
           /\ user_type u = admin /\ uid <> id u /\ is_Some (users d !! uid)
           /\ projects_created uid d = 0 /\ requests_involving uid d = 0
           /\ d' = with_users d (delete uid (users d))).
Proof.
  unfold delete_user_account.
  destruct (decide (user_type u = admin)) as [Hu|Hu].
  2:{ rewrite (bool_decide_eq_false_2 _ Hu). tx1. do 3 eexists. split; [reflexivity|].
      left. split; [done|]. split; [done|]. intros _ ?. done. }
  rewrite (bool_decide_eq_true_2 _ Hu). cbn [negb].
  destruct (decide (uid = id u)) as [Hself|Hself].
  { rewrite (bool_decide_eq_true_2 _ Hself). tx1. do 3 eexists. split; [reflexivity|].
    left. split; [done|]. split; [done|]. intros _ _ ?. done. }
  rewrite (bool_decide_eq_false_2 _ Hself). tx1.
  tx_fault.
  { tx1. do 3 eexists. split; [reflexivity|]. left. split; [done|]. split; [done|].
    unreliable. }
  tx1. destruct (users d !! uid) as [row|] eqn:Hrow.
  2:{ tx1. do 3 eexists. split; [reflexivity|]. left. split; [done|]. split; [done|].
      intros _ _ _ [? ?]. done. }
  tx1. tx_fault.
  { tx1. do 3 eexists. split; [reflexivity|]. left. split; [done|]. split; [done|].
    unreliable. }
  tx1. destruct (Z.ltb_spec 0 (projects_created uid d)) as [Hpc|Hpc].
  { tx1. do 3 eexists. split; [reflexivity|]. left. split; [done|]. split; [done|].
    intros _ _ _ _ ?. lia. }
  tx1. tx_fault.
  { tx1. do 3 eexists. split; [reflexivity|]. left. split; [done|]. split; [done|].
    unreliable. }
  tx1. destruct (Z.ltb_spec 0 (requests_involving uid d)) as [Hrc|Hrc].
  { tx1. do 3 eexists. split; [reflexivity|]. left. split; [done|]. split; [done|].
    intros _ _ _ _ _ ?. lia. }
  tx1. tx_fault.
  { tx1. do 3 eexists. split; [reflexivity|]. left. split; [done|]. split; [done|].
    unreliable. }
  tx1. do 3 eexists. split; [reflexivity|]. right.
  split; [done|]. split; [done|]. split; [done|]. split; [eauto|].
  split; [unfold projects_created in *; lia|].
  split; [unfold requests_involving in *; lia|]. done.
Qed.

(** The outcomes of DELETE /users/:id on the route parameter as it
    comes: parseInt's reading decides the test on the caller's own
    account, the store's reading decides the row. *)
Lemma delete_user_text_run u s d n :
  exists resp d' n',
    run_task fault clock (delete_user_text u s) (idle d n) = (inr resp, idle d' n')
    /\ (reply_status resp <> 200 /\ d' = d
        /\ (reliable fault -> user_type u = admin -> parse_int s <> Some (id u) ->
            forall uid, integer_of_text s = Some uid ->
            is_Some (users d !! uid) -> projects_created uid d = 0 ->
            requests_involving uid d = 0 -> False)
        \/ resp = Reply 200 (message_doc "User deleted successfully")
           /\ user_type u = admin /\ parse_int s <> Some (id u)
           /\ exists uid,
               integer_of_text s = Some uid /\ is_Some (users d !! uid)
               /\ projects_created uid d = 0 /\ requests_involving uid d = 0
               /\ d' = with_users d (delete uid (users d))).
Proof.
  unfold delete_user_text.
  destruct (decide (user_type u = admin)) as [Hu|Hu].
  2:{ rewrite (bool_decide_eq_false_2 _ Hu). tx1. do 3 eexists. split; [reflexivity|].
      left. split; [done|]. split; [done|]. intros _ ?. done. }
  rewrite (bool_decide_eq_true_2 _ Hu). cbn [negb].
  destruct (decide (parse_int s = Some (id u))) as [Hself|Hself].
  { rewrite (bool_decide_eq_true_2 _ Hself). tx1. do 3 eexists. split; [reflexivity|].
    left. split; [done|]. split; [done|]. intros _ _ ?. done. }
  rewrite (bool_decide_eq_false_2 _ Hself). tx1.
  tx_fault.
  { tx1. do 3 eexists. split; [reflexivity|]. left. split; [done|]. split; [done|].
    unreliable. }
  tx1. destruct (integer_of_text s) as [uid|] eqn:Hkey.
  2:{ tx1. do 3 eexists. split; [reflexivity|]. left. split; [done|]. split; [done|].
      intros _ _ _ ? ?. done. }
  destruct (users d !! uid) as [row|] eqn:Hrow.
  2:{ tx1. do 3 eexists. split; [reflexivity|]. left. split; [done|]. split; [done|].
      intros _ _ _ ? [= <-] [? ?]. congruence. }
  tx1. tx_fault.
  { tx1. do 3 eexists. split; [reflexivity|]. left. split; [done|]. split; [done|].
    unreliable. }
  tx1. destruct (Z.ltb_spec 0 (projects_created uid d)) as [Hpc|Hpc].
  { tx1. do 3 eexists. split; [reflexivity|]. left. split; [done|]. split; [done|].
    intros _ _ _ ? [= <-] _ ?. lia. }
  tx1. tx_fault.
  { tx1. do 3 eexists. split; [reflexivity|]. left. split; [done|]. split; [done|].
    unreliable. }
  tx1. destruct (Z.ltb_spec 0 (requests_involving uid d)) as [Hrc|Hrc].
  { tx1. do 3 eexists. split; [reflexivity|]. left. split; [done|]. split; [done|].
    intros _ _ _ ? [= <-] _ _ ?. lia. }
  tx1. tx_fault.
  { tx1. do 3 eexists. split; [reflexivity|]. left. split; [done|]. split; [done|].
    unreliable. }
  tx1. do 3 eexists. split; [reflexivity|]. right.
  split; [done|]. split; [done|]. split; [done|]. exists uid.
  split; [done|]. split; [eauto|].
  split; [unfold projects_created in *; lia|].
  split; [unfold requests_involving in *; lia|]. done.
Qed.

(** When both readings of the parameter give the same integer, the route
    on the text does what [delete_user_account] does at that integer. *)
Lemma delete_user_text_agrees u s uid c :
  parse_int s = Some uid ->
  integer_of_text s = Some uid ->
  run_task fault clock (delete_user_text u s) c
  = run_task fault clock (delete_user_account u uid) c.
Proof.
  intros Hp Hk. unfold delete_user_text, delete_user_account. rewrite Hp, Hk.
  destruct (bool_decide (user_type u = admin)); [|done]. cbn [negb].
  destruct (decide (uid = id u)) as [->|Hne].
  { by rewrite !bool_decide_eq_true_2. }
  rewrite !bool_decide_eq_false_2 by congruence.
  destruct c as [d sv n]. tx1. destruct (fault n); [done|].
  tx1. destruct (users d !! uid); [|done].
  tx1. destruct (fault (S n)); [done|].
  tx1. destruct (0 <? projects_created uid d)%Z; [done|].
  tx1. destruct (fault (S (S n))); [done|].
  tx1. destruct (0 <? requests_involving uid d)%Z; [done|].
  tx1. by destruct (fault (S (S (S n)))).
Qed.

(** The outcomes of PUT /materials/:id. The UPDATE is not in a
    transaction: when the SELECT after it fails, the answer is 500 and the
    update stays. *)
Lemma put_material_run u mid name unit_ price stock d n :
  exists resp d' n',
    run_task fault clock (put_material u mid name unit_ price stock) (idle d n)
    = (inr resp, idle d' n')
    /\ (d' = d
        /\ (reply_status resp = 200 ->
            resp = Reply 200 (material_doc None) /\ materials d !! mid = None)
        \/ is_Some (materials d !! mid) /\ is_Some name /\ is_Some unit_
           /\ d' = with_materials d (<[mid := MaterialRow price stock]> (materials d))
           /\ (resp = Reply 200 (material_doc (Some (MaterialRow price stock)))
               \/ resp = Reply 500 (error_doc io_error)))
    /\ (reply_status resp <> 403 -> user_type u = admin)
    /\ (user_type u <> admin -> resp = Reply 403 (error_doc "Only admins can update materials"))
    /\ (reliable fault -> user_type u = admin -> is_Some name -> is_Some unit_ ->
        reply_status resp = 200).
Proof.
  unfold put_material.
  destruct (decide (user_type u = admin)) as [Hu|Hu].
  2:{ rewrite (bool_decide_eq_false_2 _ Hu). tx1. do 3 eexists. split; [reflexivity|].
      split; [left; done|]. done. }
  rewrite (bool_decide_eq_true_2 _ Hu). cbn [negb]. tx1.
  tx_fault.
  { tx1. do 3 eexists. split; [reflexivity|]. split; [left; done|].
    split; [done|]. split; [done|]. unreliable. }
  destruct (materials d !! mid) as [m|] eqn:Hm.
  - destruct name as [nm|].
    2:{ tx1. do 3 eexists. split; [reflexivity|]. split; [left; done|].
        split; [done|]. split; [done|]. intros _ _ [? ?]. done. }
    destruct unit_ as [un|].
    2:{ tx1. do 3 eexists. split; [reflexivity|]. split; [left; done|].
        split; [done|]. split; [done|]. intros _ _ _ [? ?]. done. }
    tx1. tx_fault.
    { tx1. do 3 eexists. split; [reflexivity|].
      split; [right; eauto 10|].
      split; [done|]. split; [done|]. unreliable. }
    tx1. cbn [materials with_materials]. rewrite lookup_insert_eq. do 3 eexists. split; [reflexivity|].
    split; [right; eauto 10|]. done.
  - tx1. tx_fault.
    { tx1. do 3 eexists. split; [reflexivity|]. split; [left; done|].
      split; [done|]. split; [done|]. unreliable. }
    tx1. rewrite Hm. do 3 eexists. split; [reflexivity|]. split; [left; done|]. done.
Qed.

(** The outcomes of DELETE /materials/:id; the id need not exist. *)
Lemma delete_material_run u mid d n :
  run_task fault clock (delete_material_route u mid) (idle d n)
  = if bool_decide (user_type u = admin) then
      if fault n then (inr (Reply 500 (error_doc io_error)), idle d (S n))
      else (inr (Reply 200 (message_doc "Material deleted successfully")),
            idle (with_materials d (delete mid (materials d))) (S n))
    else (inr (Reply 403 (error_doc "Only admins can delete materials")), idle d n).
Proof.
  unfold delete_material_route. destruct (bool_decide (user_type u = admin)); [|done].
  tx1. by destruct (fault n).
Qed.

Lemma may_manage_test u p :
  negb (bool_decide (user_type u = admin)) && negb (bool_decide (created_by p = id u))
  = negb (bool_decide (may_manage u p)).
Proof.
  unfold may_manage. repeat case_bool_decide; cbn; try done; exfalso; tauto.
Qed.

(** The outcomes of PUT /projects/:id. *)
Lemma put_project_run u pid name status d n :
  exists resp d' n',
    run_task fault clock (put_project u pid name status) (idle d n)
    = (inr resp, idle d' n')
    /\ (d' = d /\ reply_status resp <> 200
        \/ exists p st,
             projects d !! pid = Some p /\ may_manage u p /\ is_Some name
             /\ project_status_of_string status = Some st
             /\ d' = with_projects d (alter (set_project_status st) pid (projects d))
             /\ (resp = Reply 200 (project_doc (set_project_status st p))
                 \/ resp = Reply 500 (error_doc io_error)))
    /\ (reliable fault ->
        forall p st,
          projects d !! pid = Some p -> may_manage u p -> is_Some name ->
          project_status_of_string status = Some st ->
          resp = Reply 200 (project_doc (set_project_status st p))).
Proof.
  unfold put_project. tx1. tx_fault.
  { tx1. do 3 eexists. split; [reflexivity|]. split; [left; done|]. unreliable. }
  tx1. destruct (projects d !! pid) as [p|] eqn:Hp.
  2:{ tx1. do 3 eexists. split; [reflexivity|]. split; [left; done|]. done. }
  rewrite may_manage_test. destruct (decide (may_manage u p)) as [Hm|Hm].
  2:{ rewrite (bool_decide_eq_false_2 _ Hm). tx1. do 3 eexists. split; [reflexivity|].
      split; [left; done|]. intros _ p0 st [= <-]. done. }
  rewrite (bool_decide_eq_true_2 _ Hm). tx1. tx_fault.
  { tx1. do 3 eexists. split; [reflexivity|]. split; [left; done|]. unreliable. }
  rewrite Hp. destruct name as [nm|].
  2:{ tx1. do 3 eexists. split; [reflexivity|]. split; [left; done|].
      intros _ p0 st _ _ [? ?]. done. }
  destruct (project_status_of_string status) as [st|] eqn:Hst.
  2:{ tx1. do 3 eexists. split; [reflexivity|]. split; [left; done|].
      intros _ p0 st _ _ _ ?. done. }
  tx1. tx_fault.
  { tx1. do 3 eexists. split; [reflexivity|].
    split; [right; exists p, st; eauto 10|]. unreliable. }
  tx1. cbn [projects with_projects]. rewrite lookup_alter_eq, Hp.
  cbn [fmap option_fmap option_map]. tx1.
  do 3 eexists. split; [reflexivity|].
  split; [right; exists p, st; eauto 10|].
  intros _ p0 st0 [= <-] _ _ [= <-]. done.
Qed.

(** The outcomes of DELETE /projects/:id. *)
Lemma delete_project_run u pid d n :
  exists resp d' n',
    run_task fault clock (delete_project_route u pid) (idle d n)
    = (inr resp, idle d' n')
    /\ (d' = d /\ reply_status resp <> 200
        \/ exists p,
             projects d !! pid = Some p /\ may_manage u p
             /\ resp = Reply 200 (message_doc "Project deleted successfully")
             /\ d' = with_projects d (delete pid (projects d)))
    /\ (reliable fault ->
        forall p, projects d !! pid = Some p -> may_manage u p -> reply_status resp = 200).
Proof.
  unfold delete_project_route. tx1. tx_fault.
  { tx1. do 3 eexists. split; [reflexivity|]. split; [left; done|]. unreliable. }
  tx1. destruct (projects d !! pid) as [p|] eqn:Hp.
  2:{ tx1. do 3 eexists. split; [reflexivity|]. split; [left; done|]. done. }
  rewrite may_manage_test. destruct (decide (may_manage u p)) as [Hm|Hm].
  2:{ rewrite (bool_decide_eq_false_2 _ Hm). tx1. do 3 eexists. split; [reflexivity|].
      split; [left; done|]. intros _ p0 [= <-]. done. }
  rewrite (bool_decide_eq_true_2 _ Hm). tx1. tx_fault.
  { tx1. do 3 eexists. split; [reflexivity|]. split; [left; done|]. unreliable. }
  tx1. do 3 eexists. split; [reflexivity|]. split; [right; exists p; done|]. done.
Qed.

(** The outcomes of DELETE /milestones/:id. *)
Lemma delete_milestone_run u mid d n :
  exists resp d' n',
    run_task fault clock (delete_milestone_route u mid) (idle d n)
    = (inr resp, idle d' n')
    /\ (d' = d /\ reply_status resp <> 200
        \/ exists ms p,
             is_civil_engineer u /\ project_milestones d !! mid = Some ms
             /\ authorized_engineer u (ms_project_id ms) d = Some p
             /\ resp = Reply 200 (message_doc "Milestone deleted successfully")
             /\ d' = with_project_milestones d (delete mid (project_milestones d)))
    /\ (reliable fault ->
        forall ms p,
          is_civil_engineer u -> project_milestones d !! mid = Some ms ->
          authorized_engineer u (ms_project_id ms) d = Some p ->
          reply_status resp = 200).
Proof.
  unfold delete_milestone_route.
  destruct (decide (user_type u = worker)) as [Hu|Hu].
  2:{ rewrite (bool_decide_eq_false_2 _ Hu). tx1. do 3 eexists. split; [reflexivity|].
      split; [left; done|]. intros _ ms p [? _]. done. }
  rewrite (bool_decide_eq_true_2 _ Hu).
  destruct (decide (sub_user_type u = Some "civil_engineer")) as [Hsub|Hsub].
  2:{ rewrite (bool_decide_eq_false_2 _ Hsub). tx1. do 3 eexists. split; [reflexivity|].
      split; [left; done|]. intros _ ms p [_ ?]. done. }
  rewrite (bool_decide_eq_true_2 _ Hsub). tx1.
  assert (Hce : is_civil_engineer u) by done.
  tx_fault.
  { tx1. do 3 eexists. split; [reflexivity|]. split; [left; done|]. unreliable. }
  tx1. destruct (project_milestones d !! mid) as [ms|] eqn:Hms.
  2:{ tx1. do 3 eexists. split; [reflexivity|]. split; [left; done|]. done. }
  tx1. tx_fault.
  { tx1. do 3 eexists. split; [reflexivity|]. split; [left; done|]. unreliable. }
  tx1. destruct (row_where (is_project_of_engineer (id u)) _) as [p|] eqn:Hp.
  2:{ tx1. do 3 eexists. split; [reflexivity|]. split; [left; done|].
      intros _ ms0 p0 _ [= <-] Hp0. unfold authorized_engineer in Hp0. congruence. }
  tx1. tx_fault.
  { tx1. do 3 eexists. split; [reflexivity|]. split; [left; done|]. unreliable. }
  tx1. do 3 eexists. split; [reflexivity|].
  split; [right; exists ms, p; done|]. done.
Qed.

(** *** What a route leaves behind *)

Lemma after_workflow r c :
  after fault clock (Workflow r) c = snd (run fault clock (handler r) c).
Proof. reflexivity. Qed.

(** Every route, whatever fails, leaves the connection idle, and the
    database either as it was or with one of the writes of [effect]. *)
Lemma after_effect r d n :
  exists d' n', after fault clock r (idle d n) = idle d' n' /\ effect d r d'.
Proof.
  destruct r as [r | u | u uid | u uid | u | u mid name unit_ price stock | u mid | u
                 | u pid name status | u pid | u | u | u | u | u mid];
    unfold after; cbn [route_task].
  - destruct r as [u pid wid msg | u rid status | u pid wid role | u pid mid q
                   | u pid | u pid | u pid]; cbn [handler].
    + destruct (request_worker_run fault clock u pid wid msg d n)
        as (resp & d' & n' & -> & _ & Hres).
      exists d', n'. split; [done|].
      destruct Hres as [(_ & -> & _)|Hout]; [constructor|].
      destruct Hout; first [apply eff_none | by econstructor].
    + destruct (respond_run fault clock u rid status d n)
        as (resp & d' & n' & -> & _ & Hres).
      exists d', n'. split; [done|].
      destruct Hres as [(_ & -> & _)|Hout]; [constructor|].
      destruct Hout; first [apply eff_none | by econstructor].
    + destruct (assign_run fault clock u pid wid role d n)
        as (resp & d' & n' & -> & _ & Hres).
      exists d', n'. split; [done|].
      destruct Hres as [(_ & -> & _)|Hout]; [constructor|].
      destruct Hout; first [apply eff_none | by econstructor].
    + destruct (order_material_run fault clock u pid mid q d n)
        as (resp & d' & n' & -> & _ & Hres).
      exists d', n'. split; [done|].
      destruct Hres as [(_ & -> & _)|Hout]; [constructor|].
      destruct Hout; first [apply eff_none | by econstructor].
    + destruct (read_project_run fault clock select_project_materials material_rows
                  (fun d => joined_materials d pid) u pid d n)
        as (resp & n' & Hrun & _); [done|].
      unfold get_project_materials. rewrite Hrun. exists d, n'. split; [done|constructor].
    + destruct (read_project_run fault clock select_project_milestones milestone_rows
                  (fun d => joined_milestones d pid) u pid d n)
        as (resp & n' & Hrun & _); [done|].
      unfold get_project_milestones. rewrite Hrun. exists d, n'. split; [done|constructor].
    + destruct (read_project_run fault clock select_project_workers worker_rows
                  (fun d => joined_workers d pid) u pid d n)
        as (resp & n' & Hrun & _); [done|].
      unfold get_project_workers. rewrite Hrun. exists d, n'. split; [done|constructor].
  - rewrite get_users_run. exists d, (S n). split; [done|constructor].
  - rewrite get_user_run. destruct (bool_decide _);
      eexists d, _; (split; [reflexivity|constructor]).
  - destruct (delete_user_run u uid d n) as (resp & d' & n' & -> & Hres).
    exists d', n'. split; [done|].
    destruct Hres as [(_ & -> & _)|(_ & Hu & Hself & _ & Hp & Hr & ->)];
      [constructor|by constructor].
  - rewrite get_materials_run. exists d, (S n). split; [done|constructor].
  - destruct (put_material_run u mid name unit_ price stock d n)
      as (resp & d' & n' & -> & Hres & Hadmin & Hdeny & _).
    exists d', n'. split; [done|].
    destruct Hres as [(-> & _)|(Hm & _ & _ & -> & Hresp)]; [constructor|].
    constructor; [|done]. apply Hadmin. by destruct Hresp as [-> | ->].
  - rewrite delete_material_run. destruct (decide (user_type u = admin)) as [Hu|Hu].
    + rewrite (bool_decide_eq_true_2 _ Hu). destruct (fault n).
      * exists d, (S n). split; [done|constructor].
      * eexists _, (S n). split; [reflexivity|by constructor].
    + rewrite (bool_decide_eq_false_2 _ Hu). exists d, n. split; [done|constructor].
  - rewrite get_projects_run. exists d, (S n). split; [done|constructor].
  - destruct (put_project_run u pid name status d n) as (resp & d' & n' & -> & Hres & _).
    exists d', n'. split; [done|].
    destruct Hres as [(-> & _)|(p & st & Hp & Hm & _ & Hst & -> & _)];
      [constructor|by econstructor].
  - destruct (delete_project_run u pid d n) as (resp & d' & n' & -> & Hres & _).
    exists d', n'. split; [done|].
    destruct Hres as [(-> & _)|(p & Hp & Hm & _ & ->)]; [constructor|by econstructor].
  - rewrite get_available_engineers_run. exists d, (S n). split; [done|constructor].
  - rewrite get_requests_run. destruct (bool_decide _);
      eexists d, _; (split; [reflexivity|constructor]).
  - rewrite get_sent_requests_run. exists d, (S n). split; [done|constructor].
  - rewrite get_available_workers_run. destruct (_ && _);
      eexists d, _; (split; [reflexivity|constructor]).
  - destruct (delete_milestone_run u mid d n) as (resp & d' & n' & -> & Hres & _).
    exists d', n'. split; [done|].
    destruct Hres as [(-> & _)|(ms & p & Hce & Hms & Hp & _ & ->)];
      [constructor|by econstructor].
Qed.

(** A property of the database kept by every write of every route is kept
    by every sequence of routes. *)
Lemma serve_routes_invariant (I : db -> Prop) rs :
  (forall d r d', effect d r d' -> In r rs -> I d -> I d') ->
  forall d n,
    I d ->
    exists d' n', serve_routes fault clock rs (idle d n) = idle d' n' /\ I d'.
Proof.
  induction rs as [|r rs IH]; intros Hstep d n Hd.
  - exists d, n. done.
  - cbn [serve_routes].
    destruct (after_effect r d n) as (d1 & n1 & -> & Heff).
    apply IH.
    + intros d0 r0 d0' Heff0 Hin. apply (Hstep d0 r0 d0' Heff0). by right.
    + apply (Hstep d r d1 Heff); [by left|done].
Qed.

(** *** Invariants of the database *)

Lemma respond_commit_users u rid request status st now d w :
  users (respond_commit u rid request status st now d) !! w
  = if bool_decide (status = "accepted") && bool_decide (id u = w)
    then set_unavailable <$> users d !! w
    else users d !! w.
Proof.
  unfold respond_commit. destruct (bool_decide (status = "accepted")); [|done].
  cbn. rewrite lookup_alter. destruct (decide (id u = w)) as [->|Hne].
  - by rewrite bool_decide_eq_true_2.
  - by rewrite bool_decide_eq_false_2.
Qed.

Lemma respond_commit_workers_kept u rid request status st now d i a :
  project_workers d !! i = Some a ->
  project_workers (respond_commit u rid request status st now d) !! i = Some a.
Proof.
  intros Hi. unfold respond_commit. destruct (bool_decide (status = "accepted")); [|done].
  cbn. rewrite lookup_insert_ne; [done|]. intros Heq. rewrite <- Heq in Hi.
  by rewrite next_rowid_fresh in Hi.
Qed.

Lemma assign_commit_workers_kept u pid wid role w d i a :
  project_workers d !! i = Some a ->
  project_workers (assign_commit u pid wid role w d) !! i = Some a.
Proof.
  intros Hi. cbn. rewrite lookup_insert_ne; [done|]. intros Heq. rewrite <- Heq in Hi.
  by rewrite next_rowid_fresh in Hi.
Qed.

(** X18. Every route leaves the connection without an open transaction,
    whichever statements fail: after any sequence of routes handled one
    after the other the connection is idle. *)
Theorem routes_close_their_transactions rs d n :
  saved (serve_routes fault clock rs (idle d n)) = None.
Proof.
  destruct (serve_routes_invariant (fun _ => True) rs) with (d := d) (n := n)
    as (d' & n' & -> & _); done.
Qed.

Lemma unavailable_kept w d r d' :
  effect d r d' ->
  (forall row, users d !! w = Some row -> is_available row = false) ->
  forall row, users d' !! w = Some row -> is_available row = false.
Proof.
  intros Heff Hd row.
  destruct Heff; cbn [users with_users with_projects with_materials
                      with_project_milestones request_commit order_commit
                      with_worker_requests with_project_materials]; try apply Hd.
  - rewrite respond_commit_users. destruct (_ && _); [|apply Hd].
    destruct (users d !! w); [|done]. by intros [= <-].
  - cbn. rewrite lookup_alter. destruct (decide (wid = w)) as [->|Hne]; [|apply Hd].
    destruct (users d !! w); [|done]. by intros [= <-].
  - rewrite lookup_delete. destruct (decide (uid = w)); [done|apply Hd].
Qed.

(** X19. No route makes a worker available again: a worker marked
    unavailable is still unavailable (or deleted) after any sequence of
    routes, whichever statements fail. *)
Theorem availability_never_returns rs d n w row0 :
  users d !! w = Some row0 ->
  is_available row0 = false ->
  forall row,
    users (data (serve_routes fault clock rs (idle d n))) !! w = Some row ->
    is_available row = false.
Proof.
  intros Hw Hav.
  destruct (serve_routes_invariant
              (fun d => forall row, users d !! w = Some row -> is_available row = false)
              rs) with (d := d) (n := n) as (d' & n' & -> & H); [| |exact H].
  - intros d0 r d0' Heff _. exact (unavailable_kept _ d0 r d0' Heff).
  - intros row Hrow. congruence.
Qed.

(** X20. Requests are never removed, keep their project, worker, requester
    and message, and once accepted or rejected never change again, over any
    sequence of routes and whichever statements fail. *)
Theorem requests_are_permanent rs d n rid r :
  worker_requests d !! rid = Some r ->
  exists r',
    worker_requests (data (serve_routes fault clock rs (idle d n))) !! rid = Some r'
    /\ wr_project_id r' = wr_project_id r
    /\ wr_worker_id r' = wr_worker_id r
    /\ wr_requested_by r' = wr_requested_by r
    /\ wr_message r' = wr_message r
    /\ (wr_status r <> pending -> r' = r).
Proof.
  intros Hr.
  destruct (serve_routes_invariant
              (fun d => exists r',
                   worker_requests d !! rid = Some r'
                   /\ wr_project_id r' = wr_project_id r
                   /\ wr_worker_id r' = wr_worker_id r
                   /\ wr_requested_by r' = wr_requested_by r
                   /\ wr_message r' = wr_message r
                   /\ (wr_status r <> pending -> r' = r))
              rs) with (d := d) (n := n) as (d' & n' & -> & H); [| |exact H].
  - clear. intros d r0 d' Heff _ (r' & Hr' & Hkeep).
    destruct Heff as [ | u pid wid msg p w _ _ _ _
                       | u rid0 request status st now _ Hown Hpend _ | | | | | | | | ];
      try (exists r'; done).
    + exists r'. split; [|done]. cbn. rewrite lookup_insert_ne; [done|].
      intros Heq. rewrite <- Heq in Hr'. by rewrite next_rowid_fresh in Hr'.
    + rewrite respond_commit_requests.
      destruct (decide (rid0 = rid)) as [->|Hne].
      * apply own_request_lookup in Hown as [Hrow _].
        assert (request = r') as -> by congruence.
        exists (set_request_status st now r'). rewrite lookup_alter_eq, Hr'.
        destruct Hkeep as (? & ? & ? & ? & Hres). cbn.
        repeat (split; [done|]). intros Hnp. specialize (Hres Hnp). congruence.
      * exists r'. by rewrite lookup_alter_ne.
  - exists r. done.
Qed.

(** X21. Creating a request only when the pair has none pending keeps the
    pending request of a (project, worker) pair unique, over any sequence
    of routes and whichever statements fail. *)
Theorem pending_requests_stay_unique rs d n :
  one_pending_per_pair d ->
  one_pending_per_pair (data (serve_routes fault clock rs (idle d n))).
Proof.
  intros Hd.
  destruct (serve_routes_invariant one_pending_per_pair rs) with (d := d) (n := n)
    as (d' & n' & -> & H); [|done|exact H].
  clear. intros d r0 d' Heff _ Hd.
  destruct Heff as [ | u pid wid msg p w _ _ _ Hnone
                     | u rid0 request status st now _ Hown Hpend _ | | | | | | | | ];
    try exact Hd.
  - intros i j ri rj Hi Hj Hsi Hsj Hp Hw. cbn in Hi, Hj.
    pose proof (proj1 (select_first_None _ _) Hnone) as Hno.
    set (k := next_rowid (seq_worker_requests d) (worker_requests d)) in *.
    assert (Hold : forall x rx, worker_requests d !! x = Some rx ->
                                wr_status rx = pending ->
                                wr_project_id rx = pid -> wr_worker_id rx = wid -> False).
    { intros x rx Hx Hs Hpx Hwx. specialize (Hno _ _ Hx).
      unfold is_pending_request in Hno. by rewrite !bool_decide_eq_true_2 in Hno. }
    destruct (decide (k = i)) as [<-|Hki]; destruct (decide (k = j)) as [<-|Hkj];
      [done| | |].
    + rewrite lookup_insert_eq in Hi. injection Hi as <-.
      rewrite lookup_insert_ne in Hj by done. cbn in Hp, Hw.
      exfalso. by apply (Hold j rj).
    + rewrite lookup_insert_eq in Hj. injection Hj as <-.
      rewrite lookup_insert_ne in Hi by done. cbn in Hp, Hw.
      exfalso. by apply (Hold i ri).
    + rewrite lookup_insert_ne in Hi, Hj by done. by apply (Hd i j ri rj).
  - intros i j ri rj Hi Hj Hsi Hsj Hp Hw.
    rewrite respond_commit_requests in Hi, Hj.
    apply own_request_lookup in Hown as [Hrow _].
    assert (Hback : forall x rx,
               alter (set_request_status st now) rid0 (worker_requests d) !! x = Some rx ->
               wr_status rx = pending ->
               exists rx0, worker_requests d !! x = Some rx0 /\ wr_status rx0 = pending
                           /\ wr_project_id rx0 = wr_project_id rx
                           /\ wr_worker_id rx0 = wr_worker_id rx).
    { intros x rx Hx Hs. destruct (decide (rid0 = x)) as [<-|Hne].
      - rewrite lookup_alter_eq, Hrow in Hx. injection Hx as <-. exists request. done.
      - rewrite lookup_alter_ne in Hx by done. exists rx. done. }
    destruct (Hback _ _ Hi Hsi) as (ri0 & Hi0 & Hsi0 & Hpi & Hwi).
    destruct (Hback _ _ Hj Hsj) as (rj0 & Hj0 & Hsj0 & Hpj & Hwj).
    apply (Hd i j ri0 rj0); congruence.
Qed.

(** X22. The civil engineer of every project has an assignment row for that
    project, and every worker marked unavailable has an assignment row:
    both are kept by every sequence of routes, whichever statements fail
    (an acceptance or an assignment commits its writes together, and no
    route removes an assignment). *)
Theorem assignments_back_engineers_and_unavailability rs d n :
  engineers_assigned d ->
  unavailable_assigned d ->
  engineers_assigned (data (serve_routes fault clock rs (idle d n)))
  /\ unavailable_assigned (data (serve_routes fault clock rs (idle d n))).
Proof.
  intros He Hu.
  destruct (serve_routes_invariant
              (fun d => engineers_assigned d /\ unavailable_assigned d) rs)
    with (d := d) (n := n) as (d' & n' & -> & H); [|done|exact H].
  clear. intros d r0 d' Heff _ [He Hu].
  destruct Heff as [ | u pid wid msg p w _ _ _ _
                     | u rid0 request status st now _ Hown Hpend _
                     | u pid wid role p w _ _ _
                     | u pid mid q p m _ _ _
                     | u uid _ _ _ _
                     | u mid name unit_ price stock _ _
                     | u mid _
                     | u pid name status p st _ _ _
                     | u pid p _ _
                     | u mid ms p _ _ _ ].
  - done.
  - done.
  - split.
    + intros pid p w Hp Hce. unfold respond_commit in *.
      destruct (bool_decide (status = "accepted")) eqn:Hacc; [|by apply (He pid p w)].
      cbn in Hp. destruct (decide (wr_project_id request = pid)) as [<-|Hne].
      * rewrite lookup_alter_eq in Hp.
        destruct (projects d !! wr_project_id request) as [p0|]; [|done].
        injection Hp as <-. cbn in Hce. injection Hce as <-.
        eexists _, _. cbn. rewrite lookup_insert_eq. done.
      * rewrite lookup_alter_ne in Hp by done.
        destruct (He pid p w Hp Hce) as (i & a & Hi & Ha).
        exists i, a. split; [|done]. cbn. rewrite lookup_insert_ne; [done|].
        intros Heq. rewrite <- Heq in Hi. by rewrite next_rowid_fresh in Hi.
    + intros w row Hw Hav. rewrite respond_commit_users in Hw.
      destruct (bool_decide (status = "accepted")) eqn:Hacc; cbn [andb] in Hw.
      * destruct (decide (id u = w)) as [<-|Hne].
        -- unfold respond_commit. rewrite Hacc. eexists _, _. cbn.
           rewrite lookup_insert_eq. done.
        -- rewrite bool_decide_eq_false_2 in Hw by done.
           destruct (Hu w row Hw Hav) as (i & a & Hi & Ha).
           exists i, a. split; [|done]. by apply respond_commit_workers_kept.
      * destruct (Hu w row Hw Hav) as (i & a & Hi & Ha).
        exists i, a. split; [|done]. by apply respond_commit_workers_kept.
  - split.
    + intros pid' p' w' Hp' Hce. destruct (He pid' p' w' Hp' Hce) as (i & a & Hi & Ha).
      exists i, a. split; [|done]. by apply assign_commit_workers_kept.
    + intros w' row Hw Hav. cbn in Hw. rewrite lookup_alter in Hw.
      destruct (decide (wid = w')) as [<-|Hne].
      * eexists _, _. cbn. rewrite lookup_insert_eq. done.
      * destruct (Hu w' row Hw Hav) as (i & a & Hi & Ha).
        exists i, a. split; [|done]. by apply assign_commit_workers_kept.
  - done.
  - split; [done|]. intros w row Hw Hav. cbn in Hw.
    rewrite lookup_delete in Hw. destruct (decide (uid = w)); [done|].
    by apply (Hu w row).
  - done.
  - done.
  - split; [|done]. intros pid' p' w Hp' Hce. cbn in Hp'. rewrite lookup_alter in Hp'.
    destruct (decide (pid = pid')) as [<-|Hne].
    + destruct (projects d !! pid) as [p0|] eqn:Hp0; [|done]. injection Hp' as <-.
      cbn in Hce. by apply (He pid p0 w).
    + by apply (He pid' p' w).
  - split; [|done]. intros pid' p' w Hp' Hce. cbn in Hp'. rewrite lookup_delete in Hp'.
    destruct (decide (pid = pid')); [done|]. by apply (He pid' p' w).
  - done.
Qed.

(** X23. For requests whose quantities, prices and stocks are integers,
    stocks stay non-negative over any sequence of routes in which no admin
    update stores a negative stock, whichever statements fail: orders only
    take what is there, and nothing else writes a stock. *)
Theorem stock_nonneg_over_routes rs d n :
  (forall r, In r rs -> stores_negative_stock r = false) ->
  stock_nonneg d ->
  stock_nonneg (data (serve_routes fault clock rs (idle d n))).
Proof.
  intros Hrs Hd.
  destruct (serve_routes_invariant stock_nonneg rs) with (d := d) (n := n)
    as (d' & n' & -> & H); [|done|exact H].
  intros d0 r0 d0' Heff Hin Hd0. specialize (Hrs _ Hin).
  destruct Heff; try exact Hd0.
  - unfold respond_commit. by destruct (bool_decide _).
  - by eapply order_commit_stock.
  - cbn in Hrs. apply Z.ltb_ge in Hrs. unfold stock_nonneg. cbn.
    apply map_Forall_insert_2; [done|exact Hd0].
  - unfold stock_nonneg. cbn. by apply map_Forall_delete.
Qed.

(** *** User administration *)

(** X1. DELETE /users/:id reads its route parameter twice: parseInt for
    the test on the caller's own account, and the store's comparison of
    the text with users.id for the row. It answers 200 only to an admin
    whose own id parseInt does not read from the parameter, and only when
    the store reads the parameter as the id of an existing user who
    created no project and appears in no worker request (as worker or as
    requester); it then removes that row of users and nothing else. Every
    other call, a failing statement included, leaves the database as it
    was; and the call succeeds whenever these conditions hold and no
    statement fails. For a parameter written in plain decimal digits the
    two readings are the same integer, so that the deleted user is
    another than the caller, and the route is [delete_user_account] at
    that integer. *)
Theorem delete_user_guards u s d n :
  exists resp d' n',
    run_task fault clock (delete_user_text u s) (idle d n) = (inr resp, idle d' n')
    /\ (reply_status resp = 200 ->
        user_type u = admin /\ parse_int s <> Some (id u)
        /\ exists uid,
            integer_of_text s = Some uid /\ is_Some (users d !! uid)
            /\ (forall pid p, projects d !! pid = Some p -> created_by p <> uid)
            /\ (forall rid r, worker_requests d !! rid = Some r ->
                              wr_worker_id r <> uid /\ wr_requested_by r <> uid)
            /\ d' = with_users d (delete uid (users d)))
    /\ (reply_status resp <> 200 -> d' = d)
    /\ (reliable fault ->
        user_type u = admin -> parse_int s <> Some (id u) ->
        forall uid,
          integer_of_text s = Some uid -> is_Some (users d !! uid) ->
          (forall pid p, projects d !! pid = Some p -> created_by p <> uid) ->
          (forall rid r, worker_requests d !! rid = Some r ->
                         wr_worker_id r <> uid /\ wr_requested_by r <> uid) ->
          reply_status resp = 200)
    /\ (decimal s = true ->
        exists uid,
          parse_int s = Some uid /\ integer_of_text s = Some uid
          /\ (reply_status resp = 200 -> uid <> id u)
          /\ run_task fault clock (delete_user_account u uid) (idle d n)
             = (inr resp, idle d' n')).
Proof.
  destruct (delete_user_text_run u s d n) as (resp & d' & n' & Hrun & Hres).
  exists resp, d', n'. split; [exact Hrun|].
  assert (Hdec : decimal s = true ->
                 exists uid,
                   parse_int s = Some uid /\ integer_of_text s = Some uid
                   /\ (reply_status resp = 200 -> parse_int s <> Some (id u) ->
                       uid <> id u)
                   /\ run_task fault clock (delete_user_account u uid) (idle d n)
                      = (inr resp, idle d' n')).
  { intros Hs. destruct (decimal_readings s Hs) as (uid & Hp & Hk).
    exists uid. split; [done|]. split; [done|]. split; [congruence|].
    by rewrite <- (delete_user_text_agrees u s uid _ Hp Hk). }
  destruct Hres as [(Hno & -> & Hwhy)|(-> & Hu & Hself & uid & Hk & Hrow & Hp & Hr & ->)].
  - split; [done|]. split; [done|]. split.
    + intros Hrel Hu Hself uid Hk Hrow Hp Hr. exfalso.
      apply (Hwhy Hrel Hu Hself uid Hk Hrow).
      * by apply projects_created_zero.
      * by apply requests_involving_zero.
    + intros Hs. destruct (Hdec Hs) as (uid & ? & ? & _ & ?). exists uid. done.
  - split; [|split; [done|split; [done|]]].
    + intros _. split; [done|]. split; [done|]. exists uid.
      pose proof (proj1 (projects_created_zero uid d) Hp).
      pose proof (proj1 (requests_involving_zero uid d) Hr). done.
    + intros Hs. destruct (Hdec Hs) as (uid' & ? & ? & Hother & ?). exists uid'.
      split; [done|]. split; [done|]. split; [|done]. intros ?. by apply Hother.
Qed.

(** X2. A deleted user may still be referenced by assignment rows and by
    material orders: the delete checks projects and worker requests only.
    The rows stay in project_workers and project_materials, and the
    listings of a project's workers and materials, which join users, no
    longer show them. *)
Theorem deleted_user_leaves_assignments u uid d n resp c1 :
  run_task fault clock (delete_user_account u uid) (idle d n) = (inr resp, c1) ->
  reply_status resp = 200 ->
  project_workers (data c1) = project_workers d
  /\ project_materials (data c1) = project_materials d
  /\ forall v pid c2,
       (forall rows,
           run fault clock (get_project_workers v pid) c1
           = (inr (Json 200 (worker_rows rows)), c2) ->
           forall k a nm em sub, (k, a, nm, em, sub) ∈ rows -> pw_worker_id a <> uid)
       /\ (forall rows,
              run fault clock (get_project_materials v pid) c1
              = (inr (Json 200 (material_rows rows)), c2) ->
              forall k o price nm, (k, o, price, nm) ∈ rows -> pm_ordered_by o <> uid).
Proof.
  intros Hrun Hok.
  destruct (delete_user_run u uid d n) as (resp' & d' & n' & Hrun' & Hres).
  rewrite Hrun in Hrun'. injection Hrun' as -> ->.
  destruct Hres as [(Hno & _)|(_ & _ & _ & _ & _ & _ & ->)]; [done|].
  split; [done|]. split; [done|]. intros v pid c2. split.
  - intros rows Hread k a nm em sub Hin.
    destruct (read_project_run fault clock select_project_workers worker_rows
                (fun d => joined_workers d pid) v pid
                (with_users d (delete uid (users d))) n')
      as (r2 & n2 & Hrun2 & _ & Hres2); [done|].
    unfold get_project_workers in Hread. rewrite Hrun2 in Hread.
    injection Hread as -> <-.
    destruct Hres2 as [([=] & _)|Hout].
    inversion Hout as [ | | | p Hp Huser Hworker Heq]. subst rows.
    apply joined_workers_spec in Hin as (_ & _ & row & Hrow & _).
    cbn in Hrow. intros Heq'. rewrite Heq' in Hrow. by rewrite lookup_delete_eq in Hrow.
  - intros rows Hread k o price nm Hin.
    destruct (read_project_run fault clock select_project_materials material_rows
                (fun d => joined_materials d pid) v pid
                (with_users d (delete uid (users d))) n')
      as (r2 & n2 & Hrun2 & _ & Hres2); [done|].
    unfold get_project_materials in Hread. rewrite Hrun2 in Hread.
    injection Hread as -> <-.
    destruct Hres2 as [([=] & _)|Hout].
    inversion Hout as [ | | | p Hp Huser Hworker Heq]. subst rows.
    apply joined_materials_spec in Hin as (_ & _ & _ & row & Hrow & _).
    cbn in Hrow. intros Heq'. rewrite Heq' in Hrow. by rewrite lookup_delete_eq in Hrow.
Qed.

(** X3. GET /users checks no role (the admin test is commented out): with no
    statement failing it gives every caller all the users that are not
    admins, and no admin; GET /users/:id refuses every caller who is not an
    admin. *)
Theorem users_listing_open u d n :
  reliable fault ->
  exists rows,
    run_task fault clock (get_users u) (idle d n)
    = (inr (Reply 200 (users_doc rows)), idle d (S n))
    /\ (forall k row,
           In (k, row) rows <-> users d !! k = Some row /\ u_user_type row <> admin)
    /\ (user_type u <> admin ->
        forall uid,
          run_task fault clock (get_user u uid) (idle d n)
          = (inr (Reply 403 (error_doc "Access denied")), idle d n)).
Proof.
  intros Hrel. exists (listed_users d). split.
  - rewrite get_users_run. by rewrite Hrel.
  - split; [intros; apply listed_users_spec|].
    intros Hu uid. rewrite get_user_run. by rewrite (bool_decide_eq_false_2 _ Hu).
Qed.

(** *** Materials *)

Ltac wf_step H :=
  cbn [run try_catch bind db_get db_run db_all await exec_op exec_sql fst snd
       data saved ticks send internal_error rollback_and_rethrow idle negb];
  rewrite ?H;
  cbn [run try_catch bind db_get db_run db_all await exec_op exec_sql fst snd
       data saved ticks send internal_error rollback_and_rethrow idle negb].

(** With no statement failing, an order that passes the project check
    and finds the material answers from the stock it reads. *)
Lemma order_material_reliable u pid mid q p m d n :
  reliable fault ->
  authorized_engineer u pid d = Some p ->
  materials d !! mid = Some m ->
  fst (run fault clock (order_material u pid mid q) (idle d n))
  = inr (if (stock_quantity m <? q)%Z
         then Json 400 (error_body "Insufficient stock")
         else Json 200 (ordered_body "Material ordered successfully"
                          (price_per_unit m * q))).
Proof.
  intros Hrel Hp Hm.
  destruct (order_material_run fault clock u pid mid q d n)
    as (resp & d' & n' & -> & _ & Hres). cbn [fst].
  destruct Hres as [(_ & _ & Hf)|Hout]; [by apply reliable_not_faulted in Hf|].
  destruct Hout as [Hno | p' Hp' Hm' | p' m' Hp' Hm' Hlt | p' m' Hp' Hm' Hq];
    try congruence.
  - assert (m' = m) as -> by congruence.
    by rewrite (proj2 (Z.ltb_lt _ _) Hlt).
  - assert (m' = m) as -> by congruence.
    by rewrite (proj2 (Z.ltb_ge _ _) Hq).
Qed.

(** X4. PUT /materials/:id is for admins only and validates nothing: with no
    statement failing, an admin's update of an existing material stores
    the price and the stock of the body as they are, a negative stock
    included, and the next order is checked against the stored stock;
    every other caller is answered 403 and changes nothing. *)
Theorem material_update_unvalidated u mid nm un price stock m d n :
  reliable fault ->
  materials d !! mid = Some m ->
  (user_type u <> admin ->
   run_task fault clock (put_material u mid (Some nm) (Some un) price stock) (idle d n)
   = (inr (Reply 403 (error_doc "Only admins can update materials")), idle d n))
  /\ (user_type u = admin ->
      exists d',
        run_task fault clock (put_material u mid (Some nm) (Some un) price stock)
          (idle d n)
        = (inr (Reply 200 (material_doc (Some (MaterialRow price stock)))),
           idle d' (S (S n)))
        /\ d' = with_materials d (<[mid := MaterialRow price stock]> (materials d))
        /\ forall v pid q p,
             authorized_engineer v pid d = Some p ->
             fst (run fault clock (order_material v pid mid q) (idle d' (S (S n))))
             = inr (if (stock <? q)%Z
                    then Json 400 (error_body "Insufficient stock")
                    else Json 200 (ordered_body "Material ordered successfully"
                                     (price * q)))).
Proof.
  intros Hrel Hm. split.
  - intros Hu. unfold put_material. by rewrite (bool_decide_eq_false_2 _ Hu).
  - intros Hu. eexists. split; [|split; [reflexivity|]].
    + unfold put_material. rewrite (bool_decide_eq_true_2 _ Hu). cbn [negb].
      tx1. rewrite !Hrel, Hm. tx1. rewrite !Hrel. tx1.
      cbn [materials with_materials]. rewrite lookup_insert_eq. reflexivity.
    + intros v pid q p Hp.
      rewrite (order_material_reliable v pid mid q p (MaterialRow price stock));
        [done|done|done|].
      cbn. apply lookup_insert_eq.
Qed.

(** X5. DELETE /materials/:id is for admins only and does not look at the
    orders of the material: with no statement failing the admin's call
    removes the row (200 even when there is none); an order for the
    material is then answered 404, and the orders placed before stay in
    project_materials but are gone from the listing of their project,
    which joins materials. *)
Theorem material_delete_then_order u mid d n :
  reliable fault ->
  user_type u = admin ->
  exists d',
    run_task fault clock (delete_material_route u mid) (idle d n)
    = (inr (Reply 200 (message_doc "Material deleted successfully")), idle d' (S n))
    /\ materials d' = delete mid (materials d)
    /\ project_materials d' = project_materials d
    /\ (forall v pid q p,
           authorized_engineer v pid d = Some p ->
           fst (run fault clock (order_material v pid mid q) (idle d' (S n)))
           = inr (Json 404 (error_body "Material not found")))
    /\ (forall pid k o price nm,
           (k, o, price, nm) ∈ joined_materials d' pid -> pm_material_id o <> mid).
Proof.
  intros Hrel Hu. eexists. split.
  { rewrite delete_material_run, (bool_decide_eq_true_2 _ Hu), Hrel. reflexivity. }
  split; [done|]. split; [done|]. split.
  - intros v pid q p Hp.
    destruct (order_material_run fault clock v pid mid q
                (with_materials d (delete mid (materials d))) (S n))
      as (resp & d' & n' & -> & _ & Hres). cbn [fst].
    destruct Hres as [(_ & _ & Hf)|Hout]; [by apply reliable_not_faulted in Hf|].
    destruct Hout as [Hno | p' Hp' Hm' | p' m' Hp' Hm' Hlt | p' m' Hp' Hm' Hq].
    + unfold authorized_engineer in *. cbn in Hno. congruence.
    + done.
    + cbn in Hm'. by rewrite lookup_delete_eq in Hm'.
    + cbn in Hm'. by rewrite lookup_delete_eq in Hm'.
  - intros pid k o price nm Hin Heq.
    apply joined_materials_spec in Hin as (_ & _ & (m & Hm & _) & _).
    cbn in Hm. rewrite Heq in Hm. by rewrite lookup_delete_eq in Hm.
Qed.

(** *** Projects *)

(** X8. DELETE /projects/:id removes the project row only. A pending request
    for the project stays behind: it is gone from the worker's list of
    requests, which joins projects, but the worker can still accept it by
    id, and is then marked unavailable and assigned as civil engineer to a
    project that does not exist. *)
Theorem accept_after_project_deleted owner w pid rid request p d n :
  reliable fault ->
  projects d !! pid = Some p ->
  may_manage owner p ->
  user_type w = worker ->
  own_request w rid d = Some request ->
  wr_project_id request = pid ->
  wr_status request = pending ->
  exists d1 n1 d2 n2,
    run_task fault clock (delete_project_route owner pid) (idle d n)
    = (inr (Reply 200 (message_doc "Project deleted successfully")), idle d1 n1)
    /\ projects d1 !! pid = None
    /\ worker_requests d1 = worker_requests d
    /\ (forall nm, (rid, request, nm) ∉ listed_requests (id w) d1)
    /\ run fault clock (respond w rid "accepted") (idle d1 n1)
       = (inr (Json 200 (message_body "Request accepted successfully")), idle d2 n2)
    /\ projects d2 !! pid = None
    /\ (exists i, project_workers d2 !! i
                  = Some (AssignmentRow pid (id w) (id w) (Some "civil_engineer")))
    /\ users d2 !! id w = set_unavailable <$> users d !! id w.
Proof.
  intros Hrel Hp Hm Hw Hreq Hpid Hs.
  destruct (delete_project_run owner pid d n) as (r1 & d1 & n1 & Hrun1 & Hres1 & Hok1).
  specialize (Hok1 Hrel p Hp Hm).
  destruct Hres1 as [(_ & ?)|(p' & _ & _ & -> & ->)]; [done|].
  set (d1 := with_projects d (delete pid (projects d))) in *.
  assert (Hreq1 : own_request w rid d1 = Some request) by done.
  destruct (respond_run fault clock w rid "accepted" d1 n1)
    as (r2 & d2 & n2 & Hrun2 & _ & Hres2).
  destruct Hres2 as [(_ & _ & Hf)|Hout]; [by apply reliable_not_faulted in Hf|].
  destruct Hout as [Hu' | _ Hno | request' _ Hreq' Hs' | request' _ Hreq' _ Hbad
                    | request' st now _ Hreq' _ Hparse]; try congruence.
  { discriminate Hbad. }
  assert (request' = request) as -> by congruence.
  rewrite respond_commit_accepted in Hrun2. rewrite Hpid in Hrun2.
  eexists d1, n1, _, n2. split; [exact Hrun1|].
  split; [apply lookup_delete_eq|]. split; [done|]. split.
  { intros nm Hin. apply listed_requests_spec in Hin as (_ & _ & [q Hq] & _).
    rewrite Hpid in Hq. cbn in Hq. by rewrite lookup_delete_eq in Hq. }
  split; [exact Hrun2|]. split.
  { cbn. rewrite lookup_alter_eq. by rewrite lookup_delete_eq. }
  split.
  { eexists. cbn. apply lookup_insert_eq. }
  cbn. by rewrite lookup_alter_eq.
Qed.

(** X9. The list of projects and the read guard agree for clients and
    admins: with no statement failing, a caller who is not a worker can
    read the materials of exactly the projects GET /projects lists for
    them (a client's own projects, every project for an admin). *)
Theorem listing_matches_read_guard u d n :
  reliable fault ->
  user_type u <> worker ->
  run_task fault clock (get_projects u) (idle d n)
  = (inr (Reply 200 (projects_doc (listed_projects (filter_of u) d))), idle d (S n))
  /\ forall pid,
       (exists p cn en, (pid, p, cn, en) ∈ listed_projects (filter_of u) d)
       <-> status_of (fst (run fault clock (get_project_materials u pid) (idle d n)))
           = Some 200.
Proof.
  intros Hrel Hu. split.
  { rewrite get_projects_run. by rewrite Hrel. }
  intros pid.
  destruct (read_project_run fault clock select_project_materials material_rows
              (fun d => joined_materials d pid) u pid d n)
    as (resp & n' & Hrun & _ & Hres); [done|].
  unfold get_project_materials. rewrite Hrun. cbn [fst status_of].
  destruct Hres as [(_ & _ & Hf)|Hout]; [by apply reliable_not_faulted in Hf|].
  assert (Hfilter : forall p,
             passes_filter (filter_of u) d pid p = true
             <-> (user_type u = user -> created_by p = id u)).
  { intros p. unfold filter_of. destruct (decide (user_type u = user)) as [Hc|Hc].
    - rewrite (bool_decide_eq_true_2 _ Hc). cbn. rewrite bool_decide_eq_true.
      split; [done|]. intros H. by apply H.
    - rewrite (bool_decide_eq_false_2 _ Hc), (bool_decide_eq_false_2 _ Hu). cbn.
      done. }
  split.
  - intros (p & cn & en & Hin). apply listed_projects_spec in Hin as (Hp & Hf & _).
    pose proof (proj1 (Hfilter p) Hf) as Hown.
    destruct Hout as [Hnone | p' Hp' Hc Hne | p' Hp' Hw _ _ | p' _ _ _]; cbn;
      try done; try congruence.
    assert (p' = p) as -> by congruence. by specialize (Hown Hc).
  - intros Hok. destruct Hout as [ | | | p Hp Huser Hworker]; try discriminate Hok.
    exists p. eexists _, _. apply listed_projects_spec.
    split; [done|]. split; [by apply Hfilter|]. done.
Qed.

(** *** Listings after a workflow *)

Lemma select_first_found {V} (P : V -> bool) (m : gmap Z V) k v :
  m !! k = Some v -> P v = true -> is_Some (select_first P m).
Proof.
  intros Hk HP. destruct (select_first P m) eqn:E; [eauto|].
  rewrite (proj1 (select_first_None P m) E k v Hk) in HP. done.
Qed.

(** No route removes or changes an assignment row. *)
Lemma assignment_kept d r d' i a :
  effect d r d' ->
  project_workers d !! i = Some a -> project_workers d' !! i = Some a.
Proof.
  intros Heff Hi. destruct Heff; try exact Hi.
  - by apply respond_commit_workers_kept.
  - by apply assign_commit_workers_kept.
Qed.

(** No route removes a request or changes its project, its worker, its
    requester or its message. *)
Lemma request_kept d r d' rid r0 :
  effect d r d' ->
  worker_requests d !! rid = Some r0 ->
  exists r1,
    worker_requests d' !! rid = Some r1
    /\ wr_project_id r1 = wr_project_id r0 /\ wr_worker_id r1 = wr_worker_id r0
    /\ wr_requested_by r1 = wr_requested_by r0 /\ wr_message r1 = wr_message r0.
Proof.
  intros Heff Hr.
  destruct Heff as [ | u pid wid msg p w _ _ _ _
                     | u rid0 request status st now _ Hown _ _ | | | | | | | | ];
    try (exists r0; done).
  - exists r0. split; [|done]. cbn. rewrite lookup_insert_ne; [done|].
    intros Heq. rewrite <- Heq in Hr. by rewrite next_rowid_fresh in Hr.
  - rewrite respond_commit_requests. destruct (decide (rid0 = rid)) as [->|Hne].
    + exists (set_request_status st now r0). by rewrite lookup_alter_eq, Hr.
    + exists r0. by rewrite lookup_alter_ne.
Qed.

(** A worker with an assignment row for a project is shown the project by
    GET /projects exactly while the project exists. *)
Lemma assigned_project_listed wk pid i a d :
  user_type wk = worker ->
  project_workers d !! i = Some a ->
  is_assignment pid (id wk) a = true ->
  (exists p cn en, (pid, p, cn, en) ∈ listed_projects (filter_of wk) d)
  <-> is_Some (projects d !! pid).
Proof.
  intros Hwk Hi Ha. split.
  - intros (p & cn & en & Hin). apply listed_projects_spec in Hin as (Hp & _). eauto.
  - intros [p Hp]. exists p. eexists _, _. apply listed_projects_spec.
    split; [done|]. split; [|done].
    unfold filter_of. rewrite bool_decide_eq_false_2 by (rewrite Hwk; done).
    rewrite (bool_decide_eq_true_2 _ Hwk). cbn [passes_filter]. unfold works_on.
    rewrite bool_decide_eq_true_2; [done|]. by eapply select_first_found.
Qed.

(** X10. Once a worker has accepted a request for an existing project, the
    list GET /projects gives that worker right after the acceptance holds
    the project, with the worker as civil engineer and status in_progress.
    Whatever routes are handled afterwards and whichever statements fail,
    every later successful GET /projects by the worker still holds the
    project, exactly as long as the project has not been deleted (its
    status and engineer may have changed): the assignment row of the
    acceptance is never removed. *)
Theorem accepted_project_is_listed w rid request p d n resp c1 :
  run fault clock (respond w rid "accepted") (idle d n) = (inr resp, c1) ->
  http_status resp = 200 ->
  own_request w rid d = Some request ->
  projects d !! wr_project_id request = Some p ->
  (forall rows c2,
      run_task fault clock (get_projects w) c1
      = (inr (Reply 200 (projects_doc rows)), c2) ->
      exists cn en,
        (wr_project_id request, ProjectRow (created_by p) (Some (id w)) in_progress, cn, en)
        ∈ rows)
  /\ (forall rs rows c2,
         run_task fault clock (get_projects w) (serve_routes fault clock rs c1)
         = (inr (Reply 200 (projects_doc rows)), c2) ->
         (exists p2 cn en, (wr_project_id request, p2, cn, en) ∈ rows)
         <-> is_Some (projects (data (serve_routes fault clock rs c1))
                        !! wr_project_id request)).
Proof.
  intros Hrun Hok Hreq Hp.
  destruct (respond_run fault clock w rid "accepted" d n)
    as (resp' & d1 & n1 & Hrun' & _ & Hres).
  rewrite Hrun in Hrun'. injection Hrun' as -> ->.
  destruct Hres as [(-> & _)|Hout]; [discriminate Hok|].
  destruct Hout as [ | | | | request' st now Hw Hreq' Hs Hparse]; try discriminate Hok.
  assert (request' = request) as -> by congruence.
  rewrite respond_commit_accepted.
  set (d1 := install_engineer w (wr_project_id request) (mark_responded rid st now d)).
  assert (Hrow : exists i a, project_workers d1 !! i = Some a
                             /\ is_assignment (wr_project_id request) (id w) a = true).
  { eexists _, _. split; [cbn; apply lookup_insert_eq|].
    unfold is_assignment. cbn. by rewrite !bool_decide_eq_true_2. }
  split.
  - intros rows c2 Hlist.
    rewrite get_projects_run in Hlist. destruct (fault n1); [discriminate Hlist|].
    injection Hlist as <- _.
    eexists _, _. apply listed_projects_spec. split.
    { cbn. by rewrite lookup_alter_eq, Hp. }
    split; [|done].
    unfold filter_of. rewrite bool_decide_eq_false_2 by (rewrite Hw; done).
    rewrite (bool_decide_eq_true_2 _ Hw). cbn [passes_filter]. unfold works_on.
    rewrite bool_decide_eq_true_2; [done|].
    destruct Hrow as (i & a & Hi & Ha). by eapply select_first_found.
  - intros rs rows c2.
    destruct (serve_routes_invariant
                (fun d => exists i a, project_workers d !! i = Some a
                                      /\ is_assignment (wr_project_id request) (id w) a
                                         = true)
                rs) with (d := d1) (n := n1) as (d2 & n2 & -> & (i & a & Hi & Ha));
      [|exact Hrow|].
    { intros d0 r d0' Heff _ (i & a & Hi & Ha). exists i, a.
      split; [by eapply assignment_kept|done]. }
    intros Hlist. rewrite get_projects_run in Hlist.
    destruct (fault n2); [discriminate Hlist|]. injection Hlist as <- _.
    cbn [data idle]. by eapply assigned_project_listed.
Qed.

(** X11. A request that has been created shows, pending and under the id the
    call answered, in the lists read right after: the list of requests of
    the worker it is addressed to (with the requester's name) and the
    requester's list of sent requests. Whatever routes are handled
    afterwards and whichever statements fail, every later successful GET
    /worker_requests by the requester still holds a row with that id, for
    the same project and worker and with the same message (its status may
    have changed), and every later successful GET /requests by the worker
    holds it exactly as long as the project and the requester still
    exist. *)
Theorem request_shows_in_listings u pid wid msg d n note i c1 urow wk :
  run fault clock (request_worker u pid wid msg) (idle d n)
  = (inr (Json 201 (created_body note i)), c1) ->
  users d !! id u = Some urow ->
  id wk = wid ->
  (forall rows c2,
      run_task fault clock (get_requests wk) c1
      = (inr (Reply 200 (requests_doc rows)), c2) ->
      (i, RequestRow pid wid (id u) pending msg None, username urow) ∈ rows)
  /\ (forall rows c2,
         run_task fault clock (get_sent_requests u) c1
         = (inr (Reply 200 (sent_requests_doc rows)), c2) ->
         In (i, RequestRow pid wid (id u) pending msg None) rows)
  /\ (forall rs rows c2,
         run_task fault clock (get_sent_requests u) (serve_routes fault clock rs c1)
         = (inr (Reply 200 (sent_requests_doc rows)), c2) ->
         exists r,
           In (i, r) rows /\ wr_project_id r = pid /\ wr_worker_id r = wid
           /\ wr_requested_by r = id u /\ wr_message r = msg)
  /\ (forall rs rows c2,
         run_task fault clock (get_requests wk) (serve_routes fault clock rs c1)
         = (inr (Reply 200 (requests_doc rows)), c2) ->
         (exists r nm, (i, r, nm) ∈ rows)
         <-> is_Some (projects (data (serve_routes fault clock rs c1)) !! pid)
             /\ is_Some (users (data (serve_routes fault clock rs c1)) !! id u)).
Proof.
  intros Hrun Hu Hwk.
  destruct (request_worker_run fault clock u pid wid msg d n)
    as (resp & d1 & n1 & Hrun' & _ & Hres).
  rewrite Hrun in Hrun'. injection Hrun' as <- ->.
  destruct Hres as [([=] & _)|Hout].
  inversion Hout as [ | | | | p w Hp Ho Hw Hnone Hresp Hd1]. subst i.
  assert (Hrow : worker_requests (request_commit u pid wid msg d)
                 !! next_rowid (seq_worker_requests d) (worker_requests d)
                 = Some (RequestRow pid wid (id u) pending msg None)).
  { cbn. apply lookup_insert_eq. }
  set (i := next_rowid (seq_worker_requests d) (worker_requests d)) in *.
  assert (Hlater : forall rs, exists d2 n2 r,
             serve_routes fault clock rs (idle (request_commit u pid wid msg d) n1)
             = idle d2 n2
             /\ worker_requests d2 !! i = Some r
             /\ wr_project_id r = pid /\ wr_worker_id r = wid
             /\ wr_requested_by r = id u /\ wr_message r = msg).
  { intros rs.
    destruct (serve_routes_invariant
                (fun d => exists r,
                     worker_requests d !! i = Some r
                     /\ wr_project_id r = pid /\ wr_worker_id r = wid
                     /\ wr_requested_by r = id u /\ wr_message r = msg)
                rs) with (d := request_commit u pid wid msg d) (n := n1)
      as (d2 & n2 & Heq & (r & Hr)).
    - intros d0 r0 d0' Heff _ (r & Hr & Hp0 & Hw0 & Hu0 & Hm0).
      destruct (request_kept d0 r0 d0' i r Heff Hr) as (r1 & Hr1 & ? & ? & ? & ?).
      exists r1. split; [done|]. repeat split; congruence.
    - eexists. split; [exact Hrow|]. done.
    - by exists d2, n2, r. }
  split; [|split; [|split]].
  - intros rows c2 Hlist. rewrite get_requests_run in Hlist.
    destruct (bool_decide (user_type wk = worker)); [|discriminate Hlist].
    destruct (fault n1); [discriminate Hlist|]. injection Hlist as <- _.
    apply listed_requests_spec. split; [exact Hrow|]. split; [done|].
    split; [cbn; eauto|]. exists urow. done.
  - intros rows c2 Hlist. rewrite get_sent_requests_run in Hlist.
    destruct (fault n1); [discriminate Hlist|]. injection Hlist as <- _.
    apply sent_requests_spec. done.
  - intros rs rows c2.
    destruct (Hlater rs) as (d2 & n2 & r & -> & Hr & Hp2 & Hw2 & Hu2 & Hm2).
    intros Hlist. rewrite get_sent_requests_run in Hlist.
    destruct (fault n2); [discriminate Hlist|]. injection Hlist as <- _.
    exists r. split; [by apply sent_requests_spec|done].
  - intros rs rows c2.
    destruct (Hlater rs) as (d2 & n2 & r & -> & Hr & Hp2 & Hw2 & Hu2 & Hm2).
    intros Hlist. rewrite get_requests_run in Hlist.
    destruct (bool_decide (user_type wk = worker)); [|discriminate Hlist].
    destruct (fault n2); [discriminate Hlist|]. injection Hlist as <- _.
    cbn [data idle]. split.
    + intros (r' & nm & Hin).
      apply listed_requests_spec in Hin as (Hr' & _ & Hproj & row & Hrow' & _).
      assert (r' = r) as -> by congruence.
      rewrite Hp2 in Hproj. rewrite Hu2 in Hrow'. eauto.
    + intros [Hproj [row Hrow']]. exists r, (username row).
      apply listed_requests_spec. split; [done|]. split; [congruence|].
      split; [by rewrite Hp2|]. exists row. by rewrite Hu2.
Qed.

(** X12. The availability test of a request and the list of available
    engineers agree: with no statement failing, the owner of a project is
    answered "Worker not available" exactly for the worker ids that GET
    /available-engineers does not list. *)
Theorem request_needs_listed_engineer u pid wid msg p d n :
  reliable fault ->
  projects d !! pid = Some p ->
  created_by p = id u ->
  run_task fault clock (get_available_engineers u) (idle d n)
  = (inr (Reply 200 (engineers_doc (listed_engineers d))), idle d (S n))
  /\ (fst (run fault clock (request_worker u pid wid msg) (idle d n))
      = inr (Json 400 (error_body "Worker not available"))
      <-> ~ exists nm em, (wid, nm, em) ∈ listed_engineers d).
Proof.
  intros Hrel Hp Ho. split.
  { rewrite get_available_engineers_run. by rewrite Hrel. }
  assert (Hlisted : (exists nm em, (wid, nm, em) ∈ listed_engineers d)
                    <-> is_Some (available_engineer wid d)).
  { unfold available_engineer. split.
    - intros (nm & em & Hin). apply listed_engineers_spec in Hin as (row & Hrow & Hav & _).
      exists row. apply row_where_Some. done.
    - intros [row Hrow]. apply row_where_Some in Hrow as [Hrow Hav].
      exists (username row), (email row). apply listed_engineers_spec. by exists row. }
  rewrite Hlisted.
  destruct (request_worker_run fault clock u pid wid msg d n)
    as (resp & d' & n' & -> & _ & Hres). cbn [fst].
  destruct Hres as [(_ & _ & Hf)|Hout]; [by apply reliable_not_faulted in Hf|].
  destruct Hout as [Hnp | p' Hp' Hno | p' Hp' _ Hna | p' w r Hp' _ Hw Hr | p' w Hp' _ Hw Hr].
  - congruence.
  - assert (p' = p) by congruence. congruence.
  - split; [|done]. intros _ [row Hrow]. congruence.
  - split; [done|]. intros Hn. exfalso. apply Hn. eauto.
  - split; [done|]. intros Hn. exfalso. apply Hn. eauto.
Qed.

(** X13. A worker who has accepted a request can never be requested again:
    whatever routes are handled afterwards and whichever statements fail,
    no request addressed to that worker is created. *)
Theorem accepted_engineer_never_requested_again w rid d n resp c1 rs u pid msg :
  run fault clock (respond w rid "accepted") (idle d n) = (inr resp, c1) ->
  http_status resp = 200 ->
  status_of (fst (run fault clock (request_worker u pid (id w) msg)
                    (serve_routes fault clock rs c1)))
  <> Some 201.
Proof.
  intros Hrun Hok.
  destruct (respond_run fault clock w rid "accepted" d n)
    as (resp' & d1 & n1 & Hrun' & _ & Hres).
  rewrite Hrun in Hrun'. injection Hrun' as -> ->.
  destruct Hres as [(-> & _)|Hout]; [discriminate Hok|].
  destruct Hout as [ | | | | request st now Hw Hreq Hs Hparse]; try discriminate Hok.
  rewrite respond_commit_accepted.
  set (d1 := install_engineer w (wr_project_id request) (mark_responded rid st now d)).
  assert (H1 : forall row, users d1 !! id w = Some row -> is_available row = false).
  { intros row. cbn. rewrite lookup_alter_eq.
    destruct (users d !! id w); [|done]. by intros [= <-]. }
  destruct (serve_routes_invariant
              (fun d => forall row, users d !! id w = Some row -> is_available row = false)
              rs) with (d := d1) (n := n1) as (d2 & n2 & -> & H2); [|exact H1|].
  { intros d0 r d0' Heff _. exact (unavailable_kept _ d0 r d0' Heff). }
  destruct (request_worker_run fault clock u pid (id w) msg d2 n2)
    as (r3 & d3 & n3 & -> & _ & Hres3). cbn [fst status_of].
  destruct Hres3 as [(-> & _)|Hout3]; [done|].
  destruct Hout3 as [ | | | | p3 w3 _ _ Hav _]; try done.
  unfold available_engineer in Hav. apply row_where_Some in Hav as [Hrow Hav].
  unfold is_available_engineer in Hav. rewrite (H2 _ Hrow) in Hav.
  by rewrite andb_false_r in Hav.
Qed.


(** *** Milestones *)

(** X15. DELETE /milestones/:id answers 200 only to a civil engineer who is the
    engineer of the milestone's project; it then removes that milestone,
    which is gone from the listing of its project, and nothing else. Every
    other call, a failing statement included, leaves the database as it
    was. *)
Theorem milestone_delete_guarded u mid d n :
  exists resp d' n',
    run_task fault clock (delete_milestone_route u mid) (idle d n)
    = (inr resp, idle d' n')
    /\ (reply_status resp = 200 ->
        is_civil_engineer u
        /\ (exists ms p,
               project_milestones d !! mid = Some ms
               /\ authorized_engineer u (ms_project_id ms) d = Some p)
        /\ d' = with_project_milestones d (delete mid (project_milestones d))
        /\ forall pid ms nm, (mid, ms, nm) ∉ joined_milestones d' pid)
    /\ (reply_status resp <> 200 -> d' = d)
    /\ (reliable fault ->
        forall ms p,
          is_civil_engineer u -> project_milestones d !! mid = Some ms ->
          authorized_engineer u (ms_project_id ms) d = Some p ->
          reply_status resp = 200).
Proof.
  destruct (delete_milestone_run u mid d n) as (resp & d' & n' & Hrun & Hres & Hok).
  exists resp, d', n'. split; [exact Hrun|].
  destruct Hres as [(-> & Hno)|(ms & p & Hce & Hms & Hp & -> & ->)].
  - done.
  - split; [|done]. intros _. split; [done|]. split; [eauto|]. split; [done|].
    intros pid ms' nm Hin. apply joined_milestones_spec in Hin as (Hin & _).
    cbn in Hin. by rewrite lookup_delete_eq in Hin.
Qed.

(** *** Overlapping transactions *)

(** X17. A workflow that finds the connection inside another handler's
    transaction never succeeds and never touches that transaction: its
    BEGIN is refused by the store, outside the inner try, so the handler
    answers an error without ROLLBACK, and the data and the open
    transaction are as they were. *)
Theorem nested_begin_fails_cleanly r c s :
  uses_transaction r = true ->
  saved c = Some s ->
  exists resp n',
    run fault clock (handler r) c = (inr resp, Conn (data c) (Some s) n')
    /\ http_status resp <> 200.
Proof.
  intros Hr Hs. destruct c as [d sv n]. cbn in Hs. subst sv. cbn [data].
  destruct r as [ | u rid status | u pid wid role | u pid mid q | | | ];
    try discriminate Hr; cbn [handler].
  - unfold respond. destruct (bool_decide (user_type u = worker)); cbn [negb].
    2:{ eexists _, _. split; [reflexivity|done]. }
    wf_step I. destruct (fault n); wf_step I.
    { eexists _, _. split; [reflexivity|done]. }
    destruct (row_where _ _) as [request|]; wf_step I.
    2:{ eexists _, _. split; [reflexivity|done]. }
    destruct (bool_decide (wr_status request = pending)); wf_step I.
    2:{ eexists _, _. split; [reflexivity|done]. }
    destruct (fault (S n)); wf_step I; eexists _, _; (split; [reflexivity|done]).
  - unfold assign.
    destruct (negb _ || negb _).
    { eexists _, _. split; [reflexivity|done]. }
    wf_step I. destruct (fault n); wf_step I.
    { eexists _, _. split; [reflexivity|done]. }
    destruct (row_where (is_project_of_engineer _) _) as [p|]; wf_step I.
    2:{ eexists _, _. split; [reflexivity|done]. }
    destruct (fault (S n)); wf_step I.
    { eexists _, _. split; [reflexivity|done]. }
    destruct (row_where is_available_worker _) as [w|]; wf_step I.
    2:{ eexists _, _. split; [reflexivity|done]. }
    destruct (fault (S (S n))); wf_step I; eexists _, _; (split; [reflexivity|done]).
  - unfold order_material.
    wf_step I. destruct (fault n); wf_step I.
    { eexists _, _. split; [reflexivity|done]. }
    destruct (row_where (is_project_of_engineer _) _) as [p|]; wf_step I.
    2:{ eexists _, _. split; [reflexivity|done]. }
    destruct (fault (S n)); wf_step I.
    { eexists _, _. split; [reflexivity|done]. }
    destruct (materials d !! mid) as [m|]; wf_step I.
    2:{ eexists _, _. split; [reflexivity|done]. }
    destruct (stock_quantity m <? q)%Z; wf_step I.
    { eexists _, _. split; [reflexivity|done]. }
    destruct (fault (S (S n))); wf_step I; eexists _, _; (split; [reflexivity|done]).
Qed.

(** *** More on the workflows *)

(** X6. The cost of an order is fixed when it is placed: it is the price read
    before the transaction times the quantity, in the answer and in the
    row. A later update of the material's price changes the price the
    project's listing shows beside the order, not its total_cost. *)
Theorem order_cost_is_a_snapshot u pid mid q d n resp c1 urow adm nm un price' stock' :
  reliable fault ->
  run fault clock (order_material u pid mid q) (idle d n) = (inr resp, c1) ->
  http_status resp = 200 ->
  users d !! id u = Some urow ->
  user_type adm = admin ->
  exists m i,
    materials d !! mid = Some m
    /\ resp = Json 200 (ordered_body "Material ordered successfully"
                          (price_per_unit m * q))
    /\ (i, OrderRow pid mid q (price_per_unit m * q) (id u), price', username urow)
       ∈ joined_materials
           (data (snd (run_task fault clock
                         (put_material adm mid (Some nm) (Some un) price' stock') c1)))
           pid.
Proof.
  intros Hrel Hrun Hok Hu Hadm.
  destruct (order_material_run fault clock u pid mid q d n)
    as (resp' & d1 & n1 & Hrun' & _ & Hres).
  rewrite Hrun in Hrun'. injection Hrun' as -> ->.
  destruct Hres as [(-> & _)|Hout]; [discriminate Hok|].
  destruct Hout as [ | | | p m Hp Hm Hq]; try discriminate Hok.
  exists m, (next_rowid (seq_project_materials d) (project_materials d)).
  split; [done|]. split; [done|].
  destruct (put_material_run adm mid (Some nm) (Some un) price' stock'
              (order_commit u pid mid q m d) n1)
    as (r2 & d2 & n2 & -> & Hres2 & _ & _ & Hok2). cbn [snd data idle].
  specialize (Hok2 Hrel Hadm ltac:(eauto) ltac:(eauto)).
  destruct Hres2 as [(_ & Hnone)|(_ & _ & _ & -> & _)].
  { destruct (Hnone Hok2) as [_ Habs]. cbn in Habs.
    rewrite lookup_alter_eq, Hm in Habs. done. }
  apply joined_materials_spec. cbn. split; [apply lookup_insert_eq|].
  split; [done|]. split.
  - eexists. rewrite lookup_insert_eq. done.
  - by exists urow.
Qed.

End Routes.

(** ** The other routes on the sample data *)

Lemma delete_user_guards_witness :
  decimal "5" = true
  /\ exists d' n',
       run_task no_fault wall_clock (delete_user_text root_ "5") (idle site_crew 0)
       = (inr (Reply 200 (message_doc "User deleted successfully")), idle d' n')
       /\ d' = with_users site_crew (delete 5 (users site_crew))
       /\ run_task no_fault wall_clock (delete_user_account root_ 5) (idle site_crew 0)
          = (inr (Reply 200 (message_doc "User deleted successfully")), idle d' n').
Proof.
  split; [reflexivity|].
  destruct (delete_user_guards no_fault wall_clock root_ "5" site_crew 0)
    as (resp & d' & n' & Hrun & Hok & _ & _ & Hdec).
  assert (Hresp : resp = Reply 200 (message_doc "User deleted successfully")).
  { vm_compute in Hrun. injection Hrun as <- _ _. reflexivity. }
  subst resp. exists d', n'. split; [exact Hrun|].
  destruct (Hok eq_refl) as (_ & _ & uid & Hk & _ & _ & _ & ->).
  destruct (Hdec eq_refl) as (uid' & Hp & _ & _ & Hacc).
  vm_compute in Hk. injection Hk as <-.
  vm_compute in Hp. injection Hp as <-.
  split; [reflexivity|exact Hacc].
Defined.

Lemma deleted_user_leaves_assignments_witness :
  project_workers
    (data (snd (run_task no_fault wall_clock (delete_user_account root_ 5)
                  (idle site_crew 0))))
  = project_workers site_crew.
Proof.
  apply (deleted_user_leaves_assignments no_fault wall_clock root_ 5 site_crew 0
           (Reply 200 (message_doc "User deleted successfully"))).
  - vm_compute. reflexivity.
  - reflexivity.
Defined.

Lemma users_listing_open_witness :
  exists rows,
    run_task no_fault wall_clock (get_users dan) (idle site0 0)
    = (inr (Reply 200 (users_doc rows)), idle site0 1)
    /\ In (3, UserRow "bob" "bob@example.com" worker (Some "civil_engineer") true) rows.
Proof.
  destruct (users_listing_open no_fault wall_clock dan site0 0) as (rows & Hrun & Hrows & _).
  - intros k. reflexivity.
  - exists rows. split; [exact Hrun|]. apply Hrows. split; [reflexivity|discriminate].
Defined.

Lemma material_update_unvalidated_witness :
  exists d',
    run_task no_fault wall_clock
      (put_material root_ 1 (Some "Cement") (Some "bag") 500 (-4)) (idle site1 0)
    = (inr (Reply 200 (material_doc (Some (MaterialRow 500 (-4))))), idle d' 2)
    /\ fst (run no_fault wall_clock (order_material bob 1 1 (-4)) (idle d' 2))
       = inr (Json 200 (ordered_body "Material ordered successfully" (-2000))).
Proof.
  destruct (material_update_unvalidated no_fault wall_clock root_ 1 "Cement" "bag"
              500 (-4) (MaterialRow 450 10) site1 0) as [_ Hadmin].
  - intros k. reflexivity.
  - vm_compute. reflexivity.
  - destruct (Hadmin eq_refl) as (d' & Hrun & _ & Horder).
    exists d'. split; [exact Hrun|].
    apply (Horder bob 1 (-4) (ProjectRow 2 (Some 3) in_progress)).
    vm_compute. reflexivity.
Defined.

Lemma material_delete_then_order_witness :
  exists d',
    run_task no_fault wall_clock (delete_material_route root_ 1) (idle site_ordered 0)
    = (inr (Reply 200 (message_doc "Material deleted successfully")), idle d' 1)
    /\ project_materials d' = project_materials site_ordered
    /\ fst (run no_fault wall_clock (order_material bob 1 1 2) (idle d' 1))
       = inr (Json 404 (error_body "Material not found")).
Proof.
  destruct (material_delete_then_order no_fault wall_clock root_ 1 site_ordered 0)
    as (d' & Hrun & _ & Hrows & Horder & _).
  - intros k. reflexivity.
  - reflexivity.
  - exists d'. split; [exact Hrun|]. split; [exact Hrows|].
    apply (Horder bob 1 2 (ProjectRow 2 (Some 3) in_progress)).
    vm_compute. reflexivity.
Defined.

Lemma order_cost_is_a_snapshot_witness :
  exists i,
    (i, OrderRow 1 1 3 1350 3, 999, "bob")
    ∈ joined_materials
        (data (snd (run_task no_fault wall_clock
                      (put_material root_ 1 (Some "Cement") (Some "bag") 999 7)
                      (snd (run no_fault wall_clock (order_material bob 1 1 3)
                              (idle site_crew 0)))))) 1.
Proof.
  destruct (order_cost_is_a_snapshot no_fault wall_clock bob 1 1 3 site_crew 0
              (Json 200 (ordered_body "Material ordered successfully" 1350))
              (snd (run no_fault wall_clock (order_material bob 1 1 3) (idle site_crew 0)))
              (UserRow "bob" "bob@example.com" worker (Some "civil_engineer") false)
              root_ "Cement" "bag" 999 7)
    as (m & i & Hm & _ & Hin).
  - intros k. reflexivity.
  - vm_compute. reflexivity.
  - reflexivity.
  - vm_compute. reflexivity.
  - reflexivity.
  - assert (m = MaterialRow 450 10) as -> by (vm_compute in Hm; congruence).
    exists i. exact Hin.
Defined.

Lemma accept_after_project_deleted_witness :
  exists d1 n1 d2 n2,
    run_task no_fault wall_clock (delete_project_route alice 1) (idle site_pending 0)
    = (inr (Reply 200 (message_doc "Project deleted successfully")), idle d1 n1)
    /\ run no_fault wall_clock (respond bob 1 "accepted") (idle d1 n1)
       = (inr (Json 200 (message_body "Request accepted successfully")), idle d2 n2)
    /\ projects d2 !! 1 = None
    /\ is_available <$> users d2 !! 3 = Some false.
Proof.
  destruct (accept_after_project_deleted no_fault wall_clock alice bob 1 1
              (RequestRow 1 3 2 pending "join us" None) (ProjectRow 2 None planning)
              site_pending 0)
    as (d1 & n1 & d2 & n2 & Hrun1 & _ & _ & _ & Hrun2 & Hgone & _ & Hbusy).
  - intros k. reflexivity.
  - vm_compute. reflexivity.
  - right. reflexivity.
  - reflexivity.
  - vm_compute. reflexivity.
  - reflexivity.
  - reflexivity.
  - exists d1, n1, d2, n2. split; [exact Hrun1|]. split; [exact Hrun2|].
    split; [exact Hgone|]. change (id bob) with 3 in Hbusy. rewrite Hbusy.
    vm_compute. reflexivity.
Defined.

Lemma listing_matches_read_guard_witness :
  status_of (fst (run no_fault wall_clock (get_project_materials alice 1) (idle site1 0)))
  = Some 200.
Proof.
  destruct (listing_matches_read_guard no_fault wall_clock alice site1 0) as [_ Hiff].
  - intros k. reflexivity.
  - discriminate.
  - apply Hiff. exists (ProjectRow 2 (Some 3) in_progress), (Some "alice"), (Some "bob").
    apply listed_projects_spec. repeat split; vm_compute; reflexivity.
Defined.

Lemma accepted_project_is_listed_witness :
  (exists cn en,
      (1, ProjectRow 2 (Some 3) in_progress, cn, en)
      ∈ listed_projects (filter_of bob) site1)
  /\ exists p2 cn en,
       (1, p2, cn, en)
       ∈ listed_projects (filter_of bob)
           (data (serve_routes no_fault wall_clock
                    [PutProject alice 1 (Some "Villa") "planning";
                     Workflow (Assign bob 1 5 None)]
                    (snd (run no_fault wall_clock (respond bob 1 "accepted")
                            (idle site_pending 0))))).
Proof.
  destruct (accepted_project_is_listed no_fault wall_clock bob 1
              (RequestRow 1 3 2 pending "join us" None) (ProjectRow 2 None planning)
              site_pending 0
              (Json 200 (message_body "Request accepted successfully"))
              (snd (run no_fault wall_clock (respond bob 1 "accepted")
                      (idle site_pending 0))))
    as [Hnext Hlater].
  - vm_compute. reflexivity.
  - reflexivity.
  - vm_compute. reflexivity.
  - vm_compute. reflexivity.
  - split.
    + apply (Hnext (listed_projects (filter_of bob) site1)
               (snd (run_task no_fault wall_clock (get_projects bob)
                       (snd (run no_fault wall_clock (respond bob 1 "accepted")
                               (idle site_pending 0)))))).
      vm_compute. reflexivity.
    + eapply (Hlater [PutProject alice 1 (Some "Villa") "planning";
                      Workflow (Assign bob 1 5 None)]).
      * vm_compute. reflexivity.
      * vm_compute. eexists. reflexivity.
Defined.

Lemma request_shows_in_listings_witness :
  In (1, RequestRow 1 3 2 pending "join us" None) (sent_requests 2 site_pending)
  /\ exists r,
       In (1, r)
          (sent_requests 2
             (data (serve_routes no_fault wall_clock
                      [Workflow (Respond bob 1 "rejected"); DeleteProject alice 1]
                      (snd (run no_fault wall_clock (request_worker alice 1 3 "join us")
                              (idle site0 0))))))
       /\ wr_project_id r = 1 /\ wr_worker_id r = 3
       /\ wr_requested_by r = 2 /\ wr_message r = "join us".
Proof.
  destruct (request_shows_in_listings no_fault wall_clock alice 1 3 "join us" site0 0
              "Worker request sent successfully" 1
              (snd (run no_fault wall_clock (request_worker alice 1 3 "join us")
                      (idle site0 0)))
              (UserRow "alice" "alice@example.com" user None true) bob)
    as (_ & Hsent & Hlater & _).
  - vm_compute. reflexivity.
  - vm_compute. reflexivity.
  - reflexivity.
  - split.
    + apply (Hsent (sent_requests 2 site_pending)
               (snd (run_task no_fault wall_clock (get_sent_requests alice)
                       (snd (run no_fault wall_clock (request_worker alice 1 3 "join us")
                               (idle site0 0)))))).
      vm_compute. reflexivity.
    + eapply (Hlater [Workflow (Respond bob 1 "rejected"); DeleteProject alice 1]).
      vm_compute. reflexivity.
Defined.

Lemma request_needs_listed_engineer_witness :
  fst (run no_fault wall_clock (request_worker alice 1 3 "again") (idle site1 0))
  = inr (Json 400 (error_body "Worker not available")).
Proof.
  destruct (request_needs_listed_engineer no_fault wall_clock alice 1 3 "again"
              (ProjectRow 2 (Some 3) in_progress) site1 0) as [_ Hiff].
  - intros k. reflexivity.
  - vm_compute. reflexivity.
  - reflexivity.
  - apply Hiff. intros (nm & em & Hin).
    apply listed_engineers_spec in Hin as (row & Hrow & Hav & _).
    vm_compute in Hrow. injection Hrow as <-. discriminate Hav.
Defined.

Lemma accepted_engineer_never_requested_again_witness :
  status_of
    (fst (run no_fault wall_clock (request_worker alice 1 3 "again")
            (serve_routes no_fault wall_clock
               [Workflow (Respond bob 1 "rejected"); GetUsers bob;
                PutProject alice 1 (Some "Villa") "planning"]
               (snd (run no_fault wall_clock (respond bob 1 "accepted")
                       (idle site_pending 0))))))
  <> Some 201.
Proof.
  apply (accepted_engineer_never_requested_again no_fault wall_clock bob 1 site_pending 0
           (Json 200 (message_body "Request accepted successfully"))).
  - vm_compute. reflexivity.
  - reflexivity.
Defined.


Lemma milestone_delete_guarded_witness :
  exists d' n',
    run_task no_fault wall_clock (delete_milestone_route bob 1) (idle site_milestone 0)
    = (inr (Reply 200 (message_doc "Milestone deleted successfully")), idle d' n')
    /\ forall pid ms nm, (1, ms, nm) ∉ joined_milestones d' pid.
Proof.
  destruct (milestone_delete_guarded no_fault wall_clock bob 1 site_milestone 0)
    as (resp & d' & n' & Hrun & Hok & _).
  assert (Hresp : resp = Reply 200 (message_doc "Milestone deleted successfully")).
  { vm_compute in Hrun. injection Hrun as <- _ _. reflexivity. }
  subst resp. exists d', n'. split; [exact Hrun|]. apply Hok. reflexivity.
Defined.

Lemma nested_begin_fails_cleanly_witness :
  exists resp n',
    run no_fault wall_clock (handler (OrderMaterial bob 1 1 8))
      (Conn site_crew (Some site1) 3)
    = (inr resp, Conn (data (Conn site_crew (Some site1) 3)) (Some site1) n')
    /\ http_status resp <> 200.
Proof.
  exact (nested_begin_fails_cleanly no_fault wall_clock (OrderMaterial bob 1 1 8)
           (Conn site_crew (Some site1) 3) site1 eq_refl eq_refl).
Defined.

Lemma availability_never_returns_witness :
  exists row,
    users (data (serve_routes no_fault wall_clock
                   [Workflow (Respond bob 1 "rejected"); DeleteUser root_ 5;
                    Workflow (Assign bob 1 4 None)]
                   (idle site1 0))) !! 3 = Some row
    /\ is_available row = false.
Proof.
  exists (UserRow "bob" "bob@example.com" worker (Some "civil_engineer") false).
  assert (Hrow : users (data (serve_routes no_fault wall_clock
                                [Workflow (Respond bob 1 "rejected"); DeleteUser root_ 5;
                                 Workflow (Assign bob 1 4 None)]
                                (idle site1 0))) !! 3
                 = Some (UserRow "bob" "bob@example.com" worker (Some "civil_engineer")
                           false)).
  { vm_compute. reflexivity. }
  split; [exact Hrow|].
  apply (availability_never_returns no_fault wall_clock
           [Workflow (Respond bob 1 "rejected"); DeleteUser root_ 5;
            Workflow (Assign bob 1 4 None)]
           site1 0 3
           (UserRow "bob" "bob@example.com" worker (Some "civil_engineer") false)).
  - vm_compute. reflexivity.
  - reflexivity.
  - exact Hrow.
Defined.

Lemma requests_are_permanent_witness :
  exists r',
    worker_requests
      (data (serve_routes no_fault wall_clock
               [Workflow (Respond bob 1 "rejected"); DeleteProject alice 1;
                Workflow (RequestWorker alice 1 4 "hello")]
               (idle site1 0))) !! 1 = Some r'
    /\ r' = RequestRow 1 3 2 accepted "join us" (Some 1006).
Proof.
  destruct (requests_are_permanent no_fault wall_clock
              [Workflow (Respond bob 1 "rejected"); DeleteProject alice 1;
               Workflow (RequestWorker alice 1 4 "hello")]
              site1 0 1 (RequestRow 1 3 2 accepted "join us" (Some 1006)))
    as (r' & Hr' & _ & _ & _ & _ & Hsame).
  - vm_compute. reflexivity.
  - exists r'. split; [exact Hr'|]. apply Hsame. discriminate.
Defined.

Lemma pending_requests_stay_unique_witness :
  one_pending_per_pair
    (data (serve_routes no_fault wall_clock
             [Workflow (RequestWorker alice 1 3 "join us");
              Workflow (RequestWorker alice 1 3 "join us");
              Workflow (RequestWorker alice 1 4 "join us")]
             (idle site0 0))).
Proof.
  apply (pending_requests_stay_unique no_fault wall_clock).
  intros i j ri rj Hi. vm_compute in Hi. discriminate Hi.
Defined.

Lemma assignments_back_engineers_and_unavailability_witness :
  engineers_assigned
    (data (serve_routes no_fault wall_clock
             [Workflow (RequestWorker alice 1 3 "join us");
              Workflow (Respond bob 1 "accepted");
              Workflow (Assign bob 1 5 None)]
             (idle site0 0))).
Proof.
  apply (assignments_back_engineers_and_unavailability no_fault wall_clock).
  - intros pid p w Hp Hce.
    assert (H : map_Forall (fun _ q => civil_engineer_id q = None) (projects site0)).
    { apply (bool_decide_unpack _). vm_compute. exact I. }
    rewrite (H _ _ Hp) in Hce. discriminate Hce.
  - intros w row Hw Hav.
    assert (H : map_Forall (fun _ q => is_available q = true) (users site0)).
    { apply (bool_decide_unpack _). vm_compute. exact I. }
    rewrite (H _ _ Hw) in Hav. discriminate Hav.
Defined.

Lemma stock_nonneg_over_routes_witness :
  stock_nonneg
    (data (serve_routes no_fault wall_clock
             [PutMaterial root_ 1 (Some "Cement") (Some "bag") 500 20;
              Workflow (OrderMaterial bob 1 1 15); DeleteMaterial root_ 2]
             (idle site1 0))).
Proof.
  apply (stock_nonneg_over_routes no_fault wall_clock).
  - intros r [<-|[<-|[<-|[]]]]; reflexivity.
  - apply (bool_decide_unpack _). vm_compute. exact I.
Defined.

(** ** The order route on untyped bodies: agreement and failure *)

Lemma max_rowid_fmap {A B} (f : A -> B) (m : gmap Z A) :
  max_rowid (f <$> m) = max_rowid m.
Proof. unfold max_rowid. by rewrite map_fold_fmap. Qed.

Lemma integer_lt s q :
  less_than (read_cell (integer s)) (num (finite (inject_Z q))) = (s <? q)%Z.
Proof.
  cbn. unfold Qlt_bool, Qle_bool. cbn. rewrite !Z.mul_1_r. symmetry. apply Z.ltb_antisym.
Qed.

Lemma integer_times p q :
  times (read_cell (integer p)) (num (finite (inject_Z q))) = finite (inject_Z (p * q)).
Proof. cbn. by rewrite <- inject_Z_mult, inject_Z_Qred. Qed.

Lemma integer_minus s q : stored (sql_minus (integer s) (integer q)) = integer (s - q).
Proof.
  cbn. unfold Qminus. rewrite <- inject_Z_opp, <- inject_Z_plus, inject_Z_Qred.
  by rewrite Z.add_opp_r.
Qed.

Lemma raw_take_stock q (m : gmap Z material_row) mid :
  raw_material <$> alter (take_stock q) mid m
  = alter (take_raw_stock (integer q)) mid (raw_material <$> m).
Proof.
  apply fmap_alter. intros x _. unfold raw_material, take_raw_stock, take_stock.
  cbn [raw_price raw_stock price_per_unit stock_quantity]. by rewrite integer_minus.
Qed.

(** Each operation of the route on the untyped tables does what the
    typed one does. *)
Lemma perform_begin fault clock c :
  perform fault r_begin (raw_conn c)
  = (fst (exec_op fault clock begin_transaction c),
     raw_conn (snd (exec_op fault clock begin_transaction c))).
Proof.
  destruct c as [d sv n]. unfold perform, raw_conn, ticked. cbn.
  destruct (fault n); [done|]. by destruct sv.
Qed.

Lemma perform_commit fault clock c :
  perform fault r_commit (raw_conn c)
  = (fst (exec_op fault clock commit c), raw_conn (snd (exec_op fault clock commit c))).
Proof.
  destruct c as [d sv n]. unfold perform, raw_conn, ticked. cbn.
  destruct (fault n); [done|]. by destruct sv.
Qed.

Lemma perform_rollback fault clock c :
  perform fault r_rollback (raw_conn c)
  = (fst (exec_op fault clock rollback c), raw_conn (snd (exec_op fault clock rollback c))).
Proof. destruct c as [d sv n]. unfold perform, raw_conn, ticked. cbn. by destruct sv. Qed.

Lemma perform_select_project fault clock pid ce c :
  perform fault (r_select_project_of_engineer pid ce) (raw_conn c)
  = (fst (exec_op fault clock (stmt (select_project_of_engineer pid ce)) c),
     raw_conn (snd (exec_op fault clock (stmt (select_project_of_engineer pid ce)) c))).
Proof.
  destruct c as [d sv n]. unfold perform, raw_conn, ticked. cbn. by destruct (fault n).
Qed.

Lemma perform_select_material fault clock mid c :
  perform fault (r_select_material mid) (raw_conn c)
  = (match fst (exec_op fault clock (stmt (select_material mid)) c) with
     | inl e => inl e
     | inr material => inr (raw_material <$> material)
     end,
     raw_conn (snd (exec_op fault clock (stmt (select_material mid)) c))).
Proof.
  destruct c as [d sv n]. unfold perform, raw_conn, ticked. cbn.
  destruct (fault n); [done|]. cbn. by rewrite lookup_fmap.
Qed.

Lemma perform_insert fault clock pid mid q cost by_ c :
  perform fault (r_insert_project_material pid mid (integer q) (integer cost) by_)
    (raw_conn c)
  = (fst (exec_op fault clock (stmt (insert_project_material pid mid q cost by_)) c),
     raw_conn
       (snd (exec_op fault clock (stmt (insert_project_material pid mid q cost by_)) c))).
Proof.
  destruct c as [d sv n]. unfold perform, raw_conn, ticked. cbn.
  destruct (fault n); [done|]. cbn. unfold raw, next_rowid. cbn.
  by rewrite max_rowid_fmap, fmap_insert.
Qed.

Lemma perform_update fault clock q mid c :
  perform fault (r_update_material_stock (integer q) mid) (raw_conn c)
  = (fst (exec_op fault clock (stmt (update_material_stock q mid)) c),
     raw_conn (snd (exec_op fault clock (stmt (update_material_stock q mid)) c))).
Proof.
  destruct c as [d sv n]. unfold perform, raw_conn, ticked. cbn.
  destruct (fault n); [done|]. cbn. unfold raw. cbn. by rewrite raw_take_stock.
Qed.

(** X25. On a body whose quantity is a JSON integer the untyped route does
    what [order_material] does: the same answer, and the same tables and
    transaction state, whatever statements fail and whether or not a
    transaction is open. *)
Theorem post_order_on_integers fault clock u pid mid q c :
  exists resp c',
    run fault clock (order_material u pid mid q) c = (inr resp, c')
    /\ post_order fault u pid mid (num (finite (inject_Z q))) (raw_conn c)
       = (inr (answer_of resp), raw_conn c').
Proof.
  unfold order_material, post_order, db_get, db_run, await, respond_with, send,
    internal_error, rollback_and_rethrow, await.
  cbn [run bind try_catch]. unfold attempt at 1, and_then at 1.
  rewrite (perform_select_project fault clock).
  destruct (exec_op fault clock (stmt (select_project_of_engineer pid (id u))) c)
    as [[e|[p|]] c1]; cbn [fst snd run bind try_catch];
    try (eexists _, _; split; reflexivity).
  unfold and_then at 1. rewrite (perform_select_material fault clock).
  destruct (exec_op fault clock (stmt (select_material mid)) c1)
    as [[e|[m|]] c2]; cbn [fst snd run bind try_catch fmap option_fmap option_map];
    try (eexists _, _; split; reflexivity).
  change (raw_stock (raw_material m)) with (integer (stock_quantity m)).
  change (raw_price (raw_material m)) with (integer (price_per_unit m)).
  rewrite integer_lt, integer_times.
  change (bind_param (num (finite (inject_Z q)))) with (integer q).
  change (bind_param (num (finite (inject_Z (price_per_unit m * q)))))
    with (integer (price_per_unit m * q)).
  destruct (stock_quantity m <? q)%Z.
  { eexists _, _. split; reflexivity. }
  cbn [run bind try_catch]. unfold and_then at 1. rewrite (perform_begin fault clock).
  destruct (exec_op fault clock begin_transaction c2) as [[e|[]] c3];
    cbn [fst snd run bind try_catch]; [eexists _, _; split; reflexivity|].
  unfold attempt at 1, and_then at 1. rewrite (perform_insert fault clock).
  destruct (exec_op fault clock
              (stmt (insert_project_material pid mid q (price_per_unit m * q) (id u))) c3)
    as [[e|i] c4]; cbn [fst snd run bind try_catch].
  { unfold and_then. rewrite (perform_rollback fault clock).
    destruct (exec_op fault clock rollback c4) as [[e'|[]] c5];
      cbn [fst snd run bind try_catch]; eexists _, _; split; reflexivity. }
  unfold and_then at 1. rewrite (perform_update fault clock).
  destruct (exec_op fault clock (stmt (update_material_stock q mid)) c4)
    as [[e|[]] c5]; cbn [fst snd run bind try_catch].
  { unfold and_then. rewrite (perform_rollback fault clock).
    destruct (exec_op fault clock rollback c5) as [[e'|[]] c6];
      cbn [fst snd run bind try_catch]; eexists _, _; split; reflexivity. }
  unfold and_then at 1. rewrite (perform_commit fault clock).
  destruct (exec_op fault clock commit c5) as [[e|[]] c6];
    cbn [fst snd run bind try_catch].
  { unfold and_then. rewrite (perform_rollback fault clock).
    destruct (exec_op fault clock rollback c6) as [[e'|[]] c7];
      cbn [fst snd run bind try_catch]; eexists _, _; split; reflexivity. }
  eexists _, _. split; reflexivity.
Qed.

(** *** Outcomes on any quantity *)

Section UntypedOrders.
Variable fault : nat -> bool.




End UntypedOrders.

(** X30. A quantity given as a numeric string is ordered as its number:
    for " 3 " the civil engineer is answered 200 with the cost of three
    units, the row holds the quantity 3 and the stock goes from 10 to 7.
    A quantity of 2.5 is ordered as it is, and leaves a stock of 7.5 in
    the INTEGER column; a quantity of "12" is refused as 12 is. *)
Theorem order_of_numeric_text :
  (exists s',
      post_order no_fault bob 1 1 (str " 3 ") (raw_conn (idle site1 0))
      = (inr (200, answer_ordered "Material ordered successfully"
                     (finite (inject_Z 1350))),
         Link s' None 6)
      /\ st_materials s' !! 1 = Some (StockRow (integer 450) (integer 7))
      /\ st_orders s' !! 1 = Some (RawOrder 1 1 (integer 3) (integer 1350) 3))
  /\ (exists s',
         post_order no_fault bob 1 1 (num (finite (5 # 2))) (raw_conn (idle site1 0))
         = (inr (200, answer_ordered "Material ordered successfully"
                        (finite (inject_Z 1125))),
            Link s' None 6)
         /\ st_materials s' !! 1
            = Some (StockRow (integer 450) (c_num (finite (15 # 2))))
         /\ st_orders s' !! 1
            = Some (RawOrder 1 1 (c_num (finite (5 # 2))) (integer 1125) 3))
  /\ post_order no_fault bob 1 1 (str "12") (raw_conn (idle site1 0))
     = (inr (400, answer_error "Insufficient stock"), Link (raw site1) None 2).
Proof.
  split; [|split].
  - eexists. split; [vm_compute; reflexivity|]. split; vm_compute; reflexivity.
  - eexists. split; [vm_compute; reflexivity|]. split; vm_compute; reflexivity.
  - vm_compute. reflexivity.
Qed.

(** C3 fails on the code. The civil engineer of the project orders, from
    a material with ten units in stock, the quantity "20abc": JavaScript
    compares 10 with NaN, which is not less, so the order passes the
    stock test and is answered 200 (with a total_cost of NaN); the row is
    stored with the text as its quantity and no total_cost, and SQLite
    subtracts the number at the head of the text, leaving the stock at
    -10. An order without a quantity is accepted too, and leaves the
    stock NULL. *)
Theorem order_of_text_overdraws_stock :
  st_materials (raw site1) !! 1 = Some (StockRow (integer 450) (integer 10))
  /\ less_than (num (finite 10)) (str "20abc") = false
  /\ (exists s',
         post_order no_fault bob 1 1 (str "20abc") (raw_conn (idle site1 0))
         = (inr (200, answer_ordered "Material ordered successfully" nan), Link s' None 6)
         /\ st_materials s' !! 1 = Some (StockRow (integer 450) (integer (-10)))
         /\ st_orders s' !! 1 = Some (RawOrder 1 1 (c_text "20abc") c_null 3))
  /\ exists s',
       post_order no_fault bob 1 1 undefined (raw_conn (idle site1 0))
       = (inr (200, answer_ordered "Material ordered successfully" nan), Link s' None 6)
       /\ st_materials s' !! 1 = Some (StockRow (integer 450) c_null)
       /\ st_orders s' !! 1 = Some (RawOrder 1 1 c_null c_null 3).
Proof.
  split; [vm_compute; reflexivity|]. split; [vm_compute; reflexivity|].
  split; eexists; (split; [vm_compute; reflexivity|]); split; vm_compute; reflexivity.
Qed.

(** ** Route parameters as text: where the two readings part *)

(** X26. DELETE /users/0.1e1, called by the admin whose id is 1, deletes
    the caller's own account: parseInt reads 0 from the parameter, which
    is not the caller's id, and the store reads the text as the number 1
    in its four statements. DELETE /users/4abc answers 404 although user
    4 exists: parseInt reads 4, and the store reads no number from the
    text, which therefore equals no id. *)
Theorem delete_user_reads_parameter_twice :
  id root_ = 1
  /\ parse_int "0.1e1" = Some 0
  /\ integer_of_text "0.1e1" = Some 1
  /\ users site0 !! 1 = Some (UserRow "super_admin" "admin@gmail.com" admin None true)
  /\ run_task no_fault wall_clock (delete_user_text root_ "0.1e1") (idle site0 0)
     = (inr (Reply 200 (message_doc "User deleted successfully")),
        idle (with_users site0 (delete 1 (users site0))) 4)
  /\ users (with_users site0 (delete 1 (users site0))) !! 1 = None
  /\ parse_int "4abc" = Some 4
  /\ integer_of_text "4abc" = None
  /\ is_Some (users site0 !! 4)
  /\ run_task no_fault wall_clock (delete_user_text root_ "4abc") (idle site0 0)
     = (inr (Reply 404 (error_doc "User not found")), idle site0 1).
Proof.
  repeat split; try (vm_compute; reflexivity). vm_compute. eauto.
Qed.

(** ** Status columns as the store holds them: outcomes and agreement *)

Section NullableRoutes.
Variable fault : nat -> bool.
Variable clock : nat -> Z.
Variable wording : refusal -> string.

Ltac go :=
  cbn [present backup served exec_dml fst snd negb andb lg_users lg_projects lg_requests
       lg_workers lg_seq_workers].

Ltac said := go; do 3 eexists; split; [reflexivity|].

(** X7. PUT /projects/:id, for a body without an image, changes a project
    only for its owner or an admin, and only when the body has a name
    and its status is absent, null or one the CHECK constraint admits;
    it then sets the status, to NULL when the body has none, and keeps
    the owner and the civil engineer, so a project with an engineer can
    be put back to planning or left without a status. In every other
    case nothing changes; the update stays when only the SELECT after it
    fails. *)
Theorem project_update_keeps_engineer u pid name status l n :
  exists resp l' n',
    put_project_body fault clock wording u pid name status (Session l None n)
    = (inr resp, Session l' None n')
    /\ (l' = l /\ fst resp <> 200
        \/ exists p st,
             lg_projects l !! pid = Some p
             /\ (user_type u = admin \/ pc_created_by p = id u)
             /\ bind_param name <> c_null
             /\ passes_check project_status_of_string (bind_param status) = Some st
             /\ lg_projects l' !! pid
                = Some (ProjectCell (pc_created_by p) (pc_civil_engineer_id p) st)
             /\ (forall k, k <> pid -> lg_projects l' !! k = lg_projects l !! k)
             /\ lg_users l' = lg_users l
             /\ lg_requests l' = lg_requests l
             /\ lg_workers l' = lg_workers l
             /\ lg_seq_workers l' = lg_seq_workers l
             /\ (resp = (200, note_project (ProjectCell (pc_created_by p)
                                              (pc_civil_engineer_id p) st))
                 \/ resp = (500, note_error io_error)))
    /\ (reliable fault ->
        forall p st,
          lg_projects l !! pid = Some p ->
          user_type u = admin \/ pc_created_by p = id u ->
          bind_param name <> c_null ->
          passes_check project_status_of_string (bind_param status) = Some st ->
          fst resp = 200).
Proof.
  unfold put_project_body, attempt, and_then, ask, reply_with, pure, throw.
  go. destruct (fault n) eqn:F0.
  { said. split; [left; done|]. intros H. by rewrite H in F0. }
  destruct (lg_projects l !! pid) as [p|] eqn:Hp.
  2:{ said. split; [left; done|]. intros _ ? ? ?. done. }
  go. destruct (decide (user_type u = admin \/ pc_created_by p = id u)) as [Hm|Hm].
  2:{ rewrite !bool_decide_eq_false_2 by tauto. go.
      said. split; [left; done|]. intros _ ? ? [= <-] ? _ _. done. }
  assert (negb (bool_decide (user_type u = admin))
          && negb (bool_decide (pc_created_by p = id u)) = false) as ->.
  { destruct Hm as [Hm|Hm]; rewrite (bool_decide_eq_true_2 _ Hm); cbn [negb andb];
      [done|apply andb_false_r]. }
  go. destruct (fault (S n)) eqn:F1.
  { said. split; [left; done|]. intros H. by rewrite H in F1. }
  rewrite Hp.
  assert (Hname : bind_param name = c_null
                  \/ bind_param name <> c_null
                     /\ forall (A : Type) (x y : A),
                          match bind_param name with c_null => x | _ => y end = y).
  { destruct (bind_param name); [by left|right; done..]. }
  destruct Hname as [Hn|[Hn Hn']].
  { rewrite Hn. said. split; [left; done|]. intros _ ? ? _ _ ?. done. }
  rewrite Hn'.
  destruct (passes_check project_status_of_string (bind_param status)) as [st|] eqn:Hst.
  2:{ said. split; [left; done|]. intros _ ? ? _ _ _ ?. done. }
  go. rewrite lookup_alter_eq, Hp. cbn [fmap option_fmap option_map restated].
  destruct (fault (S (S n))) eqn:F2; said.
  all: split;
    [right; exists p, st; cbn [lg_projects lg_users lg_requests lg_workers lg_seq_workers];
     rewrite lookup_alter_eq, Hp;
     repeat (split; [done|]);
     split; [intros k Hk; by rewrite lookup_alter_ne|];
     repeat (split; [done|]); auto|].
  - intros H. by rewrite H in F2.
  - done.
Qed.


(** A response on a reliable connection to a request of the caller's
    that is pending. *)
Lemma respond_body_reliable u rid request status l n :
  reliable fault ->
  user_type u = worker ->
  lg_requests l !! rid = Some request ->
  rc_worker_id request = id u ->
  rc_status request = Some pending ->
  respond_body fault clock wording u rid status (Session l None n)
  = match passes_check request_status_of_string (bind_param status) with
    | None =>
        (inr (500, note_error (wording request_status_unlisted)),
         Session l None (S (S (S (S n)))))
    | Some st =>
        let l1 := Ledger (lg_users l) (lg_projects l)
                    (alter (responded st (clock (S (S n)))) rid (lg_requests l))
                    (lg_workers l) (lg_seq_workers l) in
        if is_accepted status then
          let i := next_rowid (lg_seq_workers l) (lg_workers l) in
          (inr (200, note_responded status),
           Session
             (Ledger (alter set_unavailable (id u) (lg_users l))
                (alter (engaged (id u)) (rc_project_id request) (lg_projects l))
                (lg_requests l1)
                (<[i := AssignmentRow (rc_project_id request) (id u) (id u)
                          (Some "civil_engineer")]> (lg_workers l)) i)
             None (S (S (S (S (S (S (S n))))))))
        else (inr (200, note_responded status), Session l1 None (S (S (S (S n)))))
    end.
Proof.
  intros Hrel Hu Hrow Hw Hs.
  unfold respond_body. rewrite (bool_decide_eq_true_2 _ Hu). cbn [negb].
  unfold attempt at 1, and_then at 1, ask at 1. go. rewrite Hrel, Hrow. cbn [row_where].
  rewrite (bool_decide_eq_true_2 _ Hw), (bool_decide_eq_true_2 _ Hs). go.
  unfold and_then at 1, ask at 1. go. rewrite Hrel.
  unfold attempt at 1, and_then at 1, ask at 1. go. rewrite Hrel, Hrow.
  destruct (passes_check request_status_of_string (bind_param status)) as [st|].
  2:{ unfold and_then, ask, throw, reply_with, pure. go. done. }
  go. destruct (is_accepted status).
  - unfold and_then, ask, reply_with, pure. go. rewrite !Hrel. go. done.
  - unfold and_then, ask, reply_with, pure. go. rewrite !Hrel. go. done.
Qed.

(** X16. The status of a response is not validated by the handler. With
    no statement failing, the string "pending" is accepted: the call
    answers 200, writes the response time and leaves the request pending
    and every other row as it was, so that the request can still be
    accepted afterwards. A body without a status, or with a null one, is
    accepted too: the call answers 200 and leaves the request with the
    status NULL and a response time, after which every response to it is
    answered 400. A status that is none of pending, accepted and
    rejected, a number included, is refused only by the CHECK constraint
    of the table, inside the transaction: the call answers 500 with the
    store's message and the tables are as before. *)
Theorem respond_status_unvalidated u rid request status l n :
  reliable fault ->
  user_type u = worker ->
  lg_requests l !! rid = Some request ->
  rc_worker_id request = id u ->
  rc_status request = Some pending ->
  (exists now l1 n1 l2 n2,
      respond_body fault clock wording u rid (str "pending") (Session l None n)
      = (inr (200, note_responded (str "pending")), Session l1 None n1)
      /\ lg_requests l1 !! rid
         = Some (RequestCell (rc_project_id request) (rc_worker_id request)
                   (rc_requested_by request) (Some pending) (rc_message request) (Some now))
      /\ (forall k, k <> rid -> lg_requests l1 !! k = lg_requests l !! k)
      /\ lg_projects l1 = lg_projects l
      /\ lg_workers l1 = lg_workers l
      /\ lg_users l1 = lg_users l
      /\ respond_body fault clock wording u rid (str "accepted") (Session l1 None n1)
         = (inr (200, note_responded (str "accepted")), Session l2 None n2)
      /\ rc_status <$> lg_requests l2 !! rid = Some (Some accepted))
  /\ (bind_param status = c_null ->
      exists now l1 n1,
        respond_body fault clock wording u rid status (Session l None n)
        = (inr (200, note_responded status), Session l1 None n1)
        /\ lg_requests l1 !! rid
           = Some (RequestCell (rc_project_id request) (rc_worker_id request)
                     (rc_requested_by request) None (rc_message request) (Some now))
        /\ (forall k, k <> rid -> lg_requests l1 !! k = lg_requests l !! k)
        /\ lg_projects l1 = lg_projects l
        /\ lg_workers l1 = lg_workers l
        /\ lg_users l1 = lg_users l
        /\ forall status' n2,
             exists n3,
               respond_body fault clock wording u rid status' (Session l1 None n2)
               = (inr (400, note_error "Request already responded to"),
                  Session l1 None n3))
  /\ (passes_check request_status_of_string (bind_param status) = None ->
      exists n',
        respond_body fault clock wording u rid status (Session l None n)
        = (inr (500, note_error (wording request_status_unlisted)), Session l None n')).
Proof.
  intros Hrel Hu Hrow Hw Hs. split; [|split].
  - rewrite (respond_body_reliable u rid request (str "pending") l n) by done.
    cbn [bind_param passes_check is_accepted]. unfold request_status_of_string at 1.
    cbn [decide]. rewrite decide_True by done.
    rewrite bool_decide_eq_false_2 by discriminate. cbv zeta.
    set (l1 := Ledger _ _ _ _ _).
    assert (Hrow1 : lg_requests l1 !! rid
                    = Some (responded (Some pending) (clock (S (S n))) request)).
    { subst l1. go. by rewrite lookup_alter_eq, Hrow. }
    exists (clock (S (S n))), l1, (S (S (S (S n)))).
    rewrite (respond_body_reliable u rid _ (str "accepted") l1 _ Hrel Hu Hrow1) by done.
    cbn [bind_param passes_check is_accepted]. unfold request_status_of_string at 1.
    rewrite decide_False by discriminate. rewrite decide_True by done.
    rewrite bool_decide_eq_true_2 by done. cbv zeta.
    do 2 eexists. split; [reflexivity|]. split; [exact Hrow1|].
    split; [intros k Hk; subst l1; go; by rewrite lookup_alter_ne|].
    do 3 (split; [done|]). split; [reflexivity|].
    go. by rewrite lookup_alter_eq, Hrow1.
  - intros Hnull.
    rewrite (respond_body_reliable u rid request status l n) by done.
    rewrite Hnull. cbn [passes_check].
    assert (is_accepted status = false) as ->.
    { destruct status as [| | |[]|]; try done. }
    cbv zeta. set (l1 := Ledger _ _ _ _ _).
    assert (Hrow1 : lg_requests l1 !! rid = Some (responded None (clock (S (S n))) request)).
    { subst l1. go. by rewrite lookup_alter_eq, Hrow. }
    do 3 eexists. split; [reflexivity|]. split; [exact Hrow1|].
    split; [intros k Hk; subst l1; go; by rewrite lookup_alter_ne|].
    do 3 (split; [done|]). intros status' n2.
    unfold respond_body. rewrite (bool_decide_eq_true_2 _ Hu). cbn [negb].
    unfold attempt, and_then, ask, reply_with, pure. go. rewrite Hrel, Hrow1.
    cbn [row_where responded rc_worker_id rc_status].
    rewrite (bool_decide_eq_true_2 _ Hw). rewrite bool_decide_eq_false_2 by discriminate.
    go. eexists. reflexivity.
  - intros Hbad.
    rewrite (respond_body_reliable u rid request status l n) by done.
    rewrite Hbad. eexists. reflexivity.
Qed.

End NullableRoutes.

(** *** Agreement with the handlers on strings *)

Lemma row_where_fmap {A B} (f : A -> B) (P : A -> bool) (Q : B -> bool) (o : option A) :
  (forall a, Q (f a) = P a) ->
  row_where Q (f <$> o) = f <$> row_where P o.
Proof. intros H. destruct o as [a|]; [|done]. cbn. rewrite H. by destruct (P a). Qed.

Lemma passes_check_text {A} (parse : string -> option A) s :
  passes_check parse (bind_param (str s)) = Some <$> parse s.
Proof. cbn. by destruct (parse s). Qed.

(** Each operation of the two routes on these tables does what the typed
    one does. *)
Lemma ask_begin fault clock wording c :
  ask fault clock wording t_begin (session_of c)
  = (fst (exec_op fault clock begin_transaction c),
     session_of (snd (exec_op fault clock begin_transaction c))).
Proof.
  destruct c as [d sv n]. unfold ask, session_of. cbn.
  destruct (fault n); [done|]. by destruct sv.
Qed.

Lemma ask_commit fault clock wording c :
  ask fault clock wording t_commit (session_of c)
  = (fst (exec_op fault clock commit c), session_of (snd (exec_op fault clock commit c))).
Proof.
  destruct c as [d sv n]. unfold ask, session_of. cbn.
  destruct (fault n); [done|]. by destruct sv.
Qed.

Lemma ask_rollback fault clock wording c :
  ask fault clock wording t_rollback (session_of c)
  = (fst (exec_op fault clock rollback c), session_of (snd (exec_op fault clock rollback c))).
Proof. destruct c as [d sv n]. unfold ask, session_of. cbn. by destruct sv. Qed.

Lemma ask_select_request fault clock wording rid wid c :
  ask fault clock wording (t_stmt (n_select_request_of_worker rid wid)) (session_of c)
  = (match fst (exec_op fault clock (stmt (select_request_of_worker rid wid)) c) with
     | inl e => inl e
     | inr request => inr (request_cell_of <$> request)
     end,
     session_of (snd (exec_op fault clock (stmt (select_request_of_worker rid wid)) c))).
Proof.
  destruct c as [d sv n]. unfold ask, session_of. cbn.
  destruct (fault n); [done|]. cbn. rewrite lookup_fmap.
  by rewrite (row_where_fmap request_cell_of (fun r => bool_decide (wr_worker_id r = wid))).
Qed.

Lemma ask_update_status fault clock status rid c :
  ask fault clock wording_above
    (t_stmt (n_update_request_status (bind_param (str status)) rid)) (session_of c)
  = (fst (exec_op fault clock (stmt (update_request_status status rid)) c),
     session_of (snd (exec_op fault clock (stmt (update_request_status status rid)) c))).
Proof.
  destruct c as [d sv n]. unfold ask, session_of. cbn [present backup served data saved ticks].
  cbn [exec_op data saved ticks]. destruct (fault n); [done|].
  cbn [exec_dml exec_sql ledger_of lg_requests]. rewrite lookup_fmap.
  destruct (worker_requests d !! rid) as [r|]; cbn [fmap option_fmap option_map]; [|done].
  rewrite passes_check_text.
  destruct (request_status_of_string status) as [st|]; cbn [fmap option_fmap option_map];
    [|done].
  cbn [fst snd data saved ticks]. unfold ledger_of. cbn. do 3 f_equal.
  symmetry. by apply fmap_alter.
Qed.

Lemma ask_update_engineer fault clock wording ce pid c :
  ask fault clock wording (t_stmt (n_update_project_engineer ce pid)) (session_of c)
  = (fst (exec_op fault clock (stmt (update_project_engineer ce pid)) c),
     session_of (snd (exec_op fault clock (stmt (update_project_engineer ce pid)) c))).
Proof.
  destruct c as [d sv n]. unfold ask, session_of. cbn.
  destruct (fault n); [done|]. cbn. unfold ledger_of. cbn. do 3 f_equal.
  symmetry. by apply fmap_alter.
Qed.

Lemma ask_insert_worker fault clock wording pid wid by_ role c :
  ask fault clock wording (t_stmt (n_insert_project_worker pid wid by_ role)) (session_of c)
  = (fst (exec_op fault clock (stmt (insert_project_worker pid wid by_ role)) c),
     session_of (snd (exec_op fault clock (stmt (insert_project_worker pid wid by_ role)) c))).
Proof.
  destruct c as [d sv n]. unfold ask, session_of. cbn. by destruct (fault n).
Qed.

Lemma ask_unavailable fault clock wording wid c :
  ask fault clock wording (t_stmt (n_update_user_unavailable wid)) (session_of c)
  = (fst (exec_op fault clock (stmt (update_user_unavailable wid)) c),
     session_of (snd (exec_op fault clock (stmt (update_user_unavailable wid)) c))).
Proof.
  destruct c as [d sv n]. unfold ask, session_of. cbn. by destruct (fault n).
Qed.

Lemma ask_select_project fault clock wording pid c :
  ask fault clock wording (t_stmt (n_select_project pid)) (session_of c)
  = (match fst (exec_op fault clock (stmt (select_project pid)) c) with
     | inl e => inl e
     | inr project => inr (project_cell_of <$> project)
     end,
     session_of (snd (exec_op fault clock (stmt (select_project pid)) c))).
Proof.
  destruct c as [d sv n]. unfold ask, session_of. cbn.
  destruct (fault n); [done|]. cbn. by rewrite lookup_fmap.
Qed.

(** The name of a form as JavaScript holds it. *)
Lemma ask_update_project fault clock name status pid c :
  ask fault clock wording_above
    (t_stmt (n_update_project
               (bind_param (match name with Some s => str s | None => undefined end))
               (bind_param (str status)) pid))
    (session_of c)
  = (fst (exec_opx fault clock (stmtx (update_project name status pid)) c),
     session_of (snd (exec_opx fault clock (stmtx (update_project name status pid)) c))).
Proof.
  destruct c as [d sv n]. unfold ask, session_of. cbn [present backup served data saved ticks].
  cbn [exec_opx data saved ticks]. destruct (fault n); [done|].
  cbn [exec_dml exec_sqlx ledger_of lg_projects]. rewrite lookup_fmap.
  destruct (projects d !! pid) as [p|]; cbn [fmap option_fmap option_map]; [|done].
  destruct name as [s|]; cbn [bind_param]; [|done].
  change (c_text status) with (bind_param (str status)). rewrite passes_check_text.
  destruct (project_status_of_string status) as [st|]; cbn [fmap option_fmap option_map];
    [|done].
  cbn [fst snd data saved ticks]. unfold ledger_of. cbn. do 3 f_equal.
  symmetry. by apply fmap_alter.
Qed.

(** X27. On a body whose status is a string the route on untyped bodies
    does what [respond] does: the same answer, and the same tables and
    transaction state, whatever statements fail and whether or not a
    transaction is open. *)
Theorem respond_on_strings fault clock u rid status c :
  exists resp c',
    run fault clock (respond u rid status) c = (inr resp, c')
    /\ respond_body fault clock wording_above u rid (str status) (session_of c)
       = (inr (note_of_response status resp), session_of c').
Proof.
  unfold respond, respond_body.
  destruct (bool_decide (user_type u = worker)); cbn [negb];
    [|eexists _, _; split; reflexivity].
  unfold db_get, db_run, await, reply_with, send, internal_error, rollback_and_rethrow,
    await.
  cbn [run bind try_catch]. unfold attempt at 1, and_then at 1.
  rewrite ask_select_request.
  destruct (exec_op fault clock (stmt (select_request_of_worker rid (id u))) c)
    as [[e|[request|]] c1]; cbn [fst snd run bind try_catch fmap option_fmap option_map];
    try (eexists _, _; split; reflexivity).
  assert (bool_decide (rc_status (request_cell_of request) = Some pending)
          = bool_decide (wr_status request = pending)) as ->.
  { apply bool_decide_ext. cbn. split; congruence. }
  destruct (bool_decide (wr_status request = pending)); cbn [negb];
    [|eexists _, _; split; reflexivity].
  cbn [run bind try_catch]. unfold and_then at 1. rewrite ask_begin.
  destruct (exec_op fault clock begin_transaction c1) as [[e|[]] c2];
    cbn [fst snd run bind try_catch]; [eexists _, _; split; reflexivity|].
  unfold attempt at 1, and_then at 1. rewrite ask_update_status.
  destruct (exec_op fault clock (stmt (update_request_status status rid)) c2)
    as [[e|[]] c3]; cbn [fst snd run bind try_catch].
  { unfold and_then. rewrite ask_rollback.
    destruct (exec_op fault clock rollback c3) as [[e'|[]] c4];
      cbn [fst snd run bind try_catch]; eexists _, _; split; reflexivity. }
  cbn [is_accepted rc_project_id request_cell_of].
  destruct (bool_decide (status = "accepted")); cbn [run bind try_catch].
  - unfold and_then at 1. unfold and_then at 1. rewrite ask_update_engineer.
    destruct (exec_op fault clock
                (stmt (update_project_engineer (id u) (wr_project_id request))) c3)
      as [[e|[]] c4]; cbn [fst snd run bind try_catch].
    { unfold and_then. rewrite ask_rollback.
      destruct (exec_op fault clock rollback c4) as [[e'|[]] c5];
        cbn [fst snd run bind try_catch]; eexists _, _; split; reflexivity. }
    unfold and_then at 1. rewrite ask_insert_worker.
    destruct (exec_op fault clock
                (stmt (insert_project_worker (wr_project_id request) (id u) (id u)
                         (Some "civil_engineer"))) c4)
      as [[e|i] c5]; cbn [fst snd run bind try_catch].
    { unfold and_then. rewrite ask_rollback.
      destruct (exec_op fault clock rollback c5) as [[e'|[]] c6];
        cbn [fst snd run bind try_catch]; eexists _, _; split; reflexivity. }
    rewrite ask_unavailable.
    destruct (exec_op fault clock (stmt (update_user_unavailable (id u))) c5)
      as [[e|[]] c6]; cbn [fst snd run bind try_catch].
    { unfold and_then. rewrite ask_rollback.
      destruct (exec_op fault clock rollback c6) as [[e'|[]] c7];
        cbn [fst snd run bind try_catch]; eexists _, _; split; reflexivity. }
    unfold and_then at 1. rewrite ask_commit.
    destruct (exec_op fault clock commit c6) as [[e|[]] c7];
      cbn [fst snd run bind try_catch].
    { unfold and_then. rewrite ask_rollback.
      destruct (exec_op fault clock rollback c7) as [[e'|[]] c8];
        cbn [fst snd run bind try_catch]; eexists _, _; split; reflexivity. }
    eexists _, _. split; reflexivity.
  - unfold and_then at 1. unfold pure at 1. unfold and_then at 1. rewrite ask_commit.
    destruct (exec_op fault clock commit c3) as [[e|[]] c4];
      cbn [fst snd run bind try_catch].
    { unfold and_then. rewrite ask_rollback.
      destruct (exec_op fault clock rollback c4) as [[e'|[]] c5];
        cbn [fst snd run bind try_catch]; eexists _, _; split; reflexivity. }
    eexists _, _. split; reflexivity.
Qed.

(** X28. On a body whose status is a string the route on untyped bodies
    does what [put_project] does, with the same answer and the same
    tables, whatever statements fail. *)
Theorem put_project_on_strings fault clock u pid name status c :
  exists resp c',
    run_task fault clock (put_project u pid name status) c = (inr resp, c')
    /\ put_project_body fault clock wording_above u pid
         (match name with Some s => str s | None => undefined end) (str status)
         (session_of c)
       = (inr (note_of_reply resp), session_of c').
Proof.
  unfold put_project, put_project_body, get_core, run_x, wait, reply_with, answer,
    server_error.
  cbn [run_task task_bind task_catch exec_opx]. unfold attempt at 1, and_then at 1.
  rewrite ask_select_project.
  destruct (exec_op fault clock (stmt (select_project pid)) c)
    as [[e|[project|]] c1];
    cbn [fst snd run_task task_bind task_catch fmap option_fmap option_map];
    try (eexists _, _; split; reflexivity).
  change (pc_created_by (project_cell_of project)) with (created_by project).
  destruct (negb (bool_decide (user_type u = admin))
            && negb (bool_decide (created_by project = id u)));
    cbn [run_task task_bind task_catch]; [eexists _, _; split; reflexivity|].
  unfold and_then at 1. rewrite ask_update_project.
  destruct (exec_opx fault clock (stmtx (update_project name status pid)) c1)
    as [[e|[]] c2]; cbn [fst snd run_task task_bind task_catch exec_opx];
    [eexists _, _; split; reflexivity|].
  unfold and_then at 1. rewrite ask_select_project.
  destruct (exec_op fault clock (stmt (select_project pid)) c2)
    as [[e|[updated|]] c3];
    cbn [fst snd run_task task_bind task_catch fmap option_fmap option_map];
    eexists _, _; split; reflexivity.
Qed.

(** *** On the sample data *)

Lemma project_update_keeps_engineer_witness :
  lg_projects (ledger_of site1) !! 1 = Some (ProjectCell 2 (Some 3) (Some in_progress))
  /\ exists l' n',
       put_project_body no_fault wall_clock wording_above alice 1 (str "Villa") undefined
         (Session (ledger_of site1) None 0)
       = (inr (200, note_project (ProjectCell 2 (Some 3) None)), Session l' None n')
       /\ lg_projects l' !! 1 = Some (ProjectCell 2 (Some 3) None).
Proof.
  split; [vm_compute; reflexivity|].
  destruct (project_update_keeps_engineer no_fault wall_clock wording_above alice 1
              (str "Villa") undefined (ledger_of site1) 0)
    as (resp & l' & n' & Hrun & Hres & _).
  assert (Hresp : resp = (200, note_project (ProjectCell 2 (Some 3) None))).
  { vm_compute in Hrun. injection Hrun as <- _ _. reflexivity. }
  subst resp. exists l', n'. split; [exact Hrun|].
  destruct Hres as [[_ Hno]|(p & st & Hp & _ & _ & Hst & Hrow & _)].
  - exfalso. apply Hno. reflexivity.
  - vm_compute in Hp. injection Hp as <-. injection Hst as <-. exact Hrow.
Defined.

Lemma respond_status_unvalidated_witness :
  (exists now l1 n1,
      respond_body no_fault wall_clock wording_above bob 1 undefined
        (Session (ledger_of site_pending) None 0)
      = (inr (200, note_responded undefined), Session l1 None n1)
      /\ lg_requests l1 !! 1 = Some (RequestCell 1 3 2 None "join us" (Some now))
      /\ exists n3,
           respond_body no_fault wall_clock wording_above bob 1 (str "accepted")
             (Session l1 None n1)
           = (inr (400, note_error "Request already responded to"), Session l1 None n3))
  /\ (exists now l1 n1,
         respond_body no_fault wall_clock wording_above bob 1 (str "pending")
           (Session (ledger_of site_pending) None 0)
         = (inr (200, note_responded (str "pending")), Session l1 None n1)
         /\ lg_requests l1 !! 1
            = Some (RequestCell 1 3 2 (Some pending) "join us" (Some now)))
  /\ exists n',
       respond_body no_fault wall_clock wording_above bob 1 (num (finite 5))
         (Session (ledger_of site_pending) None 0)
       = (inr (500, note_error (wording_above request_status_unlisted)),
          Session (ledger_of site_pending) None n').
Proof.
  assert (Hrel : reliable no_fault) by (intros k; reflexivity).
  assert (Hrow : lg_requests (ledger_of site_pending) !! 1
                 = Some (RequestCell 1 3 2 (Some pending) "join us" None))
    by (vm_compute; reflexivity).
  pose proof (respond_status_unvalidated no_fault wall_clock wording_above bob 1
                (RequestCell 1 3 2 (Some pending) "join us" None) undefined
                (ledger_of site_pending) 0 Hrel eq_refl Hrow eq_refl eq_refl)
    as (Hpending & Hnull & _).
  pose proof (respond_status_unvalidated no_fault wall_clock wording_above bob 1
                (RequestCell 1 3 2 (Some pending) "join us" None) (num (finite 5))
                (ledger_of site_pending) 0 Hrel eq_refl Hrow eq_refl eq_refl)
    as (_ & _ & Hbad).
  split; [|split].
  - destruct (Hnull eq_refl) as (now & l1 & n1 & Hrun & Hrow1 & _ & _ & _ & _ & Hafter).
    exists now, l1, n1. split; [exact Hrun|]. split; [exact Hrow1|].
    exact (Hafter (str "accepted") n1).
  - destruct Hpending as (now & l1 & n1 & _ & _ & Hrun & Hrow1 & _).
    exists now, l1, n1. split; [exact Hrun|exact Hrow1].
  - exact (Hbad eq_refl).
Defined.
